(** * Class scoreboard: the score state and its day rollover (src/app.js)

    A shallow embedding of [ScoreboardState], of the timer callbacks it
    arms and of the visibility listener of [ScoreboardEventHandler].
    Methods are computations over an explicit browser world: the state
    object, [localStorage], the clock, the table of pending timers and
    the console. Built-ins of the platform ([JSON], [Intl], [Date]
    parsing) are the fields of a [Platform] class; a reference platform
    with a JSON reader and the civil calendar of Asia/Taipei serves the
    closed examples. *)

From stdpp Require Import base option list gmap strings pretty.
From Stdlib Require Import ZArith String Ascii Lia.

Local Open Scope string_scope.
Local Open Scope Z_scope.

(** ** Constants (app.js lines 7-15) *)

Module CONFIG.
Definition LANES : Z := 6.
Definition MAX_LEVELS : Z := 20.
Definition TIMEZONE : string := "Asia/Taipei".
Definition STORAGE_KEY : string := "classScoreboard.v1".
Definition GRID_HEIGHT : Z := 30.
End CONFIG.

(** ** Data *)

(** Handles returned by [setTimeout]: positive integers, hence truthy. *)
Abbreviation TimerId := positive.

(** The fields the constructor declares (lines 19-28). [None] in a timer
    field is the [null] of the source. *)
Record ScoreboardState := {
  levels : list Z;
  maxLevels : Z;
  timezone : string;
  dateKey : string;
  lastUpdated : Z;
  isLocked : bool;
  midnightTimer : option TimerId;
  visibilityTimer : option TimerId
}.

(** The object [save] serialises and [loadOrInit] reads back. The fields
    the source tests with [===] or defaults with [||] are optional
    ([None]: absent, or of another JavaScript type); [levels] is an array
    of integers and [lastUpdated] an integer. *)
Record StoredData := {
  data_version : option Z;
  data_tz : option string;
  data_dateKey : option string;
  data_levels : list Z;
  data_maxLevels : option Z;
  data_lastUpdated : Z
}.

(** What the model takes from the platform.
    - [JSON_stringify], [JSON_parse]: [None] stands for a text from which
      the [try] block gets no record ([SyntaxError], or [TypeError] on
      reading a property of [null]).
    - [Intl_dateParts tz t]: the year, month and day values of
      [formatToParts] for the instant [t] (epoch milliseconds) in zone
      [tz], with 2-digit month and day.
    - [Intl_format tz t]: the en-CA short date of [t] in zone [tz].
    - [Date_parse s]: [new Date(s).getTime()], which reads a date-time
      without offset in the zone of the machine.
    Zone identifiers are taken to be valid: the formatters are total. *)
Class Platform := {
  JSON_stringify : StoredData -> string;
  JSON_parse : string -> option StoredData;
  Intl_dateParts : string -> Z -> string * string * string;
  Intl_format : string -> Z -> string;
  Date_parse : string -> Z
}.

Inductive Error :=
| SyntaxError
| TypeError
| SecurityError
| QuotaExceededError.

(** [localStorage] under [CONFIG.STORAGE_KEY]: the stored text, and
    whether the browser grants access or has room left. *)
Inductive StorageMode := Available | Full | Denied.

Record LocalStorage := {
  item : option string;
  mode : StorageMode
}.

(** The two closures handed to [setTimeout] (lines 151 and 339). *)
Inductive Callback := MidnightReset | VisibilityCheck.

Record Timer := {
  callback : Callback;
  delay : Z
}.

Inductive LogEntry :=
| Warn (e : Error)
| Err (e : Error)
| Log.

Record World := {
  state : ScoreboardState;
  localStorage : LocalStorage;
  clock : Z;
  timers : gmap positive Timer;
  nextTimer : positive;
  hidden : bool;
  console : list LogEntry
}.

(** ** Computations: world passing with JavaScript exceptions *)

Inductive Completion (A : Type) :=
| Normal (a : A)
| Abrupt (e : Error).
Arguments Normal {A} a.
Arguments Abrupt {A} e.

Definition JS (A : Type) : Type := World -> Completion A * World.

#[global] Instance JS_ret : MRet JS := fun A a w => (Normal a, w).

#[global] Instance JS_bind : MBind JS := fun A B f m w =>
  match m w with
  | (Normal a, w') => f a w'
  | (Abrupt e, w') => (Abrupt e, w')
  end.

Definition throw {A} (e : Error) : JS A := fun w => (Abrupt e, w).

(** [try { body } catch (error) { handler }]: what [body] did to the
    world before it threw stays done. *)
Definition try_catch {A} (body : JS A) (handler : Error -> JS A) : JS A :=
  fun w =>
    match body w with
    | (Normal a, w') => (Normal a, w')
    | (Abrupt e, w') => handler e w'
    end.

(** Updates of one component of the world. *)
Definition with_state (s : ScoreboardState) (w : World) : World :=
  {| state := s; localStorage := localStorage w; clock := clock w;
     timers := timers w; nextTimer := nextTimer w; hidden := hidden w;
     console := console w |}.

Definition with_localStorage (l : LocalStorage) (w : World) : World :=
  {| state := state w; localStorage := l; clock := clock w;
     timers := timers w; nextTimer := nextTimer w; hidden := hidden w;
     console := console w |}.

Definition with_timers (t : gmap positive Timer) (n : positive) (w : World) : World :=
  {| state := state w; localStorage := localStorage w; clock := clock w;
     timers := t; nextTimer := n; hidden := hidden w;
     console := console w |}.

Definition with_console (c : list LogEntry) (w : World) : World :=
  {| state := state w; localStorage := localStorage w; clock := clock w;
     timers := timers w; nextTimer := nextTimer w; hidden := hidden w;
     console := c |}.

Definition get_this : JS ScoreboardState := fun w => (Normal (state w), w).

Definition set_this (s : ScoreboardState) : JS unit := fun w =>
  (Normal tt, with_state s w).

Definition Date_now : JS Z := fun w => (Normal (clock w), w).

Definition document_hidden : JS bool := fun w => (Normal (hidden w), w).

Definition console_write (l : LogEntry) : JS unit := fun w =>
  (Normal tt, with_console (console w ++ [l]) w).

Definition localStorage_getItem : JS (option string) := fun w =>
  match mode (localStorage w) with
  | Denied => (Abrupt SecurityError, w)
  | _ => (Normal (item (localStorage w)), w)
  end.

Definition localStorage_setItem (v : string) : JS unit := fun w =>
  match mode (localStorage w) with
  | Denied => (Abrupt SecurityError, w)
  | Full => (Abrupt QuotaExceededError, w)
  | Available =>
      (Normal tt, with_localStorage {| item := Some v; mode := Available |} w)
  end.

(** [setTimeout(cb, ms)]: a fresh handle, the timer entered as pending. *)
Definition setTimeout (cb : Callback) (ms : Z) : JS TimerId := fun w =>
  (Normal (nextTimer w),
   with_timers (<[nextTimer w := {| callback := cb; delay := ms |}]> (timers w))
               (Pos.succ (nextTimer w)) w).

(** [clearTimeout(h)]: the timer is no longer pending; a handle that is
    not pending is ignored. *)
Definition clearTimeout (h : TimerId) : JS unit := fun w =>
  (Normal tt, with_timers (delete h (timers w)) (nextTimer w) w).

(** Assignments to the fields of [this]. *)
Definition with_levels (l : list Z) (s : ScoreboardState) : ScoreboardState :=
  {| levels := l; maxLevels := maxLevels s; timezone := timezone s;
     dateKey := dateKey s; lastUpdated := lastUpdated s;
     isLocked := isLocked s; midnightTimer := midnightTimer s;
     visibilityTimer := visibilityTimer s |}.

Definition with_maxLevels (m : Z) (s : ScoreboardState) : ScoreboardState :=
  {| levels := levels s; maxLevels := m; timezone := timezone s;
     dateKey := dateKey s; lastUpdated := lastUpdated s;
     isLocked := isLocked s; midnightTimer := midnightTimer s;
     visibilityTimer := visibilityTimer s |}.

Definition with_timezone (z : string) (s : ScoreboardState) : ScoreboardState :=
  {| levels := levels s; maxLevels := maxLevels s; timezone := z;
     dateKey := dateKey s; lastUpdated := lastUpdated s;
     isLocked := isLocked s; midnightTimer := midnightTimer s;
     visibilityTimer := visibilityTimer s |}.

Definition with_dateKey (k : string) (s : ScoreboardState) : ScoreboardState :=
  {| levels := levels s; maxLevels := maxLevels s; timezone := timezone s;
     dateKey := k; lastUpdated := lastUpdated s;
     isLocked := isLocked s; midnightTimer := midnightTimer s;
     visibilityTimer := visibilityTimer s |}.

Definition with_lastUpdated (t : Z) (s : ScoreboardState) : ScoreboardState :=
  {| levels := levels s; maxLevels := maxLevels s; timezone := timezone s;
     dateKey := dateKey s; lastUpdated := t;
     isLocked := isLocked s; midnightTimer := midnightTimer s;
     visibilityTimer := visibilityTimer s |}.

Definition with_isLocked (b : bool) (s : ScoreboardState) : ScoreboardState :=
  {| levels := levels s; maxLevels := maxLevels s; timezone := timezone s;
     dateKey := dateKey s; lastUpdated := lastUpdated s;
     isLocked := b; midnightTimer := midnightTimer s;
     visibilityTimer := visibilityTimer s |}.

Definition with_midnightTimer (h : option TimerId) (s : ScoreboardState) : ScoreboardState :=
  {| levels := levels s; maxLevels := maxLevels s; timezone := timezone s;
     dateKey := dateKey s; lastUpdated := lastUpdated s;
     isLocked := isLocked s; midnightTimer := h;
     visibilityTimer := visibilityTimer s |}.

Definition with_visibilityTimer (h : option TimerId) (s : ScoreboardState) : ScoreboardState :=
  {| levels := levels s; maxLevels := maxLevels s; timezone := timezone s;
     dateKey := dateKey s; lastUpdated := lastUpdated s;
     isLocked := isLocked s; midnightTimer := midnightTimer s;
     visibilityTimer := h |}.

Definition assign (f : ScoreboardState -> ScoreboardState) : JS unit :=
  s ← get_this; set_this (f s).

(** ** ScoreboardState (lines 18-167) *)

(** [new Array(CONFIG.LANES).fill(0)] *)
Definition zeroLevels : list Z := replicate (Z.to_nat CONFIG.LANES) 0.

(** The constructor, run at clock reading [now]. *)
Definition constructor (now : Z) : ScoreboardState :=
  {| levels := zeroLevels;
     maxLevels := CONFIG.MAX_LEVELS;
     timezone := CONFIG.TIMEZONE;
     dateKey := "";
     lastUpdated := now;
     isLocked := false;
     midnightTimer := None;
     visibilityTimer := None |}.

(** [a || b] on numbers and on strings: [undefined], [0] and the empty
    string are falsy. *)
Definition or_default_Z (a : option Z) (b : Z) : Z :=
  match a with
  | Some z => if Z.eqb z 0 then b else z
  | None => b
  end.

Definition or_default_string (a : option string) (b : string) : string :=
  match a with
  | Some EmptyString => b
  | Some s => s
  | None => b
  end.

(** [x < m] where [x] may be [undefined] (an index past the end of the
    array): [undefined] compares false with every number. *)
Definition lt_number (x : option Z) (m : Z) : bool :=
  match x with
  | Some l => Z.ltb l m
  | None => false
  end.

Definition gt_number (x : option Z) (m : Z) : bool :=
  match x with
  | Some l => Z.gtb l m
  | None => false
  end.

(** [levels[lane]++] and [levels[lane]--] on an existing entry, in the
    arithmetic of integers: the doubles of the source compute the same
    for a level of magnitude up to [Number.MAX_SAFE_INTEGER]. *)
Definition bump (d : Z) (lane : Z) (l : list Z) : list Z :=
  match l !! Z.to_nat lane with
  | Some x => <[Z.to_nat lane := x + d]> l
  | None => l
  end.

(** The members the class body declares; [render] is not among them (it
    belongs to [ScoreboardRenderer], line 177). *)
Definition ScoreboardState_methods : list string :=
  ["todayKey"; "msUntilNextMidnight"; "loadOrInit"; "save";
   "resetForNewDay"; "increment"; "decrement"; "resetToday"; "toggleLock";
   "scheduleMidnightReset"; "cleanup"].

(** The object literal of [save] (lines 84-91), [Date.now()] reading
    [now]. *)
Definition snapshot (s : ScoreboardState) (now : Z) : StoredData :=
  {| data_version := Some 1;
     data_tz := Some (timezone s);
     data_dateKey := Some (dateKey s);
     data_levels := levels s;
     data_maxLevels := Some (maxLevels s);
     data_lastUpdated := now |}.

Section Model.
Context `{Platform}.

(** lines 31-43 *)
Definition todayKey : JS string :=
  s ← get_this;
  now ← Date_now;
  let '(year, month, day) := Intl_dateParts (timezone s) now in
  mret (year +:+ "-" +:+ month +:+ "-" +:+ day).

(** lines 46-53 *)
Definition msUntilNextMidnight : JS Z :=
  s ← get_this;
  now ← Date_now;
  let today := Date_parse (Intl_format (timezone s) now +:+ "T00:00:00") in
  let next := today + 24 * 60 * 60 * 1000 in
  mret (next - now).

(** lines 82-96 *)
Definition save : JS unit :=
  try_catch
    (s ← get_this;
     now ← Date_now;
     let data := snapshot s now in
     localStorage_setItem (JSON_stringify data))
    (fun error => console_write (Err error)).

(** lines 99-104 *)
Definition resetForNewDay : JS unit :=
  assign (with_levels zeroLevels);;
  today ← todayKey;
  assign (with_dateKey today);;
  now ← Date_now;
  assign (with_lastUpdated now);;
  save.

(** The [try] block of [loadOrInit] (lines 58-71); it yields whether it
    returned [true]. [if (stored)] fails on [null] and on the empty
    string; [===] fails on an absent field. *)
Definition loadStored : JS bool :=
  stored ← localStorage_getItem;
  match stored with
  | Some (String c text) =>
      match JSON_parse (String c text) with
      | None => throw SyntaxError
      | Some data =>
          today ← todayKey;
          match data_dateKey data, data_version data with
          | Some k, Some v =>
              if bool_decide (k = today) && bool_decide (v = 1) then
                assign (with_levels (data_levels data));;
                assign (with_maxLevels
                          (or_default_Z (data_maxLevels data) CONFIG.MAX_LEVELS));;
                assign (with_timezone
                          (or_default_string (data_tz data) CONFIG.TIMEZONE));;
                assign (with_dateKey k);;
                assign (with_lastUpdated (data_lastUpdated data));;
                mret true
              else mret false
          | _, _ => mret false
          end
      end
  | _ => mret false
  end.

(** lines 56-79: the statements after the [try] run when it did not
    return. *)
Definition loadOrInit : JS bool :=
  adopted ← try_catch loadStored
              (fun error => console_write (Warn error);; mret false);
  if adopted : bool then mret true
  else resetForNewDay;; mret false.

(** lines 107-116. [lane] is an integer, as the handlers get it from
    [parseInt]; an index in range that the array does not have reads
    [undefined], and the comparison then fails. *)
Definition increment (lane : Z) : JS bool :=
  s ← get_this;
  if isLocked s || (lane <? 0) || (lane >=? CONFIG.LANES) then mret false
  else if lt_number (levels s !! Z.to_nat lane) (maxLevels s) then
    assign (fun s => with_levels (bump 1 lane (levels s)) s);;
    now ← Date_now;
    assign (with_lastUpdated now);;
    save;;
    mret true
  else mret false.

(** lines 119-128 *)
Definition decrement (lane : Z) : JS bool :=
  s ← get_this;
  if isLocked s || (lane <? 0) || (lane >=? CONFIG.LANES) then mret false
  else if gt_number (levels s !! Z.to_nat lane) 0 then
    assign (fun s => with_levels (bump (-1) lane (levels s)) s);;
    now ← Date_now;
    assign (with_lastUpdated now);;
    save;;
    mret true
  else mret false.

(** lines 131-135 *)
Definition resetToday : JS unit :=
  assign (with_levels zeroLevels);;
  now ← Date_now;
  assign (with_lastUpdated now);;
  save.

(** lines 138-142 *)
Definition toggleLock : JS bool :=
  assign (fun s => with_isLocked (negb (isLocked s)) s);;
  save;;
  s ← get_this;
  mret (isLocked s).

(** lines 145-156 *)
Definition scheduleMidnightReset : JS unit :=
  s ← get_this;
  match midnightTimer s with
  | Some h => clearTimeout h
  | None => mret tt
  end;;
  msUntilMidnight ← msUntilNextMidnight;
  h ← setTimeout MidnightReset msUntilMidnight;
  assign (with_midnightTimer (Some h)).

(** lines 159-166 *)
Definition cleanup : JS unit :=
  s ← get_this;
  match midnightTimer s with
  | Some h => clearTimeout h
  | None => mret tt
  end;;
  match visibilityTimer s with
  | Some h => clearTimeout h
  | None => mret tt
  end.

(** [ScoreboardRenderer.render] (lines 177-181) writes to the DOM only. *)
Definition renderer_render : JS unit := mret tt.

(** [this.render()] with [this] a [ScoreboardState]: a call of a member
    the object does not have throws. *)
Definition this_render : JS unit :=
  if bool_decide ("render" ∈ ScoreboardState_methods) then renderer_render
  else throw TypeError.

(** The closure of lines 151-155. *)
Definition midnightCallback : JS unit :=
  resetForNewDay;;
  this_render;;
  scheduleMidnightReset.

(** The closure of lines 339-345. *)
Definition visibilityCallback : JS unit :=
  today ← todayKey;
  s ← get_this;
  if bool_decide (dateKey s ≠ today) then
    resetForNewDay;;
    renderer_render
  else mret tt.

(** The listener of lines 336-347. *)
Definition onVisibilityChange : JS unit :=
  h ← document_hidden;
  if negb h then
    t ← setTimeout VisibilityCheck 1000;
    assign (with_visibilityTimer (Some t))
  else mret tt.

Definition runCallback (cb : Callback) : JS unit :=
  match cb with
  | MidnightReset => midnightCallback
  | VisibilityCheck => visibilityCallback
  end.

(** The browser fires the pending timer [h]: a one-shot timer leaves the
    table, then its closure runs. *)
Definition fire (h : TimerId) : JS unit := fun w =>
  match timers w !! h with
  | Some t => (clearTimeout h;; runCallback (callback t)) w
  | None => (Normal tt, w)
  end.

(** lines 351-380 *)
Definition handleIncrement (lane : Z) : JS unit :=
  ok ← increment lane;
  if ok : bool then renderer_render else mret tt.

Definition handleDecrement (lane : Z) : JS unit :=
  ok ← decrement lane;
  if ok : bool then renderer_render else mret tt.

Definition handleToggleLock : JS unit :=
  toggleLock;;
  renderer_render.

Definition handleReset : JS unit :=
  resetToday;;
  renderer_render.

(** [ScoreboardApp.init] (lines 464-480) *)
Definition init : JS unit :=
  loadOrInit;;
  renderer_render;;
  scheduleMidnightReset;;
  console_write Log.

End Model.

(** ** A reference platform

    JSON texts as [JSON.stringify] writes the object of [save], a reader
    of JSON texts with integer numbers, and the proleptic Gregorian
    calendar at a fixed offset from UTC. *)

Module Reference.

Definition dquote : string := String "034"%char EmptyString.
Definition backslash : string := String "092"%char EmptyString.

Definition hexDigit (n : N) : ascii :=
  ascii_of_N (if (n <? 10)%N then 48 + n else 87 + n).

(** One character inside a JSON string, as [JSON.stringify] escapes it. *)
Definition escapeChar (c : ascii) : string :=
  let n := N_of_ascii c in
  if (n =? 34)%N then backslash +:+ dquote
  else if (n =? 92)%N then backslash +:+ backslash
  else if (n =? 8)%N then backslash +:+ "b"
  else if (n =? 9)%N then backslash +:+ "t"
  else if (n =? 10)%N then backslash +:+ "n"
  else if (n =? 12)%N then backslash +:+ "f"
  else if (n =? 13)%N then backslash +:+ "r"
  else if (n <? 32)%N then
    backslash +:+ "u00" +:+
      String (hexDigit (n / 16)) (String (hexDigit (n mod 16)) EmptyString)
  else String c EmptyString.

Fixpoint escape (s : string) : string :=
  match s with
  | EmptyString => EmptyString
  | String c r => escapeChar c +:+ escape r
  end.

Definition quoted (s : string) : string := dquote +:+ escape s +:+ dquote.

Fixpoint joinWith (sep : string) (l : list string) : string :=
  match l with
  | [] => EmptyString
  | [x] => x
  | x :: r => x +:+ sep +:+ joinWith sep r
  end.

Definition member (key : string) (value : option string) : list string :=
  match value with
  | Some v => [quoted key +:+ ":" +:+ v]
  | None => []
  end.

(** Members in the order of the object literal of [save]; a member whose
    value is [undefined] is left out. *)
Definition stringify (d : StoredData) : string :=
  "{" +:+
  joinWith ","
    (member "version" (pretty <$> data_version d) ++
     member "tz" (quoted <$> data_tz d) ++
     member "dateKey" (quoted <$> data_dateKey d) ++
     member "levels"
       (Some ("[" +:+ joinWith "," (pretty <$> data_levels d) +:+ "]")) ++
     member "maxLevels" (pretty <$> data_maxLevels d) ++
     member "lastUpdated" (Some (pretty (data_lastUpdated d))))
  +:+ "}".

#[local] Unset Elimination Schemes.
Inductive json :=
| JNull
| JBool (b : bool)
| JInt (z : Z)
| JString (s : string)
| JArray (l : list json)
| JObject (m : list (string * json)).
#[local] Set Elimination Schemes.

Inductive token :=
| TLBrace | TRBrace | TLBracket | TRBracket | TComma | TColon
| TStr (s : string)
| TNum (z : Z)
| TTrue | TFalse | TNull.

Definition isDigit (c : ascii) : bool :=
  let n := N_of_ascii c in ((48 <=? n) && (n <=? 57))%N.

Definition digitValue (c : ascii) : Z := Z.of_N (N_of_ascii c) - 48.

(** The characters of a string token after its opening quote, up to the
    closing one. A [\u] escape is outside what this reader covers. *)
Fixpoint lexString (s : string) (acc : string) : option (string * string) :=
  match s with
  | EmptyString => None
  | String c r =>
      let n := N_of_ascii c in
      if (n =? 34)%N then Some (acc, r)
      else if (n =? 92)%N then
        match r with
        | String e r' =>
            let k := N_of_ascii e in
            let out (m : N) := lexString r' (acc +:+ String (ascii_of_N m) EmptyString) in
            if (k =? 34)%N then out 34%N
            else if (k =? 92)%N then out 92%N
            else if (k =? 47)%N then out 47%N
            else if (k =? 98)%N then out 8%N
            else if (k =? 116)%N then out 9%N
            else if (k =? 110)%N then out 10%N
            else if (k =? 102)%N then out 12%N
            else if (k =? 114)%N then out 13%N
            else None
        | EmptyString => None
        end
      else if (n <? 32)%N then None
      else lexString r (acc +:+ String c EmptyString)
  end.

Fixpoint lexDigits (s : string) (acc : Z) : Z * string :=
  match s with
  | String c r => if isDigit c then lexDigits r (10 * acc + digitValue c) else (acc, s)
  | EmptyString => (acc, s)
  end.

(** The digits of an integer; a fraction or an exponent is outside what
    this reader covers. *)
Definition lexNumber (s : string) : option (Z * string) :=
  match s with
  | String c _ =>
      if isDigit c then
        let '(z, r) := lexDigits s 0 in
        match r with
        | String "." _ | String "e" _ | String "E" _ => None
        | _ => Some (z, r)
        end
      else None
  | EmptyString => None
  end.

Definition isSpace (c : ascii) : bool :=
  let n := N_of_ascii c in
  ((n =? 32) || (n =? 9) || (n =? 10) || (n =? 13))%N.

Fixpoint lex (fuel : nat) (s : string) : option (list token) :=
  match fuel with
  | O => None
  | S fuel =>
      match s with
      | EmptyString => Some []
      | String c r =>
          let next (t : token) (r : string) := cons t <$> lex fuel r in
          if isSpace c then lex fuel r
          else if (N_of_ascii c =? 34)%N then
            '(str, r') ← lexString r EmptyString; next (TStr str) r'
          else if isDigit c then
            '(z, r') ← lexNumber s; next (TNum z) r'
          else
            match c with
            | "{" => next TLBrace r
            | "}" => next TRBrace r
            | "[" => next TLBracket r
            | "]" => next TRBracket r
            | "," => next TComma r
            | ":" => next TColon r
            | "-" => '(z, r') ← lexNumber r; next (TNum (- z)) r'
            | "t" => match r with
                     | String "r" (String "u" (String "e" r')) => next TTrue r'
                     | _ => None
                     end
            | "f" => match r with
                     | String "a" (String "l" (String "s" (String "e" r'))) => next TFalse r'
                     | _ => None
                     end
            | "n" => match r with
                     | String "u" (String "l" (String "l" r')) => next TNull r'
                     | _ => None
                     end
            | _ => None
            end%char
      end
  end.

Fixpoint parseValue (fuel : nat) (ts : list token) : option (json * list token) :=
  match fuel with
  | O => None
  | S fuel =>
      match ts with
      | TNull :: r => Some (JNull, r)
      | TTrue :: r => Some (JBool true, r)
      | TFalse :: r => Some (JBool false, r)
      | TNum z :: r => Some (JInt z, r)
      | TStr s :: r => Some (JString s, r)
      | TLBracket :: TRBracket :: r => Some (JArray [], r)
      | TLBracket :: r => '(l, r') ← parseElements fuel r; Some (JArray l, r')
      | TLBrace :: TRBrace :: r => Some (JObject [], r)
      | TLBrace :: r => '(m, r') ← parseMembers fuel r; Some (JObject m, r')
      | _ => None
      end
  end
with parseElements (fuel : nat) (ts : list token) : option (list json * list token) :=
  match fuel with
  | O => None
  | S fuel =>
      match parseValue fuel ts with
      | Some (v, TComma :: r) => '(l, r') ← parseElements fuel r; Some (v :: l, r')
      | Some (v, TRBracket :: r) => Some ([v], r)
      | _ => None
      end
  end
with parseMembers (fuel : nat) (ts : list token) : option (list (string * json) * list token) :=
  match fuel with
  | O => None
  | S fuel =>
      match ts with
      | TStr k :: TColon :: r =>
          match parseValue fuel r with
          | Some (v, TComma :: r') =>
              '(m, r'') ← parseMembers fuel r'; Some ((k, v) :: m, r'')
          | Some (v, TRBrace :: r') => Some ([(k, v)], r')
          | _ => None
          end
      | _ => None
      end
  end.

Definition parseJson (s : string) : option json :=
  ts ← lex (S (String.length s)) s;
  match parseValue (S (List.length ts)) ts with
  | Some (v, []) => Some v
  | _ => None
  end.

(** [o[key]]: the last member of that name wins. *)
Fixpoint property (key : string) (m : list (string * json)) : option json :=
  match m with
  | [] => None
  | (k, v) :: r =>
      match property key r with
      | Some v' => Some v'
      | None => if String.eqb k key then Some v else None
      end
  end.

Definition asInt (v : option json) : option Z :=
  match v with Some (JInt z) => Some z | _ => None end.

Definition asString (v : option json) : option string :=
  match v with Some (JString s) => Some s | _ => None end.

Fixpoint asInts (l : list json) : option (list Z) :=
  match l with
  | [] => Some []
  | JInt z :: r => cons z <$> asInts r
  | _ => None
  end.

(** The record a parsed value is read as. [null] has no properties; any
    other value that is not an object has none of the fields. An object
    whose [levels] is not an array of integers, or whose [lastUpdated] is
    not an integer, is outside what [StoredData] can hold. *)
Definition asData (v : json) : option StoredData :=
  match v with
  | JNull => None
  | JObject m =>
      match property "levels" m, asInt (property "lastUpdated" m) with
      | Some (JArray l), Some t =>
          ls ← asInts l;
          Some {| data_version := asInt (property "version" m);
                  data_tz := asString (property "tz" m);
                  data_dateKey := asString (property "dateKey" m);
                  data_levels := ls;
                  data_maxLevels := asInt (property "maxLevels" m);
                  data_lastUpdated := t |}
      | _, _ => None
      end
  | _ =>
      Some {| data_version := None; data_tz := None; data_dateKey := None;
              data_levels := []; data_maxLevels := None; data_lastUpdated := 0 |}
  end.

Definition parse (s : string) : option StoredData :=
  v ← parseJson s; asData v.

(** *** Calendar *)

Definition msPerDay : Z := 24 * 60 * 60 * 1000.

(** Year, month and day of the day number [days] counted from
    1970-01-01. *)
Definition civilFromDays (days : Z) : Z * Z * Z :=
  let z := days + 719468 in
  let era := z / 146097 in
  let doe := z - era * 146097 in
  let yoe := (doe - doe / 1460 + doe / 36524 - doe / 146096) / 365 in
  let doy := doe - (365 * yoe + yoe / 4 - yoe / 100) in
  let mp := (5 * doy + 2) / 153 in
  let d := doy - (153 * mp + 2) / 5 + 1 in
  let m := if mp <? 10 then mp + 3 else mp - 9 in
  let y := yoe + era * 400 + (if m <=? 2 then 1 else 0) in
  (y, m, d).

Definition daysFromCivil (y m d : Z) : Z :=
  let y := y - (if m <=? 2 then 1 else 0) in
  let era := y / 400 in
  let yoe := y - era * 400 in
  let doy := (153 * (if 2 <? m then m - 3 else m + 9) + 2) / 5 + d - 1 in
  let doe := yoe * 365 + yoe / 4 - yoe / 100 + doy in
  era * 146097 + doe - 719468.

Definition twoDigits (n : Z) : string :=
  if n <? 10 then "0" +:+ pretty n else pretty n.

Definition fourDigits (n : Z) : string :=
  if n <? 10 then "000" +:+ pretty n
  else if n <? 100 then "00" +:+ pretty n
  else if n <? 1000 then "0" +:+ pretty n
  else pretty n.

(** Milliseconds east of UTC: Asia/Taipei keeps UTC+8 all year; every
    other identifier is read as UTC. *)
Definition zoneOffset (tz : string) : Z :=
  if String.eqb tz "Asia/Taipei" then 8 * 60 * 60 * 1000 else 0.

Definition dateParts (tz : string) (t : Z) : string * string * string :=
  let '(y, m, d) := civilFromDays ((t + zoneOffset tz) / msPerDay) in
  (fourDigits y, twoDigits m, twoDigits d).

Definition format (tz : string) (t : Z) : string :=
  let '(y, m, d) := dateParts tz t in
  y +:+ "-" +:+ m +:+ "-" +:+ d.

Definition number (s : string) : Z := fst (lexDigits s 0).

(** [YYYY-MM-DDT00:00:00] read as a local time of a machine whose zone
    is [machineOffset] milliseconds east of UTC. *)
Definition dateParse (machineOffset : Z) (s : string) : Z :=
  let y := number (substring 0 4 s) in
  let m := number (substring 5 2 s) in
  let d := number (substring 8 2 s) in
  daysFromCivil y m d * msPerDay - machineOffset.

Definition platform (machineOffset : Z) : Platform :=
  {| JSON_stringify := stringify;
     JSON_parse := parse;
     Intl_dateParts := dateParts;
     Intl_format := format;
     Date_parse := dateParse machineOffset |}.

(** A classroom machine set to Taipei time. *)
Definition taipei : Platform := platform (zoneOffset "Asia/Taipei").

End Reference.

(** ** Vocabulary of the properties *)

(** The data-model invariant: one entry per lane, each within
    [0, maxLevels]. *)
Definition Inv (s : ScoreboardState) : Prop :=
  List.length (levels s) = Z.to_nat CONFIG.LANES /\
  Forall (fun l => 0 <= l <= maxLevels s) (levels s).

(** The same bounds on a stored record, against the bound [loadOrInit]
    adopts with it. *)
Definition data_wf (d : StoredData) : Prop :=
  List.length (data_levels d) = Z.to_nat CONFIG.LANES /\
  Forall (fun l => 0 <= l <= or_default_Z (data_maxLevels d) CONFIG.MAX_LEVELS)
         (data_levels d).

(** The world [save] leaves: the record written when the store takes it,
    the error logged when it does not. *)
Definition saved `{Platform} (w : World) : World :=
  match mode (localStorage w) with
  | Available =>
      with_localStorage
        {| item := Some (JSON_stringify (snapshot (state w) (clock w)));
           mode := Available |} w
  | Full => with_console (console w ++ [Err QuotaExceededError]) w
  | Denied => with_console (console w ++ [Err SecurityError]) w
  end.

(** The store holds the record of the state as of the clock reading. *)
Definition persisted `{Platform} (w : World) : Prop :=
  item (localStorage w) = Some (JSON_stringify (snapshot (state w) (clock w))).

(** The key [todayKey] computes for zone [tz] at clock reading [now]. *)
Definition keyOf `{Platform} (tz : string) (now : Z) : string :=
  let '(year, month, day) := Intl_dateParts tz now in
  year +:+ "-" +:+ month +:+ "-" +:+ day.

(** The assignments of lines 64-68. *)
Definition adopt (data : StoredData) (k : string) (s : ScoreboardState) : ScoreboardState :=
  with_lastUpdated (data_lastUpdated data)
    (with_dateKey k
       (with_timezone (or_default_string (data_tz data) CONFIG.TIMEZONE)
          (with_maxLevels (or_default_Z (data_maxLevels data) CONFIG.MAX_LEVELS)
             (with_levels (data_levels data) s)))).

(** *** The page as a transition system *)

(** What can happen to a loaded page: a call of a method of the state
    object, a pending timer firing, a visibility change, and the outside
    world moving on (the clock, the store, the visibility of the tab). *)
Inductive Event :=
| Call_loadOrInit
| Call_save
| Call_resetForNewDay
| Call_increment (lane : Z)
| Call_decrement (lane : Z)
| Call_resetToday
| Call_toggleLock
| Call_scheduleMidnightReset
| Call_cleanup
| TimerFires (h : TimerId)
| VisibilityChange
| Outside (store : LocalStorage) (now : Z) (isHidden : bool).

Definition outside (store : LocalStorage) (now : Z) (isHidden : bool) (w : World) : World :=
  {| state := state w; localStorage := store; clock := now;
     timers := timers w; nextTimer := nextTimer w; hidden := isHidden;
     console := console w |}.

(** The world after an event; an exception that reaches the event loop
    leaves what was done before it. *)
Definition react `{Platform} (e : Event) (w : World) : World :=
  match e with
  | Call_loadOrInit => snd (loadOrInit w)
  | Call_save => snd (save w)
  | Call_resetForNewDay => snd (resetForNewDay w)
  | Call_increment lane => snd (increment lane w)
  | Call_decrement lane => snd (decrement lane w)
  | Call_resetToday => snd (resetToday w)
  | Call_toggleLock => snd (toggleLock w)
  | Call_scheduleMidnightReset => snd (scheduleMidnightReset w)
  | Call_cleanup => snd (cleanup w)
  | TimerFires h => snd (fire h w)
  | VisibilityChange => snd (onVisibilityChange w)
  | Outside store now isHidden => outside store now isHidden w
  end.

(** The world in which [new ScoreboardState()] has just run (line 458). *)
Definition boot (store : LocalStorage) (now : Z) (isHidden : bool) : World :=
  {| state := constructor now; localStorage := store; clock := now;
     timers := ∅; nextTimer := 1%positive; hidden := isHidden; console := [] |}.

Inductive reachable `{Platform} : World -> Prop :=
| reachable_boot (store : LocalStorage) (now : Z) (isHidden : bool) :
    reachable (boot store now isHidden)
| reachable_step (e : Event) (w : World) :
    reachable w -> reachable (react e w).

(** The values [a || b] keeps: a bound other than 0, a zone other than
    the empty string. *)
Definition truthyConfig (s : ScoreboardState) : Prop :=
  maxLevels s <> 0 /\ timezone s <> "".

(** Every pending timer armed by [scheduleMidnightReset] is the one whose
    handle the state holds, and no pending handle is still to be issued. *)
Definition midnightTracked (w : World) : Prop :=
  (forall h t, timers w !! h = Some t -> callback t = MidnightReset ->
               midnightTimer (state w) = Some h) /\
  (forall h t, timers w !! h = Some t -> (h < nextTimer w)%positive).

(** *** Concrete worlds for the examples *)

Module Examples.

(** 2023-01-02T00:00:00Z, which is 08:00 on 2 January in Taipei. *)
Definition jan2 : Z := 1672617600000.

(** 2023-01-02T15:59:59.999Z: one millisecond before midnight in Taipei. *)
Definition beforeMidnight : Z := 1672675199999.

Definition emptyStore : LocalStorage := {| item := None; mode := Available |}.

Definition storeOf (d : StoredData) : LocalStorage :=
  {| item := Some (Reference.stringify d); mode := Available |}.

Definition record (version : Z) (day : string) (ls : list Z) : StoredData :=
  {| data_version := Some version;
     data_tz := Some "Asia/Taipei";
     data_dateKey := Some day;
     data_levels := ls;
     data_maxLevels := Some 20;
     data_lastUpdated := 1672610000000 |}.

(** Today's record with a level above the bound; as stored text:
    {"version":1,"tz":"Asia/Taipei","dateKey":"2023-01-02",
     "levels":[99,0,0,0,0,0],"maxLevels":20,"lastUpdated":1672610000000} *)
Definition oversized : StoredData := record 1 "2023-01-02" [99; 0; 0; 0; 0; 0].

(** Today's record with two lanes only. *)
Definition twoLanes : StoredData := record 1 "2023-01-02" [1; 2].

(** Yesterday's record. *)
Definition stale : StoredData := record 1 "2023-01-01" [5; 0; 0; 0; 0; 0].

(** Today's record under an unknown schema version. *)
Definition unknownVersion : StoredData := record 2 "2023-01-02" [5; 0; 0; 0; 0; 0].

(** Today's record, well formed. *)
Definition fresh : StoredData := record 1 "2023-01-02" [5; 0; 0; 0; 0; 0].

(** A board on 2 January with the given levels and lock. *)
Definition board (ls : list Z) (locked : bool) : World :=
  {| state := with_isLocked locked
                (with_dateKey "2023-01-02" (with_levels ls (constructor jan2)));
     localStorage := emptyStore; clock := jan2 + 60000;
     timers := ∅; nextTimer := 1%positive; hidden := false; console := [] |}.

(** The page after start-up on an empty store and one point for lane 2. *)
Definition played : World :=
  @react Reference.taipei (Call_increment 2)
    (@react Reference.taipei Call_loadOrInit (boot emptyStore jan2 false)).

(** The page after [init()] one millisecond before midnight. *)
Definition started : World :=
  snd (@init Reference.taipei (boot emptyStore beforeMidnight false)).

(** [n] calls of [increment(lane)], with the values they returned. *)
Fixpoint incrementTimes `{Platform} (n : nat) (lane : Z) (w : World) : list bool * World :=
  match n with
  | O => ([], w)
  | S n =>
      match increment lane w with
      | (Normal b, w') =>
          let '(bs, w'') := incrementTimes n lane w' in (b :: bs, w'')
      | (Abrupt _, w') => ([], w')
      end
  end.

End Examples.

(** ** ScoreboardRenderer (lines 170-237) *)

(** The elements the renderer looks up, by the lane of their
    [data-lane] ancestor: the text of [.score-display], the [bottom]
    style of [.character-container], the [disabled] flag of [.up-btn]
    and [.down-btn]; and the text and [aria-label] of [#lockBtn]. A key
    that is absent stands for a [querySelector] that finds nothing. *)
Record Document := {
  scoreDisplay : gmap nat string;
  characterContainer : gmap nat string;
  upBtn : gmap nat bool;
  downBtn : gmap nat bool;
  lockBtn : option (string * string)
}.

Definition with_scoreDisplay (m : gmap nat string) (d : Document) : Document :=
  {| scoreDisplay := m; characterContainer := characterContainer d;
     upBtn := upBtn d; downBtn := downBtn d; lockBtn := lockBtn d |}.

Definition with_characterContainer (m : gmap nat string) (d : Document) : Document :=
  {| scoreDisplay := scoreDisplay d; characterContainer := m;
     upBtn := upBtn d; downBtn := downBtn d; lockBtn := lockBtn d |}.

Definition with_upBtn (m : gmap nat bool) (d : Document) : Document :=
  {| scoreDisplay := scoreDisplay d; characterContainer := characterContainer d;
     upBtn := m; downBtn := downBtn d; lockBtn := lockBtn d |}.

Definition with_downBtn (m : gmap nat bool) (d : Document) : Document :=
  {| scoreDisplay := scoreDisplay d; characterContainer := characterContainer d;
     upBtn := upBtn d; downBtn := m; lockBtn := lockBtn d |}.

Definition with_lockBtn (l : option (string * string)) (d : Document) : Document :=
  {| scoreDisplay := scoreDisplay d; characterContainer := characterContainer d;
     upBtn := upBtn d; downBtn := downBtn d; lockBtn := l |}.

(** [if (el) { el.prop = v }] for the element of lane [lane]. *)
Definition setIfPresent {V : Type} (lane : nat) (v : V) (m : gmap nat V) : gmap nat V :=
  match m !! lane with
  | Some _ => <[lane := v]> m
  | None => m
  end.

(** [array.forEach((x, i) => ...)], the index starting at [i]. *)
Fixpoint forEach {A D : Type} (f : A -> nat -> D -> D) (l : list A) (i : nat) (d : D) : D :=
  match l with
  | [] => d
  | x :: r => forEach f r (S i) (f x i d)
  end.

(** lines 184-197 *)
Definition renderScores (s : ScoreboardState) (doc : Document) : Document :=
  forEach
    (fun level lane doc =>
       let doc :=
         with_scoreDisplay (setIfPresent lane (pretty level) (scoreDisplay doc)) doc in
       let bottomPosition := level * CONFIG.GRID_HEIGHT in
       with_characterContainer
         (setIfPresent lane (pretty bottomPosition +:+ "px") (characterContainer doc))
         doc)
    (levels s) 0%nat doc.

(** lines 200-213 *)
Definition renderButtons (s : ScoreboardState) (doc : Document) : Document :=
  forEach
    (fun level lane doc =>
       let doc :=
         with_upBtn
           (setIfPresent lane (isLocked s || (level >=? maxLevels s)) (upBtn doc)) doc in
       with_downBtn
         (setIfPresent lane (isLocked s || (level <=? 0)) (downBtn doc)) doc)
    (levels s) 0%nat doc.

(** The label of the lock button: the action its next click performs. *)
Definition lockLabel (locked : bool) : string * string :=
  if locked then ("🔓", "解鎖計分系統") else ("🔒", "鎖定計分系統").

(** lines 216-224 *)
Definition renderLockStatus (s : ScoreboardState) (doc : Document) : Document :=
  match lockBtn doc with
  | Some _ => with_lockBtn (Some (lockLabel (isLocked s))) doc
  | None => doc
  end.

(** lines 177-181 *)
Definition render (s : ScoreboardState) (doc : Document) : Document :=
  renderLockStatus s (renderButtons s (renderScores s doc)).

(** *** throttle (lines 227-236)

    The renderer's [throttleTimers] map, the timers [throttle] has
    pending in the browser (each with the function, delay and key it was
    armed with), the next handle, and the functions run so far. [F] names
    the functions passed in; they do not call [throttle] themselves. *)
Record Throttle (F : Type) := {
  throttleTimers : gmap string positive;
  scheduled : gmap positive (F * Z * string);
  nextHandle : positive;
  called : list F
}.
Arguments throttleTimers {F} _.
Arguments scheduled {F} _.
Arguments nextHandle {F} _.
Arguments called {F} _.

Definition throttle {F : Type} (func : F) (delay : Z) (key : string) (r : Throttle F) : Throttle F :=
  let pending :=
    match throttleTimers r !! key with
    | Some h => delete h (scheduled r)
    | None => scheduled r
    end in
  {| throttleTimers := <[key := nextHandle r]> (throttleTimers r);
     scheduled := <[nextHandle r := (func, delay, key)]> pending;
     nextHandle := Pos.succ (nextHandle r);
     called := called r |}.

(** The browser fires the pending timer [h]: its closure runs [func] and
    deletes the key. *)
Definition fireThrottle {F : Type} (h : positive) (r : Throttle F) : Throttle F :=
  match scheduled r !! h with
  | Some (func, _, key) =>
      {| throttleTimers := delete key (throttleTimers r);
         scheduled := delete h (scheduled r);
         nextHandle := nextHandle r;
         called := called r ++ [func] |}
  | None => r
  end.

(** ** The page: the state object with the document it is drawn on *)

Record Page := {
  world : World;
  document : Document
}.

Module Page.
Section Handlers.
Context `{Platform}.

(** [this.renderer.render()] *)
Definition redraw (w : World) (doc : Document) : Page :=
  {| world := w; document := render (state w) doc |}.

(** lines 351-355 *)
Definition handleIncrement (lane : Z) (p : Page) : Page :=
  match increment lane (world p) with
  | (Normal true, w) => redraw w (document p)
  | (_, w) => {| world := w; document := document p |}
  end.

(** lines 358-362 *)
Definition handleDecrement (lane : Z) (p : Page) : Page :=
  match decrement lane (world p) with
  | (Normal true, w) => redraw w (document p)
  | (_, w) => {| world := w; document := document p |}
  end.

(** lines 365-372; the toast is drawn on elements of its own. *)
Definition handleToggleLock (p : Page) : Page :=
  redraw (snd (toggleLock (world p))) (document p).

(** lines 375-380 *)
Definition handleReset (p : Page) : Page :=
  redraw (snd (resetToday (world p))) (document p).

(** The click listener of lines 258-268, [lane] being what [parseInt]
    read off [data-lane]. *)
Definition arrowClick (isUp : bool) (lane : Z) (p : Page) : Page :=
  if isUp then handleIncrement lane p else handleDecrement lane p.

(** The [keydown] listener of lines 311-331: the tag name of the event
    target, the lane of the element that holds the focus if there is
    one, and the key. *)
Definition onKeydown (tagName : string) (focusedLane : option Z) (key : string) (p : Page) : Page :=
  if String.eqb tagName "INPUT" || String.eqb tagName "TEXTAREA" then p
  else
    match focusedLane with
    | None => p
    | Some lane =>
        if String.eqb key "ArrowUp" then handleIncrement lane p
        else if String.eqb key "ArrowDown" then handleDecrement lane p
        else p
    end.

(** The closure of lines 339-345, with the redraw it asks for. *)
Definition visibilityCheck (p : Page) : Page :=
  match todayKey (world p) with
  | (Normal today, w) =>
      if bool_decide (dateKey (state w) ≠ today)
      then redraw (snd (resetForNewDay w)) (document p)
      else {| world := w; document := document p |}
  | (Abrupt _, w) => {| world := w; document := document p |}
  end.

(** [ScoreboardApp.init] (lines 464-480) with its first drawing. *)
Definition init (p : Page) : Page :=
  let w := snd (loadOrInit (world p)) in
  let doc := render (state w) (document p) in
  {| world := snd (console_write Log (snd (scheduleMidnightReset w)));
     document := doc |}.

End Handlers.
End Page.

(** The document shows the state: every element the renderer writes
    holds what [render] would write from this state. *)
Definition shows (s : ScoreboardState) (doc : Document) : Prop :=
  (forall (lane : nat) (level : Z),
     levels s !! lane = Some level ->
     (forall t, scoreDisplay doc !! lane = Some t -> t = pretty level) /\
     (forall b, characterContainer doc !! lane = Some b ->
                b = pretty (level * CONFIG.GRID_HEIGHT) +:+ "px") /\
     (forall d, upBtn doc !! lane = Some d ->
                d = isLocked s || (level >=? maxLevels s)) /\
     (forall d, downBtn doc !! lane = Some d ->
                d = isLocked s || (level <=? 0))) /\
  (forall l, lockBtn doc = Some l -> l = lockLabel (isLocked s)).

(** The page's document shows the page's state. *)
Definition current (p : Page) : Prop := shows (state (world p)) (document p).

(** Every pending timer of [throttle] is the one its key maps to, and a
    handle the map holds was issued before and belongs to no other key. *)
Definition throttleTracked {F : Type} (r : Throttle F) : Prop :=
  (forall h func delay key,
     scheduled r !! h = Some (func, delay, key) -> throttleTimers r !! key = Some h) /\
  (forall key h,
     throttleTimers r !! key = Some h ->
     (h < nextHandle r)%positive /\
     forall func delay k, scheduled r !! h = Some (func, delay, k) -> k = key).

(** *** Numbers of the source

    The levels of the source are doubles. An integer of magnitude up to
    [2^53] is a double; beyond, [x + 1] and [x - 1] are rounded to the
    nearest double, ties to even. *)

(** [Number.MAX_SAFE_INTEGER] *)
Definition MAX_SAFE_INTEGER : Z := 2 ^ 53 - 1.

Definition safeInteger (l : Z) : Prop :=
  - MAX_SAFE_INTEGER <= l <= MAX_SAFE_INTEGER.

(** The double nearest to the integer [z], ties to even (below the
    overflow to [Infinity]). *)
Definition roundToDouble (z : Z) : Z :=
  let a := Z.abs z in
  if a <? 2 ^ 53 then z
  else
    let ulp := 2 ^ (Z.log2 a - 52) in
    let q := a / ulp in
    let r := a mod ulp in
    let q' :=
      if 2 * r <? ulp then q
      else if ulp <? 2 * r then q + 1
      else if Z.even q then q else q + 1 in
    Z.sgn z * (q' * ulp).

(** [x++] and [x--] as the source computes them on a double [x] that
    holds an integer. *)
Definition plusPlus (x : Z) : Z := roundToDouble (x + 1).
Definition minusMinus (x : Z) : Z := roundToDouble (x - 1).

(** *** Concrete pages for the examples *)

Module PageExamples.

(** Six lanes, each with its score, character and two arrows, and the
    lock button; nothing drawn yet. *)
Definition classroom : Document :=
  {| scoreDisplay := list_to_map ((fun i => (i, "")) <$> seq 0 6);
     characterContainer := list_to_map ((fun i => (i, "")) <$> seq 0 6);
     upBtn := list_to_map ((fun i => (i, false)) <$> seq 0 6);
     downBtn := list_to_map ((fun i => (i, false)) <$> seq 0 6);
     lockBtn := Some ("", "") |}.

(** A board whose store is full. *)
Definition fullStore (ls : list Z) : World :=
  with_localStorage {| item := None; mode := Full |} (Examples.board ls false).

(** A page that started one millisecond before midnight, armed its
    midnight timer, became visible and armed the midnight timer again:
    handle 1 is cancelled, 2 is the visibility timer, 3 the midnight
    timer. *)
Definition rearmed : World :=
  @react Reference.taipei Call_scheduleMidnightReset
    (@react Reference.taipei VisibilityChange
       (@react Reference.taipei Call_scheduleMidnightReset
          (@react Reference.taipei Call_loadOrInit
             (boot Examples.emptyStore Examples.beforeMidnight false)))).

(** A renderer that has not throttled anything yet; functions are named
    by numbers. *)
Definition idle : Throttle nat :=
  {| throttleTimers := ∅; scheduled := ∅; nextHandle := 1%positive; called := [] |}.

End PageExamples.

(** ** Properties *)

Section Properties.
Context `{Platform}.

Ltac js_unfold :=
  unfold resetToday, resetForNewDay, toggleLock, todayKey, msUntilNextMidnight,
    assign, get_this, set_this, Date_now, document_hidden, throw,
    mbind, JS_bind, mret, JS_ret in *;
  cbn beta iota zeta in *.

Lemma bind_normal {A B} (m : JS A) (f : A -> JS B) (w w' : World) (a : A) :
  m w = (Normal a, w') -> (m ≫= f) w = f a w'.
Proof. unfold mbind, JS_bind. intros ->. reflexivity. Qed.

Lemma bind_abrupt {A B} (m : JS A) (f : A -> JS B) (w w' : World) (e : Error) :
  m w = (Abrupt e, w') -> (m ≫= f) w = (Abrupt e, w').
Proof. unfold mbind, JS_bind. intros ->. reflexivity. Qed.

Lemma assign_run (f : ScoreboardState -> ScoreboardState) (w : World) :
  assign f w = (Normal tt, with_state (f (state w)) w).
Proof. reflexivity. Qed.

Lemma save_run (w : World) : save w = (Normal tt, saved w).
Proof.
  unfold save, saved, try_catch, localStorage_setItem, console_write.
  js_unfold. destruct (mode (localStorage w)); reflexivity.
Qed.

Lemma saved_state (w : World) : state (saved w) = state w.
Proof. unfold saved. destruct (mode (localStorage w)); reflexivity. Qed.

Lemma saved_clock (w : World) : clock (saved w) = clock w.
Proof. unfold saved. destruct (mode (localStorage w)); reflexivity. Qed.

Lemma saved_timers (w : World) :
  timers (saved w) = timers w /\ nextTimer (saved w) = nextTimer w.
Proof. unfold saved. destruct (mode (localStorage w)); split; reflexivity. Qed.

Lemma saved_mode (w : World) : mode (localStorage (saved w)) = mode (localStorage w).
Proof. unfold saved. destruct (mode (localStorage w)) eqn:E; simpl; congruence. Qed.

Lemma saved_persisted (w : World) :
  mode (localStorage w) = Available -> persisted (saved w).
Proof. unfold persisted, saved. intros ->. reflexivity. Qed.

Lemma todayKey_run (w : World) :
  todayKey w = (Normal (keyOf (timezone (state w)) (clock w)), w).
Proof.
  unfold keyOf. js_unfold. destruct (Intl_dateParts _ _) as [[y m] d]. reflexivity.
Qed.

Lemma increment_run (w : World) (lane : Z) :
  increment lane w =
  if isLocked (state w) || (lane <? 0) || (lane >=? CONFIG.LANES)
  then (Normal false, w)
  else if lt_number (levels (state w) !! Z.to_nat lane) (maxLevels (state w))
  then (Normal true,
        saved (with_state
                 (with_lastUpdated (clock w)
                    (with_levels (bump 1 lane (levels (state w))) (state w))) w))
  else (Normal false, w).
Proof.
  unfold increment. js_unfold.
  destruct (isLocked (state w) || (lane <? 0) || (lane >=? CONFIG.LANES)); [reflexivity|].
  destruct (lt_number _ _); [|reflexivity].
  rewrite save_run. reflexivity.
Qed.

Lemma decrement_run (w : World) (lane : Z) :
  decrement lane w =
  if isLocked (state w) || (lane <? 0) || (lane >=? CONFIG.LANES)
  then (Normal false, w)
  else if gt_number (levels (state w) !! Z.to_nat lane) 0
  then (Normal true,
        saved (with_state
                 (with_lastUpdated (clock w)
                    (with_levels (bump (-1) lane (levels (state w))) (state w))) w))
  else (Normal false, w).
Proof.
  unfold decrement. js_unfold.
  destruct (isLocked (state w) || (lane <? 0) || (lane >=? CONFIG.LANES)); [reflexivity|].
  destruct (gt_number _ _); [|reflexivity].
  rewrite save_run. reflexivity.
Qed.

Lemma resetToday_run (w : World) :
  resetToday w =
  (Normal tt,
   saved (with_state
            (with_lastUpdated (clock w) (with_levels zeroLevels (state w))) w)).
Proof. js_unfold. rewrite save_run. reflexivity. Qed.

Lemma resetForNewDay_run (w : World) :
  resetForNewDay w =
  (Normal tt,
   saved (with_state
            (with_lastUpdated (clock w)
               (with_dateKey (keyOf (timezone (state w)) (clock w))
                  (with_levels zeroLevels (state w)))) w)).
Proof.
  unfold resetForNewDay.
  rewrite (bind_normal _ _ _ _ _ (assign_run _ _)).
  rewrite (bind_normal _ _ _ _ _ (todayKey_run _)).
  rewrite (bind_normal _ _ _ _ _ (assign_run _ _)).
  rewrite (bind_normal _ _ _ _ _ (eq_refl : Date_now _ = (Normal _, _))).
  rewrite (bind_normal _ _ _ _ _ (assign_run _ _)).
  rewrite save_run. reflexivity.
Qed.

Lemma toggleLock_run (w : World) :
  toggleLock w =
  (Normal (negb (isLocked (state w))),
   saved (with_state (with_isLocked (negb (isLocked (state w))) (state w)) w)).
Proof. js_unfold. rewrite save_run, saved_state. reflexivity. Qed.


Lemma loadStored_run (w : World) :
  loadStored w =
  match mode (localStorage w) with
  | Denied => (Abrupt SecurityError, w)
  | _ =>
      match item (localStorage w) with
      | Some (String c text) =>
          match JSON_parse (String c text) with
          | None => (Abrupt SyntaxError, w)
          | Some data =>
              match data_dateKey data, data_version data with
              | Some k, Some v =>
                  if bool_decide (k = keyOf (timezone (state w)) (clock w))
                     && bool_decide (v = 1)
                  then (Normal true, with_state (adopt data k (state w)) w)
                  else (Normal false, w)
              | _, _ => (Normal false, w)
              end
          end
      | _ => (Normal false, w)
      end
  end.
Proof.
  unfold loadStored.
  assert (Hg : localStorage_getItem w =
               match mode (localStorage w) with
               | Denied => (Abrupt SecurityError, w)
               | _ => (Normal (item (localStorage w)), w)
               end) by reflexivity.
  destruct (mode (localStorage w));
    try (rewrite (bind_abrupt _ _ _ _ _ Hg); reflexivity);
    rewrite (bind_normal _ _ _ _ _ Hg);
    (destruct (item (localStorage w)) as [[|c text]|]; try reflexivity;
     destruct (JSON_parse (String c text)) as [data|]; try reflexivity;
     rewrite (bind_normal _ _ _ _ _ (todayKey_run _));
     destruct (data_dateKey data) as [k|], (data_version data) as [v|];
     try reflexivity;
     destruct (bool_decide _ && bool_decide _); reflexivity).
Qed.

Lemma loadOrInit_run (w : World) :
  loadOrInit w =
  match loadStored w with
  | (Normal true, w') => (Normal true, w')
  | (Normal false, w') => (Normal false, snd (resetForNewDay w'))
  | (Abrupt e, w') =>
      (Normal false, snd (resetForNewDay (with_console (console w' ++ [Warn e]) w')))
  end.
Proof.
  unfold loadOrInit. unfold mbind at 1. unfold JS_bind, try_catch.
  destruct (loadStored w) as [[[|]|e] w'].
  - reflexivity.
  - rewrite (bind_normal _ _ _ _ _ (resetForNewDay_run _)).
    rewrite resetForNewDay_run. reflexivity.
  - rewrite (bind_normal _ _ _ _ _
               (eq_refl : console_write (Warn e) w' = (Normal tt, _))).
    unfold mret at 1. unfold JS_ret.
    rewrite (bind_normal _ _ _ _ _ (resetForNewDay_run _)).
    rewrite resetForNewDay_run. reflexivity.
Qed.

(** *** The invariant *)

Lemma Inv_constructor (now : Z) : Inv (constructor now).
Proof.
  split; [reflexivity|]. simpl. unfold zeroLevels, CONFIG.MAX_LEVELS.
  apply Forall_forall. intros x Hx. apply elem_of_replicate in Hx. lia.
Qed.

Lemma Inv_same (s s' : ScoreboardState) :
  levels s' = levels s -> maxLevels s' = maxLevels s -> Inv s -> Inv s'.
Proof. unfold Inv. intros -> ->. tauto. Qed.

Lemma Inv_bound (s : ScoreboardState) : Inv s -> 0 <= maxLevels s.
Proof.
  intros [Hlen Hall]. destruct (levels s) as [|l ls]; [discriminate|].
  inversion Hall; subst. lia.
Qed.

Lemma Inv_zeroLevels (s s' : ScoreboardState) :
  levels s' = zeroLevels -> maxLevels s' = maxLevels s -> Inv s -> Inv s'.
Proof.
  intros Hl Hm HI. pose proof (Inv_bound s HI). unfold Inv. rewrite Hl, Hm.
  split; [reflexivity|]. apply Forall_forall. intros x Hx.
  apply elem_of_replicate in Hx. lia.
Qed.

Lemma bump_length (d lane : Z) (l : list Z) :
  List.length (bump d lane l) = List.length l.
Proof. unfold bump. destruct (l !! Z.to_nat lane); [apply length_insert|reflexivity]. Qed.

Lemma Inv_bump_up (s s' : ScoreboardState) (lane : Z) :
  lt_number (levels s !! Z.to_nat lane) (maxLevels s) = true ->
  levels s' = bump 1 lane (levels s) -> maxLevels s' = maxLevels s ->
  Inv s -> Inv s'.
Proof.
  intros Hlt Hl Hm [Hlen Hall]. unfold Inv. rewrite Hl, Hm, bump_length.
  split; [exact Hlen|]. unfold bump.
  destruct (levels s !! Z.to_nat lane) as [x|] eqn:Ex; [|exact Hall].
  simpl in Hlt. apply Z.ltb_lt in Hlt.
  apply Forall_insert; [exact Hall|].
  rewrite Forall_lookup in Hall. specialize (Hall _ _ Ex). simpl in Hall. lia.
Qed.

Lemma Inv_bump_down (s s' : ScoreboardState) (lane : Z) :
  gt_number (levels s !! Z.to_nat lane) 0 = true ->
  levels s' = bump (-1) lane (levels s) -> maxLevels s' = maxLevels s ->
  Inv s -> Inv s'.
Proof.
  intros Hgt Hl Hm [Hlen Hall]. unfold Inv. rewrite Hl, Hm, bump_length.
  split; [exact Hlen|]. unfold bump.
  destruct (levels s !! Z.to_nat lane) as [x|] eqn:Ex; [|exact Hall].
  simpl in Hgt. apply Z.gtb_lt in Hgt.
  apply Forall_insert; [exact Hall|].
  rewrite Forall_lookup in Hall. specialize (Hall _ _ Ex). simpl in Hall. lia.
Qed.

Lemma Inv_increment (w : World) (lane : Z) :
  Inv (state w) -> Inv (state (snd (increment lane w))).
Proof.
  intros HI. rewrite increment_run.
  destruct (isLocked (state w) || (lane <? 0) || (lane >=? CONFIG.LANES)); [exact HI|].
  destruct (lt_number _ _) eqn:Hlt; [|exact HI].
  simpl. rewrite saved_state. simpl.
  apply (Inv_bump_up (state w) _ lane); [exact Hlt|reflexivity|reflexivity|exact HI].
Qed.

Lemma Inv_decrement (w : World) (lane : Z) :
  Inv (state w) -> Inv (state (snd (decrement lane w))).
Proof.
  intros HI. rewrite decrement_run.
  destruct (isLocked (state w) || (lane <? 0) || (lane >=? CONFIG.LANES)); [exact HI|].
  destruct (gt_number _ _) eqn:Hgt; [|exact HI].
  simpl. rewrite saved_state. simpl.
  apply (Inv_bump_down (state w) _ lane); [exact Hgt|reflexivity|reflexivity|exact HI].
Qed.

Lemma Inv_resetToday (w : World) :
  Inv (state w) -> Inv (state (snd (resetToday w))).
Proof.
  intros HI. rewrite resetToday_run. simpl. rewrite saved_state.
  apply (Inv_zeroLevels (state w)); [reflexivity|reflexivity|exact HI].
Qed.

Lemma Inv_resetForNewDay (w : World) :
  Inv (state w) -> Inv (state (snd (resetForNewDay w))).
Proof.
  intros HI. rewrite resetForNewDay_run. simpl. rewrite saved_state.
  apply (Inv_zeroLevels (state w)); [reflexivity|reflexivity|exact HI].
Qed.

Lemma Inv_toggleLock (w : World) :
  Inv (state w) -> Inv (state (snd (toggleLock w))).
Proof.
  intros HI. rewrite toggleLock_run. simpl. rewrite saved_state.
  apply (Inv_same (state w)); [reflexivity|reflexivity|exact HI].
Qed.

Lemma Inv_adopt (data : StoredData) (k : string) (s : ScoreboardState) :
  data_wf data <-> Inv (adopt data k s).
Proof. reflexivity. Qed.

(** What [loadOrInit] returned [true] for: a stored text that parses to
    the record whose fields the state now holds. *)
Lemma loadOrInit_true (w w' : World) :
  loadOrInit w = (Normal true, w') ->
  exists text data,
    mode (localStorage w) <> Denied /\
    item (localStorage w) = Some text /\ text <> "" /\
    JSON_parse text = Some data /\
    data_dateKey data = Some (keyOf (timezone (state w)) (clock w)) /\
    data_version data = Some 1 /\
    w' = with_state (adopt data (keyOf (timezone (state w)) (clock w)) (state w)) w.
Proof.
  rewrite loadOrInit_run, loadStored_run. intros Hrun.
  destruct (mode (localStorage w)) eqn:Em; try discriminate;
    (destruct (item (localStorage w)) as [[|c text]|] eqn:Ei; try discriminate;
     destruct (JSON_parse (String c text)) as [data|] eqn:Ep; try discriminate;
     destruct (data_dateKey data) as [k|] eqn:Ek; try discriminate;
     destruct (data_version data) as [v|] eqn:Ev; try discriminate;
     destruct (bool_decide (k = _)) eqn:Bk; try discriminate;
     destruct (bool_decide (v = 1)) eqn:Bv; try discriminate;
     apply bool_decide_eq_true in Bk; apply bool_decide_eq_true in Bv; subst;
     exists (String c text), data; simpl in Hrun;
     repeat split; try congruence; try discriminate).
Qed.

(** What [loadOrInit] returned [false] for: [resetForNewDay] ran, in the
    world as it was or with the warning of the [catch] logged. *)
Lemma loadOrInit_false (w w' : World) :
  loadOrInit w = (Normal false, w') ->
  exists w0,
    (w0 = w \/ exists e, w0 = with_console (console w ++ [Warn e]) w) /\
    resetForNewDay w0 = (Normal tt, w').
Proof.
  rewrite loadOrInit_run, loadStored_run. intros Hrun.
  assert (Hr : forall w0 : World, resetForNewDay w0 = (Normal tt, snd (resetForNewDay w0))).
  { intros w0. rewrite resetForNewDay_run. reflexivity. }
  destruct (mode (localStorage w)) eqn:Em;
    try (eexists; split; [right; eexists; reflexivity|];
         injection Hrun as <-; apply Hr);
    (destruct (item (localStorage w)) as [[|c text]|] eqn:Ei;
     [| |];
     try (exists w; split; [left; reflexivity|]; injection Hrun as <-; apply Hr);
     destruct (JSON_parse (String c text)) as [data|] eqn:Ep;
     try (eexists; split; [right; eexists; reflexivity|];
          injection Hrun as <-; apply Hr);
     destruct (data_dateKey data) as [k|] eqn:Ek;
     try (exists w; split; [left; reflexivity|]; injection Hrun as <-; apply Hr);
     destruct (data_version data) as [v|] eqn:Ev;
     try (exists w; split; [left; reflexivity|]; injection Hrun as <-; apply Hr);
     destruct (bool_decide (k = _) && bool_decide (v = 1)); try discriminate;
     exists w; split; [left; reflexivity|]; injection Hrun as <-; apply Hr).
Qed.

Lemma loadOrInit_returns (w : World) :
  exists b w', loadOrInit w = (Normal b, w').
Proof.
  rewrite loadOrInit_run. destruct (loadStored w) as [[[|]|e] w0]; eauto.
Qed.

(** C1 (amended). The constructor establishes the invariant: [levels] has
    exactly [CONFIG.LANES] entries, each within [0, maxLevels]. From a
    state where it holds, [increment], [decrement], [resetToday],
    [resetForNewDay] and [toggleLock] keep it, and so does [loadOrInit]
    when it falls back to a fresh day. When [loadOrInit] adopts a stored
    record it takes the record's [levels] and bound as they are: the
    invariant holds afterwards exactly when the record satisfies it. *)
Theorem invariant_kept (now : Z) (w : World) (lane : Z) :
  Inv (constructor now) /\
  (Inv (state w) ->
   Inv (state (snd (increment lane w))) /\
   Inv (state (snd (decrement lane w))) /\
   Inv (state (snd (resetToday w))) /\
   Inv (state (snd (resetForNewDay w))) /\
   Inv (state (snd (toggleLock w))) /\
   (forall w', loadOrInit w = (Normal false, w') -> Inv (state w')) /\
   (forall w', loadOrInit w = (Normal true, w') ->
      exists text data,
        item (localStorage w) = Some text /\
        JSON_parse text = Some data /\
        levels (state w') = data_levels data /\
        maxLevels (state w') =
          or_default_Z (data_maxLevels data) CONFIG.MAX_LEVELS /\
        (data_wf data <-> Inv (state w')))).
Proof.
  split; [apply Inv_constructor|]. intros HI.
  split_and!.
  - apply Inv_increment, HI.
  - apply Inv_decrement, HI.
  - apply Inv_resetToday, HI.
  - apply Inv_resetForNewDay, HI.
  - apply Inv_toggleLock, HI.
  - intros w' Hrun. apply loadOrInit_false in Hrun as (w0 & Hw0 & Hreset).
    replace w' with (snd (resetForNewDay w0)) by (rewrite Hreset; reflexivity).
    apply Inv_resetForNewDay.
    destruct Hw0 as [->|[e ->]]; exact HI.
  - intros w' Hrun.
    apply loadOrInit_true in Hrun as (text & data & _ & Hi & _ & Hp & _ & _ & ->).
    exists text, data. split_and!; try assumption; try reflexivity.
Qed.

(** C2 (amended). While the board is locked, [increment] and [decrement]
    return [false] and leave the whole world as it was: levels, day key,
    time stamp and store. [resetForNewDay] is not gated by the lock: on
    a locked board too it zeroes the levels, sets the day key to
    [todayKey()], stamps [lastUpdated] and calls [save], after which the
    store holds the new record whenever it takes the write; it returns no
    value. *)
Theorem locked_gate (w : World) (lane : Z) :
  isLocked (state w) = true ->
  increment lane w = (Normal false, w) /\
  decrement lane w = (Normal false, w) /\
  exists k w',
    todayKey w = (Normal k, w) /\
    resetForNewDay w = (Normal tt, w') /\
    levels (state w') = zeroLevels /\
    dateKey (state w') = k /\
    lastUpdated (state w') = clock w /\
    isLocked (state w') = true /\
    w' = saved (with_state
                  (with_lastUpdated (clock w)
                     (with_dateKey k (with_levels zeroLevels (state w)))) w) /\
    (mode (localStorage w) = Available ->
     item (localStorage w')
       = Some (JSON_stringify
                 {| data_version := Some 1;
                    data_tz := Some (timezone (state w));
                    data_dateKey := Some k;
                    data_levels := zeroLevels;
                    data_maxLevels := Some (maxLevels (state w));
                    data_lastUpdated := clock w |})).
Proof.
  intros Hlock. rewrite increment_run, decrement_run, Hlock. simpl.
  split; [reflexivity|]. split; [reflexivity|].
  exists (keyOf (timezone (state w)) (clock w)), (snd (resetForNewDay w)).
  rewrite todayKey_run, resetForNewDay_run. simpl. rewrite saved_state. simpl.
  split_and!; try reflexivity.
  - exact Hlock.
  - intros Hm. unfold saved. simpl. rewrite Hm. reflexivity.
Qed.

Lemma refuse_increment_iff (s : ScoreboardState) (lane : Z) :
  Inv s ->
  (isLocked s = true \/ lane < 0 \/ CONFIG.LANES <= lane \/
   levels s !! Z.to_nat lane = Some (maxLevels s)) <->
  (isLocked s || (lane <? 0) || (lane >=? CONFIG.LANES) = true \/
   lt_number (levels s !! Z.to_nat lane) (maxLevels s) = false).
Proof.
  intros [Hlen Hall]. rewrite !orb_true_iff, Z.ltb_lt, Z.geb_le.
  assert (Hin : ~ lane < 0 -> ~ CONFIG.LANES <= lane ->
                exists l, levels s !! Z.to_nat lane = Some l /\ l <= maxLevels s).
  { intros H0 H1. destruct (levels s !! Z.to_nat lane) as [l|] eqn:El.
    - exists l. split; [reflexivity|].
      rewrite Forall_lookup in Hall. specialize (Hall _ _ El). simpl in Hall. lia.
    - apply lookup_ge_None in El. unfold CONFIG.LANES in *. lia. }
  split.
  - intros [Hl|[Hn|[Hg|He]]]; try tauto. right. rewrite He. simpl. apply Z.ltb_irrefl.
  - intros [[[Hl|Hn]|Hg]|Hlt]; try tauto.
    destruct (Z_lt_dec lane 0) as [|H0]; [tauto|].
    destruct (Z_le_dec CONFIG.LANES lane) as [|H1]; [tauto|].
    destruct (Hin H0 H1) as (l & El & Hle). rewrite El in Hlt |- *. simpl in Hlt.
    apply Z.ltb_ge in Hlt. right; right; right. f_equal. lia.
Qed.

Lemma refuse_decrement_iff (s : ScoreboardState) (lane : Z) :
  Inv s ->
  (isLocked s = true \/ lane < 0 \/ CONFIG.LANES <= lane \/
   levels s !! Z.to_nat lane = Some 0) <->
  (isLocked s || (lane <? 0) || (lane >=? CONFIG.LANES) = true \/
   gt_number (levels s !! Z.to_nat lane) 0 = false).
Proof.
  intros [Hlen Hall]. rewrite !orb_true_iff, Z.ltb_lt, Z.geb_le.
  assert (Hin : ~ lane < 0 -> ~ CONFIG.LANES <= lane ->
                exists l, levels s !! Z.to_nat lane = Some l /\ 0 <= l).
  { intros H0 H1. destruct (levels s !! Z.to_nat lane) as [l|] eqn:El.
    - exists l. split; [reflexivity|].
      rewrite Forall_lookup in Hall. specialize (Hall _ _ El). simpl in Hall. lia.
    - apply lookup_ge_None in El. unfold CONFIG.LANES in *. lia. }
  split.
  - intros [Hl|[Hn|[Hg|He]]]; try tauto. right. rewrite He. reflexivity.
  - intros [[[Hl|Hn]|Hg]|Hgt]; try tauto.
    destruct (Z_lt_dec lane 0) as [|H0]; [tauto|].
    destruct (Z_le_dec CONFIG.LANES lane) as [|H1]; [tauto|].
    destruct (Hin H0 H1) as (l & El & Hle). rewrite El in Hgt |- *. simpl in Hgt.
    right; right; right. f_equal.
    destruct (Z.gtb_spec l 0); [discriminate|lia].
Qed.

Lemma bump_insert (d lane x : Z) (l : list Z) :
  l !! Z.to_nat lane = Some x -> bump d lane l = <[Z.to_nat lane := x + d]> l.
Proof. unfold bump. intros ->. reflexivity. Qed.

(** Where [x++] and [x--] are exact. *)
Lemma safe_plusPlus (l : Z) :
  safeInteger l -> plusPlus l = l + 1 /\ minusMinus l = l - 1.
Proof.
  unfold safeInteger, MAX_SAFE_INTEGER, plusPlus, minusMinus, roundToDouble.
  assert (E : 2 ^ 53 = 9007199254740992) by reflexivity. rewrite !E.
  intros Hl. split.
  - destruct (Z.ltb_spec (Z.abs (l + 1)) 9007199254740992) as [|Hge]; [reflexivity|].
    assert (Heq : l + 1 = 9007199254740992) by lia. rewrite Heq. reflexivity.
  - destruct (Z.ltb_spec (Z.abs (l - 1)) 9007199254740992) as [|Hge]; [reflexivity|].
    assert (Heq : l - 1 = -9007199254740992) by lia. rewrite Heq. reflexivity.
Qed.

(** Beyond the safe integers [x++] no longer adds one: [2^53 + 1] is not
    a double, and the tie rounds back to [2^53]. *)
Lemma plusPlus_beyond_safe :
  plusPlus (MAX_SAFE_INTEGER + 1) = MAX_SAFE_INTEGER + 1.
Proof. vm_compute. reflexivity. Qed.

Lemma safeInteger_range (l : Z) :
  safeInteger l <-> -9007199254740991 <= l <= 9007199254740991.
Proof. unfold safeInteger, MAX_SAFE_INTEGER. change (2 ^ 53) with 9007199254740992. lia. Qed.

(** Under the invariant and a bound that is a safe integer, every level
    is a safe integer. *)
Lemma Inv_safe (s : ScoreboardState) :
  Inv s -> maxLevels s <= MAX_SAFE_INTEGER -> Forall safeInteger (levels s).
Proof.
  intros [_ Hall] Hmax. apply (Forall_impl _ _ _ Hall). intros l Hl.
  apply safeInteger_range. unfold MAX_SAFE_INTEGER in Hmax.
  change (2 ^ 53) with 9007199254740992 in Hmax. simpl in Hl. lia.
Qed.

Lemma refuse_increment_general (s : ScoreboardState) (lane : Z) :
  (isLocked s = true \/ lane < 0 \/ CONFIG.LANES <= lane \/
   levels s !! Z.to_nat lane = None \/
   (exists l, levels s !! Z.to_nat lane = Some l /\ maxLevels s <= l)) <->
  (isLocked s || (lane <? 0) || (lane >=? CONFIG.LANES) = true \/
   lt_number (levels s !! Z.to_nat lane) (maxLevels s) = false).
Proof.
  rewrite !orb_true_iff, Z.ltb_lt, Z.geb_le.
  destruct (levels s !! Z.to_nat lane) as [l|]; simpl.
  - rewrite Z.ltb_ge. split.
    + intros [Hl|[Hn|[Hg|[Hx|(l' & [= <-] & Hle)]]]]; try tauto. discriminate.
    + intros [[[Hl|Hn]|Hg]|Hle]; try tauto. right; right; right; right. eauto.
  - split; [tauto|]. intros _. tauto.
Qed.

Lemma refuse_decrement_general (s : ScoreboardState) (lane : Z) :
  (isLocked s = true \/ lane < 0 \/ CONFIG.LANES <= lane \/
   levels s !! Z.to_nat lane = None \/
   (exists l, levels s !! Z.to_nat lane = Some l /\ l <= 0)) <->
  (isLocked s || (lane <? 0) || (lane >=? CONFIG.LANES) = true \/
   gt_number (levels s !! Z.to_nat lane) 0 = false).
Proof.
  rewrite !orb_true_iff, Z.ltb_lt, Z.geb_le.
  destruct (levels s !! Z.to_nat lane) as [l|]; simpl.
  - rewrite Z.gtb_ltb, Z.ltb_ge. split.
    + intros [Hl|[Hn|[Hg|[Hx|(l' & [= <-] & Hle)]]]]; try tauto. discriminate.
    + intros [[[Hl|Hn]|Hg]|Hle]; try tauto. right; right; right; right. eauto.
  - split; [tauto|]. intros _. tauto.
Qed.

Lemma increment_accepts (w : World) (lane : Z) :
  ~ (isLocked (state w) = true \/ lane < 0 \/ CONFIG.LANES <= lane \/
     levels (state w) !! Z.to_nat lane = None \/
     (exists l, levels (state w) !! Z.to_nat lane = Some l /\
                maxLevels (state w) <= l)) ->
  exists l,
    levels (state w) !! Z.to_nat lane = Some l /\
    increment lane w =
    (Normal true,
     saved (with_state
              (with_lastUpdated (clock w)
                 (with_levels (<[Z.to_nat lane := l + 1]> (levels (state w)))
                    (state w))) w)).
Proof.
  intros Hc. rewrite refuse_increment_general in Hc. rewrite increment_run.
  destruct (isLocked (state w) || (lane <? 0) || (lane >=? CONFIG.LANES)); [tauto|].
  destruct (levels (state w) !! Z.to_nat lane) as [l|] eqn:El; [|simpl in Hc; tauto].
  destruct (lt_number (Some l) (maxLevels (state w))); [|tauto].
  rewrite (bump_insert _ _ _ _ El). exists l. split; reflexivity.
Qed.

Lemma decrement_accepts (w : World) (lane : Z) :
  ~ (isLocked (state w) = true \/ lane < 0 \/ CONFIG.LANES <= lane \/
     levels (state w) !! Z.to_nat lane = None \/
     (exists l, levels (state w) !! Z.to_nat lane = Some l /\ l <= 0)) ->
  exists l,
    levels (state w) !! Z.to_nat lane = Some l /\
    decrement lane w =
    (Normal true,
     saved (with_state
              (with_lastUpdated (clock w)
                 (with_levels (<[Z.to_nat lane := l - 1]> (levels (state w)))
                    (state w))) w)).
Proof.
  intros Hc. rewrite refuse_decrement_general in Hc. rewrite decrement_run.
  destruct (isLocked (state w) || (lane <? 0) || (lane >=? CONFIG.LANES)); [tauto|].
  destruct (levels (state w) !! Z.to_nat lane) as [l|] eqn:El; [|simpl in Hc; tauto].
  destruct (gt_number (Some l) 0); [|tauto].
  rewrite (bump_insert _ _ _ _ El). exists l. split; reflexivity.
Qed.

Lemma increment_refuses (w : World) (lane : Z) :
  (isLocked (state w) = true \/ lane < 0 \/ CONFIG.LANES <= lane \/
   levels (state w) !! Z.to_nat lane = None \/
   (exists l, levels (state w) !! Z.to_nat lane = Some l /\
              maxLevels (state w) <= l)) ->
  increment lane w = (Normal false, w).
Proof.
  intros Hc. apply refuse_increment_general in Hc. rewrite increment_run.
  destruct Hc as [-> | ->]; [reflexivity|].
  destruct (isLocked (state w) || (lane <? 0) || (lane >=? CONFIG.LANES)); reflexivity.
Qed.

Lemma decrement_refuses (w : World) (lane : Z) :
  (isLocked (state w) = true \/ lane < 0 \/ CONFIG.LANES <= lane \/
   levels (state w) !! Z.to_nat lane = None \/
   (exists l, levels (state w) !! Z.to_nat lane = Some l /\ l <= 0)) ->
  decrement lane w = (Normal false, w).
Proof.
  intros Hc. apply refuse_decrement_general in Hc. rewrite decrement_run.
  destruct Hc as [-> | ->]; [reflexivity|].
  destruct (isLocked (state w) || (lane <? 0) || (lane >=? CONFIG.LANES)); reflexivity.
Qed.

(** C3 (amended). [increment(lane)] returns [false] and leaves the world
    unchanged exactly when the board is locked, [lane] is outside
    [0, LANES), or [levels[lane]] is not below [maxLevels]: it is at or
    above the bound, or the lane has no entry. Otherwise it returns
    [true]; where the level is a safe integer, so that [++] of the source
    is exact, it has added 1 to [levels[lane]], stamped [lastUpdated] and
    called [save], which stores the record when the store takes it.
    [decrement(lane)] is the same with [levels[lane]] not above 0 and 1
    subtracted. Where the data-model invariant holds, "not below the
    bound" is "equal to the bound" and "not above 0" is "equal to 0". *)
Theorem increment_decrement_contract (w : World) (lane : Z) :
  ((isLocked (state w) = true \/ lane < 0 \/ CONFIG.LANES <= lane \/
    levels (state w) !! Z.to_nat lane = None \/
    (exists l, levels (state w) !! Z.to_nat lane = Some l /\
               maxLevels (state w) <= l)) ->
   increment lane w = (Normal false, w)) /\
  (~ (isLocked (state w) = true \/ lane < 0 \/ CONFIG.LANES <= lane \/
      levels (state w) !! Z.to_nat lane = None \/
      (exists l, levels (state w) !! Z.to_nat lane = Some l /\
                 maxLevels (state w) <= l)) ->
   exists l,
     levels (state w) !! Z.to_nat lane = Some l /\
     fst (increment lane w) = Normal true /\
     (safeInteger l ->
      exists w',
        increment lane w = (Normal true, w') /\
        w' = saved (with_state
                      (with_lastUpdated (clock w)
                         (with_levels (<[Z.to_nat lane := plusPlus l]> (levels (state w)))
                            (state w))) w) /\
        plusPlus l = l + 1 /\
        levels (state w') = <[Z.to_nat lane := l + 1]> (levels (state w)) /\
        lastUpdated (state w') = clock w /\
        (mode (localStorage w) = Available -> persisted w'))) /\
  ((isLocked (state w) = true \/ lane < 0 \/ CONFIG.LANES <= lane \/
    levels (state w) !! Z.to_nat lane = None \/
    (exists l, levels (state w) !! Z.to_nat lane = Some l /\ l <= 0)) ->
   decrement lane w = (Normal false, w)) /\
  (~ (isLocked (state w) = true \/ lane < 0 \/ CONFIG.LANES <= lane \/
      levels (state w) !! Z.to_nat lane = None \/
      (exists l, levels (state w) !! Z.to_nat lane = Some l /\ l <= 0)) ->
   exists l,
     levels (state w) !! Z.to_nat lane = Some l /\
     fst (decrement lane w) = Normal true /\
     (safeInteger l ->
      exists w',
        decrement lane w = (Normal true, w') /\
        w' = saved (with_state
                      (with_lastUpdated (clock w)
                         (with_levels (<[Z.to_nat lane := minusMinus l]> (levels (state w)))
                            (state w))) w) /\
        minusMinus l = l - 1 /\
        levels (state w') = <[Z.to_nat lane := l - 1]> (levels (state w)) /\
        lastUpdated (state w') = clock w /\
        (mode (localStorage w) = Available -> persisted w'))) /\
  (Inv (state w) ->
   ((isLocked (state w) = true \/ lane < 0 \/ CONFIG.LANES <= lane \/
     levels (state w) !! Z.to_nat lane = None \/
     (exists l, levels (state w) !! Z.to_nat lane = Some l /\
                maxLevels (state w) <= l)) <->
    (isLocked (state w) = true \/ lane < 0 \/ CONFIG.LANES <= lane \/
     levels (state w) !! Z.to_nat lane = Some (maxLevels (state w)))) /\
   ((isLocked (state w) = true \/ lane < 0 \/ CONFIG.LANES <= lane \/
     levels (state w) !! Z.to_nat lane = None \/
     (exists l, levels (state w) !! Z.to_nat lane = Some l /\ l <= 0)) <->
    (isLocked (state w) = true \/ lane < 0 \/ CONFIG.LANES <= lane \/
     levels (state w) !! Z.to_nat lane = Some 0))).
Proof.
  split_and!.
  - apply increment_refuses.
  - intros Hc. destruct (increment_accepts w lane Hc) as (l & Hl & Hrun).
    exists l. split; [exact Hl|]. split; [rewrite Hrun; reflexivity|].
    intros Hsafe. destruct (safe_plusPlus l Hsafe) as [Hp _]. clear Hsafe.
    eexists. rewrite Hp. split; [exact Hrun|]. split; [reflexivity|].
    rewrite saved_state. split_and!; try reflexivity.
    intros Hm. apply saved_persisted. exact Hm.
  - apply decrement_refuses.
  - intros Hc. destruct (decrement_accepts w lane Hc) as (l & Hl & Hrun).
    exists l. split; [exact Hl|]. split; [rewrite Hrun; reflexivity|].
    intros Hsafe. destruct (safe_plusPlus l Hsafe) as [_ Hp]. clear Hsafe.
    eexists. rewrite Hp. split; [exact Hrun|]. split; [reflexivity|].
    rewrite saved_state. split_and!; try reflexivity.
    intros Hm. apply saved_persisted. exact Hm.
  - intros HI. split.
    + rewrite refuse_increment_general. symmetry. apply refuse_increment_iff, HI.
    + rewrite refuse_decrement_general. symmetry. apply refuse_decrement_iff, HI.
Qed.

(** C4. [resetToday()] sets every lane to 0 and leaves the day key as it
    was; [resetForNewDay()] sets every lane to 0 and sets the day key to
    what [todayKey()] returns; both stamp [lastUpdated] and call [save],
    after which the store holds the record whenever it takes the write. *)
Theorem resets_contract (w : World) :
  (exists w1,
     resetToday w = (Normal tt, w1) /\
     levels (state w1) = replicate (Z.to_nat CONFIG.LANES) 0 /\
     dateKey (state w1) = dateKey (state w) /\
     w1 = saved (with_state
                   (with_lastUpdated (clock w) (with_levels zeroLevels (state w))) w) /\
     (mode (localStorage w) = Available -> persisted w1)) /\
  (exists k w2,
     todayKey w = (Normal k, w) /\
     resetForNewDay w = (Normal tt, w2) /\
     levels (state w2) = replicate (Z.to_nat CONFIG.LANES) 0 /\
     dateKey (state w2) = k /\
     w2 = saved (with_state
                   (with_lastUpdated (clock w)
                      (with_dateKey k (with_levels zeroLevels (state w)))) w) /\
     (mode (localStorage w) = Available -> persisted w2)).
Proof.
  split.
  - eexists. rewrite resetToday_run. split_and!; try reflexivity.
    + rewrite saved_state. reflexivity.
    + rewrite saved_state. reflexivity.
    + intros Hm. apply saved_persisted. exact Hm.
  - eexists _, _. rewrite todayKey_run, resetForNewDay_run.
    split_and!; try reflexivity.
    + rewrite saved_state. reflexivity.
    + rewrite saved_state. reflexivity.
    + intros Hm. apply saved_persisted. exact Hm.
Qed.

(** C9. [toggleLock()] has no lock gate: in every state, locked or not,
    it flips [isLocked], calls [save] and returns the new lock state; a
    second call restores the original lock state, so a locked board can
    always be unlocked. *)
Theorem toggleLock_involution (w : World) :
  exists w1 w2,
    toggleLock w = (Normal (negb (isLocked (state w))), w1) /\
    isLocked (state w1) = negb (isLocked (state w)) /\
    w1 = saved (with_state
                  (with_isLocked (negb (isLocked (state w))) (state w)) w) /\
    (mode (localStorage w) = Available -> persisted w1) /\
    toggleLock w1 = (Normal (isLocked (state w)), w2) /\
    isLocked (state w2) = isLocked (state w) /\
    levels (state w2) = levels (state w) /\
    dateKey (state w2) = dateKey (state w).
Proof.
  exists (snd (toggleLock w)), (snd (toggleLock (snd (toggleLock w)))).
  rewrite !toggleLock_run. simpl. rewrite !saved_state. simpl.
  rewrite negb_involutive.
  split_and!; try reflexivity.
  intros Hm. apply saved_persisted. exact Hm.
Qed.

(** C10. Whenever [increment(lane)] or [decrement(lane)] returns [false],
    the world after the call is the world before it: no write reached the
    store, and levels, day key, time stamp and lock are as they were. *)
Theorem refused_call_changes_nothing (w w' : World) (lane : Z) :
  increment lane w = (Normal false, w') \/ decrement lane w = (Normal false, w') ->
  w' = w /\
  item (localStorage w') = item (localStorage w) /\
  levels (state w') = levels (state w) /\
  dateKey (state w') = dateKey (state w) /\
  lastUpdated (state w') = lastUpdated (state w) /\
  isLocked (state w') = isLocked (state w).
Proof.
  intros Hrun. assert (Heq : w' = w); [|subst; split_and!; reflexivity].
  destruct Hrun as [Hrun|Hrun].
  - rewrite increment_run in Hrun.
    destruct (isLocked (state w) || (lane <? 0) || (lane >=? CONFIG.LANES));
      [congruence|].
    destruct (lt_number _ _); [discriminate|congruence].
  - rewrite decrement_run in Hrun.
    destruct (isLocked (state w) || (lane <? 0) || (lane >=? CONFIG.LANES));
      [congruence|].
    destruct (gt_number _ _); [discriminate|congruence].
Qed.

(** *** Timers *)

Lemma msUntilNextMidnight_run (w : World) :
  msUntilNextMidnight w =
  (Normal (Date_parse (Intl_format (timezone (state w)) (clock w) +:+ "T00:00:00")
           + 24 * 60 * 60 * 1000 - clock w), w).
Proof. reflexivity. Qed.

Lemma scheduleMidnightReset_run (w : World) :
  scheduleMidnightReset w =
  (Normal tt,
   with_state (with_midnightTimer (Some (nextTimer w)) (state w))
     (with_timers
        (<[nextTimer w :=
             {| callback := MidnightReset;
                delay := Date_parse (Intl_format (timezone (state w)) (clock w)
                                     +:+ "T00:00:00")
                         + 24 * 60 * 60 * 1000 - clock w |}]>
           (match midnightTimer (state w) with
            | Some h => delete h (timers w)
            | None => timers w
            end))
        (Pos.succ (nextTimer w)) w)).
Proof.
  unfold scheduleMidnightReset.
  rewrite (bind_normal _ _ _ _ _ (eq_refl : get_this w = (Normal (state w), w))).
  destruct (midnightTimer (state w)) as [h|]; reflexivity.
Qed.

Lemma cleanup_run (w : World) :
  cleanup w =
  (Normal tt,
   with_timers
     (match visibilityTimer (state w) with
      | Some v =>
          delete v (match midnightTimer (state w) with
                    | Some h => delete h (timers w)
                    | None => timers w
                    end)
      | None =>
          match midnightTimer (state w) with
          | Some h => delete h (timers w)
          | None => timers w
          end
      end) (nextTimer w) w).
Proof.
  unfold cleanup.
  rewrite (bind_normal _ _ _ _ _ (eq_refl : get_this w = (Normal (state w), w))).
  destruct w as [s ls c tm n hd cs].
  destruct (midnightTimer s) as [h|] eqn:Em, (visibilityTimer s) as [v|] eqn:Ev;
    simpl; rewrite ?Em, ?Ev; reflexivity.
Qed.

Lemma this_render_run (w : World) : this_render w = (Abrupt TypeError, w).
Proof. reflexivity. Qed.

Lemma midnightCallback_run (w : World) :
  midnightCallback w = (Abrupt TypeError, snd (resetForNewDay w)).
Proof.
  unfold midnightCallback.
  rewrite (bind_normal _ _ _ _ _ (resetForNewDay_run _)).
  rewrite (bind_abrupt _ _ _ _ _ (this_render_run _)).
  rewrite resetForNewDay_run. reflexivity.
Qed.

Lemma visibilityCallback_run (w : World) :
  visibilityCallback w =
  if bool_decide (dateKey (state w) <> keyOf (timezone (state w)) (clock w))
  then (Normal tt, snd (resetForNewDay w))
  else (Normal tt, w).
Proof.
  unfold visibilityCallback.
  rewrite (bind_normal _ _ _ _ _ (todayKey_run _)).
  rewrite (bind_normal _ _ _ _ _ (eq_refl : get_this w = (Normal (state w), w))).
  destruct (bool_decide _); [|reflexivity].
  rewrite (bind_normal _ _ _ _ _ (resetForNewDay_run _)).
  rewrite resetForNewDay_run. reflexivity.
Qed.

Lemma onVisibilityChange_run (w : World) :
  onVisibilityChange w =
  if hidden w then (Normal tt, w)
  else (Normal tt,
        with_state (with_visibilityTimer (Some (nextTimer w)) (state w))
          (with_timers
             (<[nextTimer w := {| callback := VisibilityCheck; delay := 1000 |}]>
                (timers w))
             (Pos.succ (nextTimer w)) w)).
Proof.
  unfold onVisibilityChange.
  rewrite (bind_normal _ _ _ _ _ (eq_refl : document_hidden w = (Normal (hidden w), w))).
  destruct (hidden w); reflexivity.
Qed.

Lemma fire_run (w : World) (h : TimerId) :
  fire h w =
  match timers w !! h with
  | Some t => runCallback (callback t) (with_timers (delete h (timers w)) (nextTimer w) w)
  | None => (Normal tt, w)
  end.
Proof. unfold fire. destruct (timers w !! h); reflexivity. Qed.

(** *** The configuration stays truthy *)

Lemma or_default_Z_truthy (a : option Z) (b : Z) : b <> 0 -> or_default_Z a b <> 0.
Proof.
  unfold or_default_Z. intros Hb. destruct a as [z|]; [|exact Hb].
  destruct (Z.eqb_spec z 0); assumption.
Qed.

Lemma or_default_string_truthy (a : option string) (b : string) :
  b <> "" -> or_default_string a b <> "".
Proof.
  unfold or_default_string. intros Hb. destruct a as [[|c s]|]; try exact Hb.
  discriminate.
Qed.

Lemma or_default_Z_id (z b : Z) : z <> 0 -> or_default_Z (Some z) b = z.
Proof. unfold or_default_Z. intros Hz. destruct (Z.eqb_spec z 0); congruence. Qed.

Lemma or_default_string_id (s b : string) : s <> "" -> or_default_string (Some s) b = s.
Proof. unfold or_default_string. intros Hs. destruct s; congruence. Qed.

Lemma truthy_same (s s' : ScoreboardState) :
  maxLevels s' = maxLevels s -> timezone s' = timezone s ->
  truthyConfig s -> truthyConfig s'.
Proof. unfold truthyConfig. intros -> ->. tauto. Qed.

Lemma truthy_resetForNewDay (w : World) :
  truthyConfig (state w) -> truthyConfig (state (snd (resetForNewDay w))).
Proof.
  intros Ht. rewrite resetForNewDay_run. simpl. rewrite saved_state.
  apply (truthy_same (state w)); [reflexivity|reflexivity|exact Ht].
Qed.

Lemma truthy_react (e : Event) (w : World) :
  truthyConfig (state w) -> truthyConfig (state (react e w)).
Proof.
  intros Ht. destruct e; simpl.
  - destruct (loadOrInit_returns w) as ([|] & w' & Hrun); rewrite Hrun; simpl.
    + apply loadOrInit_true in Hrun as (text & data & _ & _ & _ & _ & _ & _ & ->).
      simpl. split; simpl.
      * apply or_default_Z_truthy. discriminate.
      * apply or_default_string_truthy. discriminate.
    + apply loadOrInit_false in Hrun as (w0 & Hw0 & Hreset).
      replace w' with (snd (resetForNewDay w0)) by (rewrite Hreset; reflexivity).
      apply truthy_resetForNewDay. destruct Hw0 as [->|[e ->]]; exact Ht.
  - rewrite save_run. simpl. rewrite saved_state. exact Ht.
  - apply truthy_resetForNewDay, Ht.
  - rewrite increment_run.
    destruct (isLocked (state w) || (lane <? 0) || (lane >=? CONFIG.LANES)); [exact Ht|].
    destruct (lt_number _ _); [|exact Ht]. simpl. rewrite saved_state. exact Ht.
  - rewrite decrement_run.
    destruct (isLocked (state w) || (lane <? 0) || (lane >=? CONFIG.LANES)); [exact Ht|].
    destruct (gt_number _ _); [|exact Ht]. simpl. rewrite saved_state. exact Ht.
  - rewrite resetToday_run. simpl. rewrite saved_state. exact Ht.
  - rewrite toggleLock_run. simpl. rewrite saved_state. exact Ht.
  - rewrite scheduleMidnightReset_run. exact Ht.
  - rewrite cleanup_run. exact Ht.
  - rewrite fire_run. destruct (timers w !! h) as [t|]; [|exact Ht].
    destruct (callback t); simpl.
    + rewrite midnightCallback_run. simpl. apply truthy_resetForNewDay. exact Ht.
    + rewrite visibilityCallback_run. destruct (bool_decide _); simpl; [|exact Ht].
      apply truthy_resetForNewDay. exact Ht.
  - rewrite onVisibilityChange_run. destruct (hidden w); exact Ht.
  - exact Ht.
Qed.

Lemma reachable_truthy (w : World) : reachable w -> truthyConfig (state w).
Proof.
  induction 1 as [store now isHidden|e w _ IH].
  - split; discriminate.
  - apply truthy_react, IH.
Qed.

(** *** Loading *)

Lemma loadOrInit_adopts (w : World) (text : string) (data : StoredData) :
  mode (localStorage w) <> Denied ->
  item (localStorage w) = Some text ->
  text <> "" ->
  JSON_parse text = Some data ->
  data_dateKey data = Some (keyOf (timezone (state w)) (clock w)) ->
  data_version data = Some 1 ->
  loadOrInit w =
  (Normal true,
   with_state (adopt data (keyOf (timezone (state w)) (clock w)) (state w)) w).
Proof.
  intros Hm Hi Ht Hp Hk Hv. rewrite loadOrInit_run, loadStored_run, Hi.
  destruct text as [|c text]; [congruence|]. rewrite Hp, Hk, Hv.
  rewrite !bool_decide_eq_true_2 by reflexivity. simpl.
  destruct (mode (localStorage w)); congruence.
Qed.

(** C5. [loadOrInit()] always returns, never throws. It returns [true]
    exactly when the store can be read and holds a non-empty text that
    parses to a record whose [dateKey] is today's key and whose [version]
    is 1, and then the state holds the record's fields. For every other
    content of the store (nothing stored, a text that does not parse, a
    stale [dateKey], another [version]) it runs [resetForNewDay], which
    leaves zeroed levels under today's key, and returns [false]. *)
Theorem loadOrInit_contract (w : World) :
  exists (today : string) (b : bool) (w' : World),
    todayKey w = (Normal today, w) /\
    loadOrInit w = (Normal b, w') /\
    (b = true <->
     exists text data,
       mode (localStorage w) <> Denied /\
       item (localStorage w) = Some text /\ text <> "" /\
       JSON_parse text = Some data /\
       data_dateKey data = Some today /\
       data_version data = Some 1) /\
    (b = true ->
     exists text data,
       item (localStorage w) = Some text /\
       JSON_parse text = Some data /\
       levels (state w') = data_levels data /\
       maxLevels (state w') =
         or_default_Z (data_maxLevels data) CONFIG.MAX_LEVELS /\
       timezone (state w') =
         or_default_string (data_tz data) CONFIG.TIMEZONE /\
       data_dateKey data = Some (dateKey (state w')) /\
       lastUpdated (state w') = data_lastUpdated data /\
       localStorage w' = localStorage w) /\
    (b = false ->
     (exists w0,
        (w0 = w \/ exists e, w0 = with_console (console w ++ [Warn e]) w) /\
        resetForNewDay w0 = (Normal tt, w')) /\
     levels (state w') = replicate (Z.to_nat CONFIG.LANES) 0 /\
     dateKey (state w') = today /\
     lastUpdated (state w') = clock w).
Proof.
  destruct (loadOrInit_returns w) as (b & w' & Hrun).
  exists (keyOf (timezone (state w)) (clock w)), b, w'.
  split; [apply todayKey_run|]. split; [exact Hrun|]. split_and!.
  - split.
    + intros ->.
      apply loadOrInit_true in Hrun as (text & data & ? & ? & ? & ? & ? & ? & _).
      exists text, data. split_and!; assumption.
    + intros (text & data & Hm & Hi & Ht & Hp & Hk & Hv).
      rewrite (loadOrInit_adopts w text data Hm Hi Ht Hp Hk Hv) in Hrun.
      congruence.
  - intros ->.
    apply loadOrInit_true in Hrun as (text & data & _ & Hi & _ & Hp & Hk & _ & ->).
    exists text, data. split_and!; try assumption; reflexivity.
  - intros ->.
    apply loadOrInit_false in Hrun as (w0 & Hw0 & Hreset).
    assert (Hst : state w0 = state w /\ clock w0 = clock w).
    { destruct Hw0 as [->|[e ->]]; split; reflexivity. }
    destruct Hst as [Hst Hck].
    split; [exists w0; split; assumption|].
    rewrite resetForNewDay_run in Hreset. injection Hreset as <-.
    rewrite saved_state. simpl. rewrite Hst, Hck. split_and!; reflexivity.
Qed.

(** The record [save] wrote is adopted by any later [loadOrInit] that
    computes the same day key, from this state object or from a fresh one
    after a reload. *)
Lemma saved_record_adopted (w w1 w2 : World) :
  truthyConfig (state w) ->
  mode (localStorage w) = Available ->
  JSON_stringify (snapshot (state w) (clock w)) <> "" ->
  JSON_parse (JSON_stringify (snapshot (state w) (clock w)))
    = Some (snapshot (state w) (clock w)) ->
  save w = (Normal tt, w1) ->
  localStorage w2 = localStorage w1 ->
  todayKey w2 = (Normal (dateKey (state w)), w2) ->
  exists w3,
    loadOrInit w2 = (Normal true, w3) /\
    levels (state w3) = levels (state w) /\
    maxLevels (state w3) = maxLevels (state w) /\
    timezone (state w3) = timezone (state w) /\
    dateKey (state w3) = dateKey (state w).
Proof.
  intros [Hmax Htz] Hm Hne Hparse Hsave Hstore Htoday.
  rewrite save_run in Hsave. injection Hsave as <-.
  rewrite todayKey_run in Htoday. injection Htoday as Hkey.
  assert (Hitem : item (localStorage w2)
                  = Some (JSON_stringify (snapshot (state w) (clock w)))).
  { rewrite Hstore. unfold saved. rewrite Hm. reflexivity. }
  assert (Hmode : mode (localStorage w2) <> Denied).
  { rewrite Hstore, saved_mode, Hm. discriminate. }
  eexists. split.
  - apply (loadOrInit_adopts w2 _ _ Hmode Hitem Hne Hparse).
    + simpl. rewrite Hkey. reflexivity.
    + reflexivity.
  - simpl. split_and!.
    + reflexivity.
    + apply or_default_Z_id, Hmax.
    + apply or_default_string_id, Htz.
    + exact Hkey.
Qed.

(** C6. For every state the page can reach, [save()] followed by
    [loadOrInit()] returns [true] and reproduces the same [levels],
    [maxLevels] and [timezone], provided the store takes the write, the
    platform's [JSON.parse] reads back the text [JSON.stringify] wrote for
    this record, and the loader computes the saved day key as today's.
    The loader is any state object over the store [save] left: the one
    that saved, or another one whose fields differ, so what comes back is
    read from the stored record. *)
Theorem save_loadOrInit_roundtrip (w loader : World) :
  reachable w ->
  mode (localStorage w) = Available ->
  JSON_stringify (snapshot (state w) (clock w)) <> "" ->
  JSON_parse (JSON_stringify (snapshot (state w) (clock w)))
    = Some (snapshot (state w) (clock w)) ->
  localStorage loader = localStorage (snd (save w)) ->
  todayKey loader = (Normal (dateKey (state w)), loader) ->
  exists w1 w2,
    save w = (Normal tt, w1) /\
    item (localStorage w1)
      = Some (JSON_stringify (snapshot (state w) (clock w))) /\
    loadOrInit loader = (Normal true, w2) /\
    levels (state w2) = levels (state w) /\
    maxLevels (state w2) = maxLevels (state w) /\
    timezone (state w2) = timezone (state w) /\
    dateKey (state w2) = dateKey (state w) /\
    isLocked (state w2) = isLocked (state loader) /\
    localStorage w2 = localStorage loader.
Proof.
  intros Hreach Hm Hne Hparse Hstore Htoday.
  rewrite save_run in Hstore. simpl in Hstore.
  assert (Hitem : item (localStorage loader)
                  = Some (JSON_stringify (snapshot (state w) (clock w)))).
  { rewrite Hstore. unfold saved. rewrite Hm. reflexivity. }
  assert (Hmode : mode (localStorage loader) <> Denied).
  { rewrite Hstore, saved_mode, Hm. discriminate. }
  rewrite todayKey_run in Htoday. injection Htoday as Htoday.
  assert (Hkey : data_dateKey (snapshot (state w) (clock w))
                 = Some (keyOf (timezone (state loader)) (clock loader))).
  { rewrite Htoday. reflexivity. }
  destruct (reachable_truthy w Hreach) as [Hmax Htz].
  exists (saved w). eexists. split; [apply save_run|].
  split; [unfold saved; rewrite Hm; reflexivity|].
  split; [apply (loadOrInit_adopts loader _ _ Hmode Hitem Hne Hparse Hkey eq_refl)|].
  simpl. split_and!; try reflexivity.
  - apply or_default_Z_id, Hmax.
  - apply or_default_string_id, Htz.
  - exact Htoday.
Qed.

(** *** The midnight timer *)

(** [scheduleMidnightReset] cancels the timer it armed before and arms
    one: afterwards the only pending midnight timer is the new one. *)
Lemma scheduleMidnightReset_single (w : World) :
  midnightTracked w ->
  midnightTracked (snd (scheduleMidnightReset w)) /\
  forall h t,
    timers (snd (scheduleMidnightReset w)) !! h = Some t ->
    callback t = MidnightReset ->
    h = nextTimer w.
Proof.
  intros [Htrack Hfresh]. rewrite scheduleMidnightReset_run. simpl.
  assert (Hone : forall h t,
            <[nextTimer w :=
                {| callback := MidnightReset;
                   delay := Date_parse (Intl_format (timezone (state w)) (clock w)
                                        +:+ "T00:00:00")
                            + 24 * 60 * 60 * 1000 - clock w |}]>
              (match midnightTimer (state w) with
               | Some h0 => delete h0 (timers w)
               | None => timers w
               end) !! h = Some t ->
            callback t = MidnightReset -> h = nextTimer w).
  { intros h t Hl Hc. destruct (decide (nextTimer w = h)) as [->|Hne]; [reflexivity|].
    rewrite lookup_insert_ne in Hl by exact Hne. exfalso.
    destruct (midnightTimer (state w)) as [h0|] eqn:Em.
    - destruct (decide (h0 = h)) as [->|Hne0].
      + rewrite lookup_delete_eq in Hl. discriminate.
      + rewrite lookup_delete_ne in Hl by exact Hne0.
        specialize (Htrack _ _ Hl Hc). congruence.
    - specialize (Htrack _ _ Hl Hc). congruence. }
  split; [split|]; simpl.
  - intros h t Hl Hc. f_equal. symmetry. exact (Hone h t Hl Hc).
  - intros h t Hl. destruct (decide (nextTimer w = h)) as [<-|Hne]; [lia|].
    rewrite lookup_insert_ne in Hl by exact Hne.
    assert (Hold : timers w !! h = Some t).
    { destruct (midnightTimer (state w)) as [h0|]; [|exact Hl].
      destruct (decide (h0 = h)) as [->|Hne0].
      - rewrite lookup_delete_eq in Hl. discriminate.
      - rewrite lookup_delete_ne in Hl by exact Hne0. exact Hl. }
    specialize (Hfresh _ _ Hold). lia.
  - exact Hone.
Qed.

(** C7. The closure [scheduleMidnightReset] hands to [setTimeout]
    performs the rollover and then throws: [this.render] is not a member
    of [ScoreboardState]. The call that would arm the timer for the
    following midnight is never reached, so the table of pending timers
    and the handle counter are as the rollover found them. *)
Theorem midnightCallback_never_rearms (w : World) :
  exists w',
    midnightCallback w = (Abrupt TypeError, w') /\
    resetForNewDay w = (Normal tt, w') /\
    levels (state w') = zeroLevels /\
    timers w' = timers w /\
    nextTimer w' = nextTimer w /\
    midnightTimer (state w') = midnightTimer (state w).
Proof.
  exists (snd (resetForNewDay w)). rewrite midnightCallback_run.
  rewrite resetForNewDay_run. simpl. rewrite saved_state.
  destruct (saved_timers
              (with_state
                 (with_lastUpdated (clock w)
                    (with_dateKey (keyOf (timezone (state w)) (clock w))
                       (with_levels zeroLevels (state w)))) w)) as [Ht Hn].
  rewrite Ht, Hn. split_and!; reflexivity.
Qed.

(** When the browser fires the one pending midnight timer, no midnight
    timer is pending afterwards. *)
Lemma fire_midnight_leaves_none (w : World) (h : TimerId) (t : Timer) :
  midnightTracked w ->
  timers w !! h = Some t ->
  callback t = MidnightReset ->
  fst (fire h w) = Abrupt TypeError /\
  forall h' t', timers (snd (fire h w)) !! h' = Some t' ->
                callback t' <> MidnightReset.
Proof.
  intros [Htrack _] Hl Hc. rewrite fire_run, Hl, Hc. simpl.
  rewrite midnightCallback_run. simpl. split; [reflexivity|].
  intros h' t' Hl' Hc'. rewrite resetForNewDay_run in Hl'. simpl in Hl'.
  match type of Hl' with
  | timers (saved ?x) !! _ = _ => destruct (saved_timers x) as [Ht _]; rewrite Ht in Hl'
  end.
  simpl in Hl'. destruct (decide (h = h')) as [->|Hne].
  - rewrite lookup_delete_eq in Hl'. discriminate.
  - rewrite lookup_delete_ne in Hl' by exact Hne.
    pose proof (Htrack _ _ Hl Hc) as H1. pose proof (Htrack _ _ Hl' Hc') as H2.
    congruence.
Qed.

(** *** The visibility timer *)

(** C8. Two visibility changes that find the page visible leave two
    reconciliation timers pending: the listener arms a new timer without
    cancelling the one it armed before, and only the newer handle is kept
    in [visibilityTimer]. The older timer still fires and runs the
    comparison of [todayKey()] with [dateKey]. *)
Theorem visibility_timers_pile_up (w : World) :
  hidden w = false ->
  exists w1 w2,
    onVisibilityChange w = (Normal tt, w1) /\
    onVisibilityChange w1 = (Normal tt, w2) /\
    timers w2 !! nextTimer w
      = Some {| callback := VisibilityCheck; delay := 1000 |} /\
    timers w2 !! Pos.succ (nextTimer w)
      = Some {| callback := VisibilityCheck; delay := 1000 |} /\
    visibilityTimer (state w2) = Some (Pos.succ (nextTimer w)) /\
    fire (nextTimer w) w2
      = visibilityCallback
          (with_timers (delete (nextTimer w) (timers w2)) (nextTimer w2) w2).
Proof.
  intros Hvis.
  exists (snd (onVisibilityChange w)),
         (snd (onVisibilityChange (snd (onVisibilityChange w)))).
  rewrite !onVisibilityChange_run, Hvis. simpl. rewrite Hvis.
  assert (Hne : Pos.succ (nextTimer w) <> nextTimer w) by lia.
  assert (H1 : <[Pos.succ (nextTimer w) :=
                   {| callback := VisibilityCheck; delay := 1000 |}]>
                 (<[nextTimer w :=
                      {| callback := VisibilityCheck; delay := 1000 |}]> (timers w))
                 !! nextTimer w
               = Some {| callback := VisibilityCheck; delay := 1000 |}).
  { rewrite lookup_insert_ne by exact Hne. apply lookup_insert_eq. }
  split_and!; try reflexivity.
  - exact H1.
  - apply lookup_insert_eq.
  - rewrite fire_run. simpl. rewrite H1. reflexivity.
Qed.

(** *** Rendering *)

Lemma setIfPresent_lookup {V : Type} (i k : nat) (v : V) (m : gmap nat V) :
  setIfPresent i v m !! k =
  match m !! k with
  | Some o => Some (if decide (i = k) then v else o)
  | None => None
  end.
Proof.
  unfold setIfPresent. destruct (m !! i) as [o|] eqn:Ei.
  - destruct (decide (i = k)) as [->|Hne].
    + rewrite lookup_insert_eq, Ei. reflexivity.
    + rewrite lookup_insert_ne by exact Hne. destruct (m !! k); reflexivity.
  - destruct (decide (i = k)) as [->|Hne].
    + rewrite Ei. reflexivity.
    + destruct (m !! k); reflexivity.
Qed.

(** A loop whose body writes component [get] at its own index only. *)
Lemma forEach_lookup {A D V : Type} (get : D -> gmap nat V) (g : A -> V)
      (f : A -> nat -> D -> D) :
  (forall x i d, get (f x i d) = setIfPresent i (g x) (get d)) ->
  forall (l : list A) (i : nat) (d : D) (k : nat),
    get (forEach f l i d) !! k =
    match get d !! k with
    | Some v =>
        Some (if decide (i <= k)%nat
              then match l !! (k - i)%nat with Some x => g x | None => v end
              else v)
    | None => None
    end.
Proof.
  intros Hbody l. induction l as [|x r IH]; intros i d k; simpl.
  - destruct (get d !! k); [|reflexivity]. destruct (decide (i <= k)%nat); reflexivity.
  - rewrite IH, Hbody, setIfPresent_lookup.
    destruct (get d !! k) as [v|]; [|reflexivity]. f_equal.
    destruct (decide (i = k)) as [->|Hne].
    + rewrite decide_False by lia. rewrite decide_True by lia.
      rewrite Nat.sub_diag. reflexivity.
    + destruct (decide (S i <= k)%nat) as [Hle|Hgt].
      * rewrite decide_True by lia.
        replace (k - i)%nat with (S (k - S i)) by lia. reflexivity.
      * rewrite decide_False by lia. reflexivity.
Qed.

Lemma forEach_frame {A D B : Type} (get : D -> B) (f : A -> nat -> D -> D) :
  (forall x i d, get (f x i d) = get d) ->
  forall (l : list A) (i : nat) (d : D), get (forEach f l i d) = get d.
Proof.
  intros Hbody l. induction l as [|x r IH]; intros i d; simpl; [reflexivity|].
  rewrite IH. apply Hbody.
Qed.

(** What [render] leaves in each element: the value drawn from the level
    of its lane when the state has one, the old value otherwise. *)
Lemma render_lookup (s : ScoreboardState) (doc : Document) (k : nat) :
  scoreDisplay (render s doc) !! k =
    match scoreDisplay doc !! k with
    | Some v => Some (match levels s !! k with Some x => pretty x | None => v end)
    | None => None
    end /\
  characterContainer (render s doc) !! k =
    match characterContainer doc !! k with
    | Some v =>
        Some (match levels s !! k with
              | Some x => pretty (x * CONFIG.GRID_HEIGHT) +:+ "px"
              | None => v
              end)
    | None => None
    end /\
  upBtn (render s doc) !! k =
    match upBtn doc !! k with
    | Some v =>
        Some (match levels s !! k with
              | Some x => isLocked s || (x >=? maxLevels s)
              | None => v
              end)
    | None => None
    end /\
  downBtn (render s doc) !! k =
    match downBtn doc !! k with
    | Some v =>
        Some (match levels s !! k with
              | Some x => isLocked s || (x <=? 0)
              | None => v
              end)
    | None => None
    end /\
  lockBtn (render s doc) =
    match lockBtn doc with
    | Some _ => Some (lockLabel (isLocked s))
    | None => None
    end.
Proof.
  assert (Hlock : forall d, lockBtn (renderLockStatus s d)
                            = match lockBtn d with
                              | Some _ => Some (lockLabel (isLocked s))
                              | None => None
                              end).
  { intros d. unfold renderLockStatus. destruct (lockBtn d) eqn:E; simpl; [reflexivity|exact E]. }
  assert (Hkeep : forall d,
            scoreDisplay (renderLockStatus s d) = scoreDisplay d /\
            characterContainer (renderLockStatus s d) = characterContainer d /\
            upBtn (renderLockStatus s d) = upBtn d /\
            downBtn (renderLockStatus s d) = downBtn d).
  { intros d. unfold renderLockStatus. destruct (lockBtn d); split_and!; reflexivity. }
  unfold render.
  destruct (Hkeep (renderButtons s (renderScores s doc))) as (-> & -> & -> & ->).
  rewrite Hlock. unfold renderButtons, renderScores.
  split_and!.
  - rewrite (forEach_frame scoreDisplay) by reflexivity.
    rewrite (forEach_lookup scoreDisplay (fun x => pretty x)) by reflexivity.
    rewrite Nat.sub_0_r. destruct (scoreDisplay doc !! k); reflexivity.
  - rewrite (forEach_frame characterContainer) by reflexivity.
    rewrite (forEach_lookup characterContainer
               (fun x => pretty (x * CONFIG.GRID_HEIGHT) +:+ "px")) by reflexivity.
    rewrite Nat.sub_0_r. destruct (characterContainer doc !! k); reflexivity.
  - rewrite (forEach_lookup upBtn (fun x => isLocked s || (x >=? maxLevels s)))
      by reflexivity.
    rewrite (forEach_frame upBtn) by reflexivity.
    rewrite Nat.sub_0_r. destruct (upBtn doc !! k); reflexivity.
  - rewrite (forEach_lookup downBtn (fun x => isLocked s || (x <=? 0))) by reflexivity.
    rewrite (forEach_frame downBtn) by reflexivity.
    rewrite Nat.sub_0_r. destruct (downBtn doc !! k); reflexivity.
  - rewrite (forEach_frame lockBtn) by reflexivity.
    rewrite (forEach_frame lockBtn) by reflexivity. reflexivity.
Qed.

Lemma shows_render (s : ScoreboardState) (doc : Document) :
  shows s (render s doc).
Proof.
  split.
  - intros lane level Hl.
    destruct (render_lookup s doc lane) as (Hs & Hc & Hu & Hd & _).
    rewrite Hl in Hs, Hc, Hu, Hd. split_and!.
    + intros t Ht. rewrite Hs in Ht. destruct (scoreDisplay doc !! lane); congruence.
    + intros b Hb. rewrite Hc in Hb. destruct (characterContainer doc !! lane); congruence.
    + intros d Hd'. rewrite Hu in Hd'. destruct (upBtn doc !! lane); congruence.
    + intros d Hd'. rewrite Hd in Hd'. destruct (downBtn doc !! lane); congruence.
  - intros l Hl. destruct (render_lookup s doc 0%nat) as (_ & _ & _ & _ & Hk).
    rewrite Hk in Hl. destruct (lockBtn doc); congruence.
Qed.

(** X1. Whatever the document held, after [render] every element the
    renderer finds shows the state: the score text is the level of its
    lane, the character stands [level * GRID_HEIGHT] pixels up, an arrow
    is disabled exactly when the board is locked or the level is at its
    end of the range, and the lock button carries the label of the
    current lock state. *)
Theorem render_shows_state (s : ScoreboardState) (doc : Document) :
  shows s (render s doc).
Proof. apply shows_render. Qed.

(** X2. [render] adds no element and removes none, and an element of a
    lane for which the state has no level keeps what it held. *)
Theorem render_keeps_elements (s : ScoreboardState) (doc : Document) (lane : nat) :
  (is_Some (scoreDisplay (render s doc) !! lane) <-> is_Some (scoreDisplay doc !! lane)) /\
  (is_Some (characterContainer (render s doc) !! lane)
   <-> is_Some (characterContainer doc !! lane)) /\
  (is_Some (upBtn (render s doc) !! lane) <-> is_Some (upBtn doc !! lane)) /\
  (is_Some (downBtn (render s doc) !! lane) <-> is_Some (downBtn doc !! lane)) /\
  (is_Some (lockBtn (render s doc)) <-> is_Some (lockBtn doc)) /\
  (levels s !! lane = None ->
   scoreDisplay (render s doc) !! lane = scoreDisplay doc !! lane /\
   characterContainer (render s doc) !! lane = characterContainer doc !! lane /\
   upBtn (render s doc) !! lane = upBtn doc !! lane /\
   downBtn (render s doc) !! lane = downBtn doc !! lane).
Proof.
  destruct (render_lookup s doc lane) as (Hs & Hc & Hu & Hd & Hk).
  rewrite Hs, Hc, Hu, Hd, Hk. split_and!.
  - destruct (scoreDisplay doc !! lane); split; intros [x Hx]; eauto; discriminate.
  - destruct (characterContainer doc !! lane); split; intros [x Hx]; eauto; discriminate.
  - destruct (upBtn doc !! lane); split; intros [x Hx]; eauto; discriminate.
  - destruct (downBtn doc !! lane); split; intros [x Hx]; eauto; discriminate.
  - destruct (lockBtn doc); split; intros [x Hx]; eauto; discriminate.
  - intros ->. split_and!.
    + destruct (scoreDisplay doc !! lane); reflexivity.
    + destruct (characterContainer doc !! lane); reflexivity.
    + destruct (upBtn doc !! lane); reflexivity.
    + destruct (downBtn doc !! lane); reflexivity.
Qed.

Lemma Document_eq (d d' : Document) :
  (forall k, scoreDisplay d !! k = scoreDisplay d' !! k) ->
  (forall k, characterContainer d !! k = characterContainer d' !! k) ->
  (forall k, upBtn d !! k = upBtn d' !! k) ->
  (forall k, downBtn d !! k = downBtn d' !! k) ->
  lockBtn d = lockBtn d' ->
  d = d'.
Proof.
  destruct d, d'. simpl. intros Hs Hc Hu Hd ->.
  apply map_eq in Hs, Hc, Hu, Hd. subst. reflexivity.
Qed.

(** X3. Drawing twice is drawing once, and a document that shows the
    state is left as it is: [render] writes nothing new when the screen
    is current. *)
Theorem render_idempotent (s : ScoreboardState) (doc : Document) :
  render s (render s doc) = render s doc /\
  (shows s doc -> render s doc = doc).
Proof.
  split.
  - apply Document_eq; intros; try intros k;
      try (destruct (render_lookup s (render s doc) k) as (Hs & Hc & Hu & Hd & Hk);
           destruct (render_lookup s doc k) as (Hs' & Hc' & Hu' & Hd' & Hk')).
    + rewrite Hs, Hs'. destruct (scoreDisplay doc !! k); [|reflexivity].
      destruct (levels s !! k); reflexivity.
    + rewrite Hc, Hc'. destruct (characterContainer doc !! k); [|reflexivity].
      destruct (levels s !! k); reflexivity.
    + rewrite Hu, Hu'. destruct (upBtn doc !! k); [|reflexivity].
      destruct (levels s !! k); reflexivity.
    + rewrite Hd, Hd'. destruct (downBtn doc !! k); [|reflexivity].
      destruct (levels s !! k); reflexivity.
    + destruct (render_lookup s (render s doc) 0%nat) as (_ & _ & _ & _ & Hk).
      destruct (render_lookup s doc 0%nat) as (_ & _ & _ & _ & Hk').
      rewrite Hk, Hk'. destruct (lockBtn doc); reflexivity.
  - intros [Hlanes Hlock]. apply Document_eq; try intros k;
      try (destruct (render_lookup s doc k) as (Hs & Hc & Hu & Hd & Hk)).
    + rewrite Hs. destruct (scoreDisplay doc !! k) as [v|] eqn:E; [|reflexivity].
      destruct (levels s !! k) as [x|] eqn:El; [|reflexivity].
      f_equal. symmetry. apply (Hlanes k x El). exact E.
    + rewrite Hc. destruct (characterContainer doc !! k) as [v|] eqn:E; [|reflexivity].
      destruct (levels s !! k) as [x|] eqn:El; [|reflexivity].
      f_equal. symmetry. apply (Hlanes k x El). exact E.
    + rewrite Hu. destruct (upBtn doc !! k) as [v|] eqn:E; [|reflexivity].
      destruct (levels s !! k) as [x|] eqn:El; [|reflexivity].
      f_equal. symmetry. apply (Hlanes k x El). exact E.
    + rewrite Hd. destruct (downBtn doc !! k) as [v|] eqn:E; [|reflexivity].
      destruct (levels s !! k) as [x|] eqn:El; [|reflexivity].
      f_equal. symmetry. apply (Hlanes k x El). exact E.
    + destruct (render_lookup s doc 0%nat) as (_ & _ & _ & _ & Hk).
      rewrite Hk. destruct (lockBtn doc) as [l|] eqn:E; [|reflexivity].
      f_equal. symmetry. apply Hlock. reflexivity.
Qed.

(** X4. For a lane below [CONFIG.LANES] that has a level, the [disabled]
    flag [render] gives the up arrow tells what [increment] of that lane
    returns: [false] when the arrow is disabled, [true] when it is not;
    the same for the down arrow and [decrement]. *)
Theorem arrows_tell_refusal (w : World) (doc : Document) (lane : nat) (level : Z) :
  Z.of_nat lane < CONFIG.LANES ->
  levels (state w) !! lane = Some level ->
  (forall d, upBtn (render (state w) doc) !! lane = Some d ->
             fst (increment (Z.of_nat lane) w) = Normal (negb d)) /\
  (forall d, downBtn (render (state w) doc) !! lane = Some d ->
             fst (decrement (Z.of_nat lane) w) = Normal (negb d)).
Proof.
  intros Hlane Hl.
  destruct (render_lookup (state w) doc lane) as (_ & _ & Hu & Hd & _).
  rewrite Hl in Hu, Hd.
  assert (Hguard : isLocked (state w) || (Z.of_nat lane <? 0)
                   || (Z.of_nat lane >=? CONFIG.LANES) = isLocked (state w)).
  { replace (Z.of_nat lane <? 0) with false by (symmetry; apply Z.ltb_ge; lia).
    replace (Z.of_nat lane >=? CONFIG.LANES) with false
      by (symmetry; rewrite Z.geb_leb; apply Z.leb_gt; lia).
    rewrite !orb_false_r. reflexivity. }
  split; intros d Hd0.
  - rewrite Hu in Hd0. destruct (upBtn doc !! lane); [|discriminate].
    injection Hd0 as <-. rewrite increment_run, Hguard, Nat2Z.id, Hl. simpl.
    destruct (isLocked (state w)); [reflexivity|]. simpl.
    rewrite Z.geb_leb, Z.leb_antisym, negb_involutive.
    destruct (level <? maxLevels (state w)); reflexivity.
  - rewrite Hd in Hd0. destruct (downBtn doc !! lane); [|discriminate].
    injection Hd0 as <-. rewrite decrement_run, Hguard, Nat2Z.id, Hl. simpl.
    destruct (isLocked (state w)); [reflexivity|]. simpl.
    rewrite Z.gtb_ltb, Z.ltb_antisym.
    destruct (level <=? 0); reflexivity.
Qed.

(** *** The handlers *)

Lemma shows_same (s s' : ScoreboardState) (doc : Document) :
  levels s' = levels s -> isLocked s' = isLocked s -> maxLevels s' = maxLevels s ->
  shows s doc -> shows s' doc.
Proof. unfold shows. intros -> -> ->. tauto. Qed.

Lemma current_handleIncrement (lane : Z) (p : Page) :
  current p -> current (Page.handleIncrement lane p).
Proof.
  unfold current, Page.handleIncrement. intros Hp.
  rewrite increment_run.
  destruct (isLocked (state (world p)) || (lane <? 0) || (lane >=? CONFIG.LANES));
    [exact Hp|].
  destruct (lt_number _ _); [apply shows_render|exact Hp].
Qed.

Lemma current_handleDecrement (lane : Z) (p : Page) :
  current p -> current (Page.handleDecrement lane p).
Proof.
  unfold current, Page.handleDecrement. intros Hp.
  rewrite decrement_run.
  destruct (isLocked (state (world p)) || (lane <? 0) || (lane >=? CONFIG.LANES));
    [exact Hp|].
  destruct (gt_number _ _); [apply shows_render|exact Hp].
Qed.

(** X5. If the document shows the state, it still does after a click on
    an arrow, after a key press, after the lock button, after a confirmed
    reset and after the visibility check: every handler that changes the
    state redraws. *)
Theorem handlers_keep_screen_current (p : Page) (lane : Z) (isUp : bool)
        (tagName key : string) (focusedLane : option Z) :
  current p ->
  current (Page.arrowClick isUp lane p) /\
  current (Page.onKeydown tagName focusedLane key p) /\
  current (Page.handleToggleLock p) /\
  current (Page.handleReset p) /\
  current (Page.visibilityCheck p).
Proof.
  intros Hp. split_and!.
  - unfold Page.arrowClick. destruct isUp.
    + apply current_handleIncrement, Hp.
    + apply current_handleDecrement, Hp.
  - unfold Page.onKeydown.
    destruct (String.eqb tagName "INPUT" || String.eqb tagName "TEXTAREA"); [exact Hp|].
    destruct focusedLane as [l|]; [|exact Hp].
    destruct (String.eqb key "ArrowUp"); [apply current_handleIncrement, Hp|].
    destruct (String.eqb key "ArrowDown"); [apply current_handleDecrement, Hp|exact Hp].
  - apply shows_render.
  - apply shows_render.
  - unfold current, Page.visibilityCheck. rewrite todayKey_run.
    destruct (bool_decide _); [apply shows_render|exact Hp].
Qed.

(** A key press changes nothing when it comes from an [INPUT] or a
    [TEXTAREA], when no lane holds the focus, or when the key is neither
    [ArrowUp] nor [ArrowDown]; otherwise it does what a click on the up
    or down arrow of the focused lane does. *)
Lemma keydown_acts_as_click (p : Page) (tagName key : string)
        (focusedLane : option Z) (lane : Z) :
  (tagName = "INPUT" \/ tagName = "TEXTAREA" \/ focusedLane = None \/
   (key <> "ArrowUp" /\ key <> "ArrowDown") ->
   Page.onKeydown tagName focusedLane key p = p) /\
  (tagName <> "INPUT" -> tagName <> "TEXTAREA" ->
   Page.onKeydown tagName (Some lane) "ArrowUp" p = Page.arrowClick true lane p /\
   Page.onKeydown tagName (Some lane) "ArrowDown" p = Page.arrowClick false lane p).
Proof.
  unfold Page.onKeydown, Page.arrowClick. split.
  - intros [->|[->|[->|[Hu Hd]]]]; try reflexivity.
    + destruct (String.eqb tagName "INPUT" || String.eqb tagName "TEXTAREA"); reflexivity.
    + apply String.eqb_neq in Hu, Hd. rewrite Hu, Hd.
      destruct (String.eqb tagName "INPUT" || String.eqb tagName "TEXTAREA");
        [reflexivity|]. destruct focusedLane; reflexivity.
  - intros Hi Ht. apply String.eqb_neq in Hi, Ht. rewrite Hi, Ht. simpl.
    split; reflexivity.
Qed.

Lemma init_run (w : World) :
  init w =
  (Normal tt,
   snd (console_write Log (snd (scheduleMidnightReset (snd (loadOrInit w)))))).
Proof.
  unfold init. destruct (loadOrInit_returns w) as (b & w1 & Hrun).
  rewrite (bind_normal _ _ _ _ _ Hrun), Hrun.
  rewrite (bind_normal _ _ _ _ _ (eq_refl : renderer_render w1 = (Normal tt, w1))).
  rewrite (bind_normal _ _ _ _ _ (scheduleMidnightReset_run w1)).
  rewrite scheduleMidnightReset_run. reflexivity.
Qed.

(** With nothing of today's in the store, [loadOrInit] falls back to a
    fresh day: the constructor's state with today's key. *)
Lemma loadOrInit_fresh (w : World) (today : string) :
  todayKey w = (Normal today, w) ->
  (forall text data,
     mode (localStorage w) <> Denied -> item (localStorage w) = Some text ->
     text <> "" -> JSON_parse text = Some data ->
     data_dateKey data <> Some today \/ data_version data <> Some 1) ->
  exists w1,
    loadOrInit w = (Normal false, w1) /\
    state w1 = with_lastUpdated (clock w)
                 (with_dateKey today (with_levels zeroLevels (state w))) /\
    clock w1 = clock w /\ timers w1 = timers w /\ nextTimer w1 = nextTimer w /\
    (mode (localStorage w) = Available -> persisted w1).
Proof.
  intros Htoday Hnone. rewrite todayKey_run in Htoday. injection Htoday as Hkey.
  destruct (loadOrInit_returns w) as ([|] & w1 & Hrun).
  - apply loadOrInit_true in Hrun as (text & data & Hm & Hi & Ht & Hp & Hk & Hv & _).
    rewrite Hkey in Hk. destruct (Hnone text data Hm Hi Ht Hp); contradiction.
  - exists w1. split; [exact Hrun|].
    apply loadOrInit_false in Hrun as (w0 & Hw0 & Hreset).
    rewrite resetForNewDay_run in Hreset. injection Hreset as <-.
    rewrite saved_state, saved_clock.
    match goal with
    | |- context [timers (saved ?x)] => destruct (saved_timers x) as [-> ->]
    end.
    destruct Hw0 as [->|[e ->]]; simpl; rewrite Hkey;
      (split_and!; try reflexivity; intros Hm; apply saved_persisted; exact Hm).
Qed.

(** X6. Start-up of a fresh page over a store that offers nothing to
    adopt: it refuses to be read, holds nothing or the empty text, or
    holds a record of another day or another version. [loadOrInit] falls
    back, the board is the constructor's with today's key, handle 1 is
    the one pending timer, it is the midnight timer and its delay is what
    [msUntilNextMidnight()] returned, the fresh record is stored when the
    store takes it, and the document shows the state. *)
Theorem init_postcondition (store : LocalStorage) (now : Z) (isHidden : bool)
        (doc : Document) (today : string) :
  todayKey (boot store now isHidden) = (Normal today, boot store now isHidden) ->
  (mode store = Denied \/ item store = None \/ item store = Some "" \/
   exists text data,
     item store = Some text /\ JSON_parse text = Some data /\
     (data_dateKey data <> Some today \/ data_version data <> Some 1)) ->
  exists (w1 : World) (ms : Z),
    loadOrInit (boot store now isHidden) = (Normal false, w1) /\
    msUntilNextMidnight w1 = (Normal ms, w1) /\
    ms = Date_parse (Intl_format CONFIG.TIMEZONE now +:+ "T00:00:00")
         + 24 * 60 * 60 * 1000 - now /\
    state (world (Page.init {| world := boot store now isHidden; document := doc |}))
      = {| levels := zeroLevels; maxLevels := CONFIG.MAX_LEVELS;
           timezone := CONFIG.TIMEZONE; dateKey := today; lastUpdated := now;
           isLocked := false; midnightTimer := Some 1%positive;
           visibilityTimer := None |} /\
    timers (world (Page.init {| world := boot store now isHidden; document := doc |}))
      = {[ 1%positive := {| callback := MidnightReset; delay := ms |} ]} /\
    (mode store = Available ->
     persisted (world (Page.init {| world := boot store now isHidden; document := doc |}))) /\
    init (boot store now isHidden)
      = (Normal tt,
         world (Page.init {| world := boot store now isHidden; document := doc |})) /\
    current (Page.init {| world := boot store now isHidden; document := doc |}).
Proof.
  intros Htoday Hstore. set (w0 := boot store now isHidden).
  assert (Hnone : forall text data,
            mode (localStorage w0) <> Denied -> item (localStorage w0) = Some text ->
            text <> "" -> JSON_parse text = Some data ->
            data_dateKey data <> Some today \/ data_version data <> Some 1).
  { simpl. intros text data Hm Hi Ht Hp.
    destruct Hstore as [Hd|[Hn|[He|(text' & data' & Hi' & Hp' & Hno)]]];
      [contradiction|congruence|congruence|].
    assert (text' = text) by congruence. subst text'.
    assert (data' = data) by congruence. subst data'. exact Hno. }
  destruct (loadOrInit_fresh w0 today Htoday Hnone)
    as (w1 & Hrun & Hst & Hck & Htm & Hnext & Hpers).
  assert (Hw1 : snd (loadOrInit w0) = w1) by (rewrite Hrun; reflexivity).
  exists w1. eexists. split; [exact Hrun|].
  split; [apply msUntilNextMidnight_run|].
  unfold Page.init. cbn [world document]. rewrite Hw1.
  rewrite init_run, Hw1, scheduleMidnightReset_run.
  cbn [snd console_write with_console with_state with_timers state timers localStorage clock].
  rewrite Hst, Hck, Htm, Hnext.
  split_and!.
  - reflexivity.
  - reflexivity.
  - reflexivity.
  - intros Hm. specialize (Hpers Hm). unfold persisted in *.
    rewrite Hst, Hck in Hpers. simpl. rewrite Hck. exact Hpers.
  - reflexivity.
  - unfold current. cbn [world document state].
    apply (shows_same (with_lastUpdated (clock w0)
                         (with_dateKey today (with_levels zeroLevels (state w0)))));
      [reflexivity ..|].
    apply shows_render.
Qed.

(** *** What the events leave alone *)

Lemma saved_with_state_timers (s : ScoreboardState) (w : World) :
  timers (saved (with_state s w)) = timers w /\
  nextTimer (saved (with_state s w)) = nextTimer w /\
  state (saved (with_state s w)) = s.
Proof.
  destruct (saved_timers (with_state s w)) as [-> ->]. rewrite saved_state.
  split_and!; reflexivity.
Qed.

(** The methods of the score and the outside world do not touch the
    timers, their handles or the counter of handles. *)
Lemma methods_keep_timers (e : Event) (w : World) :
  match e with
  | Call_scheduleMidnightReset | Call_cleanup | TimerFires _ | VisibilityChange => True
  | _ =>
      timers (react e w) = timers w /\
      nextTimer (react e w) = nextTimer w /\
      midnightTimer (state (react e w)) = midnightTimer (state w) /\
      visibilityTimer (state (react e w)) = visibilityTimer (state w)
  end.
Proof.
  destruct e; simpl; try exact I.
  - destruct (loadOrInit_returns w) as ([|] & w' & Hrun); rewrite Hrun; simpl.
    + apply loadOrInit_true in Hrun as (text & data & _ & _ & _ & _ & _ & _ & ->).
      split_and!; reflexivity.
    + apply loadOrInit_false in Hrun as (w0 & Hw0 & Hreset).
      rewrite resetForNewDay_run in Hreset. injection Hreset as <-.
      match goal with
      | |- context [saved (with_state ?s ?x)] =>
          destruct (saved_with_state_timers s x) as (-> & -> & ->)
      end.
      destruct Hw0 as [->|[e ->]]; split_and!; reflexivity.
  - rewrite save_run. simpl. destruct (saved_timers w) as [-> ->].
    rewrite saved_state. split_and!; reflexivity.
  - rewrite resetForNewDay_run. simpl.
    match goal with
    | |- context [saved (with_state ?s ?x)] =>
        destruct (saved_with_state_timers s x) as (-> & -> & ->)
    end. split_and!; reflexivity.
  - rewrite increment_run.
    destruct (isLocked (state w) || (lane <? 0) || (lane >=? CONFIG.LANES));
      [split_and!; reflexivity|].
    destruct (lt_number _ _); [|split_and!; reflexivity]. simpl.
    match goal with
    | |- context [saved (with_state ?s ?x)] =>
        destruct (saved_with_state_timers s x) as (-> & -> & ->)
    end. split_and!; reflexivity.
  - rewrite decrement_run.
    destruct (isLocked (state w) || (lane <? 0) || (lane >=? CONFIG.LANES));
      [split_and!; reflexivity|].
    destruct (gt_number _ _); [|split_and!; reflexivity]. simpl.
    match goal with
    | |- context [saved (with_state ?s ?x)] =>
        destruct (saved_with_state_timers s x) as (-> & -> & ->)
    end. split_and!; reflexivity.
  - rewrite resetToday_run. simpl.
    match goal with
    | |- context [saved (with_state ?s ?x)] =>
        destruct (saved_with_state_timers s x) as (-> & -> & ->)
    end. split_and!; reflexivity.
  - rewrite toggleLock_run. simpl.
    match goal with
    | |- context [saved (with_state ?s ?x)] =>
        destruct (saved_with_state_timers s x) as (-> & -> & ->)
    end. split_and!; reflexivity.
  - split_and!; reflexivity.
Qed.

Lemma tracked_shrink (w w' : World) :
  midnightTracked w ->
  midnightTimer (state w') = midnightTimer (state w) ->
  (forall h t, timers w' !! h = Some t -> timers w !! h = Some t) ->
  (nextTimer w <= nextTimer w')%positive ->
  midnightTracked w'.
Proof.
  intros [Htrack Hfresh] Hm Hsub Hnext. split.
  - intros h t Hl Hc. rewrite Hm. apply (Htrack h t); [apply Hsub, Hl|exact Hc].
  - intros h t Hl. specialize (Hfresh h t (Hsub h t Hl)). lia.
Qed.

Lemma tracked_resetForNewDay (w : World) :
  midnightTracked w -> midnightTracked (snd (resetForNewDay w)).
Proof.
  intros Ht. pose proof (methods_keep_timers Call_resetForNewDay w) as (Ha & Hb & Hc & _).
  simpl in Ha, Hb, Hc.
  apply (tracked_shrink w); [exact Ht|exact Hc| |rewrite Hb; lia].
  intros h t. rewrite Ha. tauto.
Qed.

Lemma tracked_react (e : Event) (w : World) :
  midnightTracked w -> midnightTracked (react e w).
Proof.
  intros Ht. pose proof (methods_keep_timers e w) as Hkeep.
  destruct e;
    try (destruct Hkeep as (Ha & Hb & Hc & _);
         apply (tracked_shrink w); [exact Ht|exact Hc| |rewrite Hb; lia];
         intros h0 t0; rewrite Ha; tauto).
  - apply scheduleMidnightReset_single, Ht.
  - simpl. rewrite cleanup_run. simpl.
    apply (tracked_shrink w); [exact Ht|reflexivity| |simpl; lia].
    simpl. intros h t Hl.
    destruct (visibilityTimer (state w)) as [v|], (midnightTimer (state w)) as [m|];
      repeat (apply lookup_delete_Some in Hl as [_ Hl]); exact Hl.
  - simpl. rewrite fire_run. destruct (timers w !! h) as [t|] eqn:Eh; [|exact Ht].
    assert (Hcleared : midnightTracked
                         (with_timers (delete h (timers w)) (nextTimer w) w)).
    { apply (tracked_shrink w); [exact Ht|reflexivity| |simpl; lia].
      simpl. intros h0 t0 Hl. apply lookup_delete_Some in Hl as [_ Hl]. exact Hl. }
    destruct (callback t); simpl.
    + rewrite midnightCallback_run. simpl. apply tracked_resetForNewDay, Hcleared.
    + rewrite visibilityCallback_run. destruct (bool_decide _); simpl.
      * apply tracked_resetForNewDay, Hcleared.
      * exact Hcleared.
  - simpl. rewrite onVisibilityChange_run. destruct (hidden w); [exact Ht|]. simpl.
    destruct Ht as [Htrack Hfresh]. split; simpl.
    + intros h t Hl Hc. destruct (decide (nextTimer w = h)) as [<-|Hne].
      * rewrite lookup_insert_eq in Hl. injection Hl as <-. discriminate.
      * rewrite lookup_insert_ne in Hl by exact Hne. apply (Htrack h t Hl Hc).
    + intros h t Hl. destruct (decide (nextTimer w = h)) as [<-|Hne]; [lia|].
      rewrite lookup_insert_ne in Hl by exact Hne. specialize (Hfresh h t Hl). lia.
Qed.

(** X7. In every world the page can reach, the pending midnight timers
    are tracked by the handle the state holds; so at most one midnight
    timer is pending at any time, whatever else (visibility timers
    included) is pending. *)
Theorem at_most_one_midnight_timer (w : World) :
  reachable w ->
  midnightTracked w /\
  forall h h' t t',
    timers w !! h = Some t -> callback t = MidnightReset ->
    timers w !! h' = Some t' -> callback t' = MidnightReset ->
    h = h'.
Proof.
  intros Hreach.
  assert (Ht : midnightTracked w).
  { induction Hreach as [store now isHidden|e w _ IH].
    - split; intros h t Hl; simpl in Hl; rewrite lookup_empty in Hl; discriminate.
    - apply tracked_react, IH. }
  split; [exact Ht|]. destruct Ht as [Htrack _].
  intros h h' t t' Hl Hc Hl' Hc'.
  pose proof (Htrack h t Hl Hc) as H1. pose proof (Htrack h' t' Hl' Hc') as H2.
  congruence.
Qed.

(** X8. Only [toggleLock] changes the lock: loading, every reset, the
    midnight rollover, the visibility check and the score buttons leave
    [isLocked] as it was. *)
Theorem only_toggleLock_changes_lock (e : Event) (w : World) :
  isLocked (state (react e w)) =
  match e with
  | Call_toggleLock => negb (isLocked (state w))
  | _ => isLocked (state w)
  end.
Proof.
  destruct e; simpl.
  - destruct (loadOrInit_returns w) as ([|] & w' & Hrun); rewrite Hrun; simpl.
    + apply loadOrInit_true in Hrun as (text & data & _ & _ & _ & _ & _ & _ & ->).
      reflexivity.
    + apply loadOrInit_false in Hrun as (w0 & Hw0 & Hreset).
      rewrite resetForNewDay_run in Hreset. injection Hreset as <-.
      rewrite saved_state. destruct Hw0 as [->|[e ->]]; reflexivity.
  - rewrite save_run. simpl. rewrite saved_state. reflexivity.
  - rewrite resetForNewDay_run. simpl. rewrite saved_state. reflexivity.
  - rewrite increment_run.
    destruct (isLocked (state w) || (lane <? 0) || (lane >=? CONFIG.LANES));
      [reflexivity|].
    destruct (lt_number _ _); [|reflexivity]. simpl. rewrite saved_state. reflexivity.
  - rewrite decrement_run.
    destruct (isLocked (state w) || (lane <? 0) || (lane >=? CONFIG.LANES));
      [reflexivity|].
    destruct (gt_number _ _); [|reflexivity]. simpl. rewrite saved_state. reflexivity.
  - rewrite resetToday_run. simpl. rewrite saved_state. reflexivity.
  - rewrite toggleLock_run. simpl. rewrite saved_state. reflexivity.
  - rewrite scheduleMidnightReset_run. reflexivity.
  - rewrite cleanup_run. reflexivity.
  - rewrite fire_run. destruct (timers w !! h) as [t|]; [|reflexivity].
    destruct (callback t); simpl.
    + rewrite midnightCallback_run. simpl. rewrite resetForNewDay_run. simpl.
      rewrite saved_state. reflexivity.
    + rewrite visibilityCallback_run. destruct (bool_decide _); [|reflexivity].
      simpl. rewrite resetForNewDay_run. simpl. rewrite saved_state. reflexivity.
  - rewrite onVisibilityChange_run. destruct (hidden w); reflexivity.
  - reflexivity.
Qed.

(** X9. What each event leaves alone. The bound and the zone change
    only when [loadOrInit] adopts a record; the day key changes only by
    [loadOrInit], [resetForNewDay] and a timer that fires; saving, the
    lock, arming and cancelling timers, a visibility change and the
    outside world change neither levels nor day key nor time stamp. *)
Theorem events_frame (e : Event) (w : World) :
  match e with
  | Call_loadOrInit =>
      fst (loadOrInit w) = Normal false ->
      maxLevels (state (react e w)) = maxLevels (state w) /\
      timezone (state (react e w)) = timezone (state w)
  | Call_resetForNewDay | TimerFires _ =>
      maxLevels (state (react e w)) = maxLevels (state w) /\
      timezone (state (react e w)) = timezone (state w)
  | Call_increment _ | Call_decrement _ | Call_resetToday =>
      maxLevels (state (react e w)) = maxLevels (state w) /\
      timezone (state (react e w)) = timezone (state w) /\
      dateKey (state (react e w)) = dateKey (state w)
  | _ =>
      maxLevels (state (react e w)) = maxLevels (state w) /\
      timezone (state (react e w)) = timezone (state w) /\
      dateKey (state (react e w)) = dateKey (state w) /\
      levels (state (react e w)) = levels (state w) /\
      lastUpdated (state (react e w)) = lastUpdated (state w)
  end.
Proof.
  destruct e; simpl.
  - destruct (loadOrInit_returns w) as ([|] & w' & Hrun); rewrite Hrun; simpl;
      [discriminate|]. intros _.
    apply loadOrInit_false in Hrun as (w0 & Hw0 & Hreset).
    rewrite resetForNewDay_run in Hreset. injection Hreset as <-.
    rewrite saved_state. destruct Hw0 as [->|[e ->]]; split; reflexivity.
  - rewrite save_run. simpl. rewrite saved_state. split_and!; reflexivity.
  - rewrite resetForNewDay_run. simpl. rewrite saved_state. split; reflexivity.
  - rewrite increment_run.
    destruct (isLocked (state w) || (lane <? 0) || (lane >=? CONFIG.LANES));
      [split_and!; reflexivity|].
    destruct (lt_number _ _); [|split_and!; reflexivity]. simpl.
    rewrite saved_state. split_and!; reflexivity.
  - rewrite decrement_run.
    destruct (isLocked (state w) || (lane <? 0) || (lane >=? CONFIG.LANES));
      [split_and!; reflexivity|].
    destruct (gt_number _ _); [|split_and!; reflexivity]. simpl.
    rewrite saved_state. split_and!; reflexivity.
  - rewrite resetToday_run. simpl. rewrite saved_state. split_and!; reflexivity.
  - rewrite toggleLock_run. simpl. rewrite saved_state. split_and!; reflexivity.
  - rewrite scheduleMidnightReset_run. split_and!; reflexivity.
  - rewrite cleanup_run. split_and!; reflexivity.
  - rewrite fire_run. destruct (timers w !! h) as [t|]; [|split; reflexivity].
    destruct (callback t); simpl.
    + rewrite midnightCallback_run. simpl. rewrite resetForNewDay_run. simpl.
      rewrite saved_state. split; reflexivity.
    + rewrite visibilityCallback_run. destruct (bool_decide _); [|split; reflexivity].
      simpl. rewrite resetForNewDay_run. simpl. rewrite saved_state.
      split; reflexivity.
  - rewrite onVisibilityChange_run. destruct (hidden w); split_and!; reflexivity.
  - split_and!; reflexivity.
Qed.

(** X10. The data-model invariant survives every event of the page,
    timers and visibility changes included, as long as a record that
    [loadOrInit] finds in the store satisfies it. *)
Theorem invariant_kept_by_events (e : Event) (w : World) :
  Inv (state w) ->
  (e = Call_loadOrInit ->
   forall text data,
     item (localStorage w) = Some text -> JSON_parse text = Some data ->
     data_wf data) ->
  Inv (state (react e w)).
Proof.
  intros HI Hstore. destruct e; simpl.
  - destruct (loadOrInit_returns w) as ([|] & w' & Hrun); rewrite Hrun; simpl.
    + apply loadOrInit_true in Hrun as (text & data & _ & Hi & _ & Hp & _ & _ & ->).
      apply Inv_adopt. apply (Hstore eq_refl text data Hi Hp).
    + apply loadOrInit_false in Hrun as (w0 & Hw0 & Hreset).
      replace w' with (snd (resetForNewDay w0)) by (rewrite Hreset; reflexivity).
      apply Inv_resetForNewDay. destruct Hw0 as [->|[e ->]]; exact HI.
  - rewrite save_run. simpl. rewrite saved_state. exact HI.
  - apply Inv_resetForNewDay, HI.
  - apply Inv_increment, HI.
  - apply Inv_decrement, HI.
  - apply Inv_resetToday, HI.
  - apply Inv_toggleLock, HI.
  - rewrite scheduleMidnightReset_run. exact HI.
  - rewrite cleanup_run. exact HI.
  - rewrite fire_run. destruct (timers w !! h) as [t|]; [|exact HI].
    destruct (callback t); simpl.
    + rewrite midnightCallback_run. simpl. apply Inv_resetForNewDay. exact HI.
    + rewrite visibilityCallback_run. destruct (bool_decide _); [|exact HI].
      simpl. apply Inv_resetForNewDay. exact HI.
  - rewrite onVisibilityChange_run. destruct (hidden w); exact HI.
  - exact HI.
Qed.

(** *** Writes that fail *)

(** X11. [save] never throws and never changes the state. When the store
    refuses the write (full, or access denied) the stored text stays as it
    was and one error is logged; a score change made just before stands:
    [increment] on an open lane whose level is a safe integer still
    returns [true] with the level raised by one. *)
Theorem failed_write_keeps_mutation (w : World) (lane l : Z) :
  mode (localStorage w) <> Available ->
  (exists w1 e,
     save w = (Normal tt, w1) /\ state w1 = state w /\
     localStorage w1 = localStorage w /\ console w1 = (console w ++ [Err e])%list) /\
  (isLocked (state w) = false -> 0 <= lane < CONFIG.LANES ->
   levels (state w) !! Z.to_nat lane = Some l -> l < maxLevels (state w) ->
   safeInteger l ->
   exists w2 e,
     increment lane w = (Normal true, w2) /\
     levels (state w2) = <[Z.to_nat lane := plusPlus l]> (levels (state w)) /\
     plusPlus l = l + 1 /\
     localStorage w2 = localStorage w /\ console w2 = (console w ++ [Err e])%list).
Proof.
  intros Hm. split.
  - rewrite save_run. unfold saved.
    destruct (mode (localStorage w)) eqn:Em; [congruence| |];
      eexists _, _; split_and!; reflexivity.
  - intros Hlock [H0 H1] Hl Hlt Hsafe.
    destruct (safe_plusPlus l Hsafe) as [-> _]. clear Hsafe.
    rewrite increment_run, Hlock, Hl. simpl.
    replace (lane <? 0) with false by (symmetry; apply Z.ltb_ge; lia).
    replace (lane >=? CONFIG.LANES) with false
      by (symmetry; rewrite Z.geb_leb; apply Z.leb_gt; lia).
    simpl. replace (l <? maxLevels (state w)) with true
      by (symmetry; apply Z.ltb_lt; lia).
    rewrite (bump_insert _ _ _ _ Hl). unfold saved. simpl.
    destruct (mode (localStorage w)) eqn:Em; [congruence| |];
      eexists _, _; split_and!; reflexivity.
Qed.

(** *** How the score operations compose *)

Lemma guard_open (s : ScoreboardState) (lane : Z) :
  isLocked s || (lane <? 0) || (lane >=? CONFIG.LANES) = false <->
  isLocked s = false /\ 0 <= lane < CONFIG.LANES.
Proof.
  rewrite !orb_false_iff, Z.ltb_ge, Z.geb_leb, Z.leb_gt. tauto.
Qed.

(** What a call of [increment] that returned [true] did. *)
Lemma increment_true (w w1 : World) (lane : Z) :
  increment lane w = (Normal true, w1) ->
  exists l,
    isLocked (state w) = false /\ 0 <= lane < CONFIG.LANES /\
    levels (state w) !! Z.to_nat lane = Some l /\ l < maxLevels (state w) /\
    w1 = saved (with_state
                  (with_lastUpdated (clock w)
                     (with_levels (<[Z.to_nat lane := l + 1]> (levels (state w)))
                        (state w))) w).
Proof.
  rewrite increment_run.
  destruct (isLocked (state w) || (lane <? 0) || (lane >=? CONFIG.LANES)) eqn:Eg;
    [discriminate|].
  apply guard_open in Eg as [Hlock Hlane].
  destruct (levels (state w) !! Z.to_nat lane) as [l|] eqn:El; [|discriminate].
  simpl. destruct (l <? maxLevels (state w)) eqn:Elt; [|discriminate].
  apply Z.ltb_lt in Elt. rewrite (bump_insert _ _ _ _ El).
  intros [= <-]. exists l. split_and!; try assumption; try lia; reflexivity.
Qed.

Lemma decrement_true (w w1 : World) (lane : Z) :
  decrement lane w = (Normal true, w1) ->
  exists l,
    isLocked (state w) = false /\ 0 <= lane < CONFIG.LANES /\
    levels (state w) !! Z.to_nat lane = Some l /\ 0 < l /\
    w1 = saved (with_state
                  (with_lastUpdated (clock w)
                     (with_levels (<[Z.to_nat lane := l - 1]> (levels (state w)))
                        (state w))) w).
Proof.
  rewrite decrement_run.
  destruct (isLocked (state w) || (lane <? 0) || (lane >=? CONFIG.LANES)) eqn:Eg;
    [discriminate|].
  apply guard_open in Eg as [Hlock Hlane].
  destruct (levels (state w) !! Z.to_nat lane) as [l|] eqn:El; [|discriminate].
  simpl. destruct (l >? 0) eqn:Egt; [|discriminate].
  apply Z.gtb_lt in Egt. rewrite (bump_insert _ _ _ _ El).
  intros [= <-]. exists l. split_and!; try assumption; try lia; reflexivity.
Qed.

(** X12. On a board that satisfies the invariant, with a bound that is a
    safe integer, a [decrement] right after an [increment] of the same
    lane that returned [true] also returns [true] and brings the levels
    back: the [++] and the [--] of the source are exact on these levels.
    And so does an [increment] right after a [decrement] that returned
    [true]. *)
Theorem increment_decrement_inverse (w w1 : World) (lane : Z) :
  Inv (state w) ->
  maxLevels (state w) <= MAX_SAFE_INTEGER ->
  (increment lane w = (Normal true, w1) ->
   exists l w2,
     levels (state w) !! Z.to_nat lane = Some l /\
     levels (state w1) !! Z.to_nat lane = Some (plusPlus l) /\
     decrement lane w1 = (Normal true, w2) /\
     minusMinus (plusPlus l) = l /\
     levels (state w2) = levels (state w)) /\
  (decrement lane w = (Normal true, w1) ->
   exists l w2,
     levels (state w) !! Z.to_nat lane = Some l /\
     levels (state w1) !! Z.to_nat lane = Some (minusMinus l) /\
     increment lane w1 = (Normal true, w2) /\
     plusPlus (minusMinus l) = l /\
     levels (state w2) = levels (state w)).
Proof.
  intros HI Hmax.
  pose proof (Inv_safe _ HI Hmax) as Hsafe. rewrite Forall_lookup in Hsafe.
  destruct HI as [Hlen Hall].
  unfold MAX_SAFE_INTEGER in Hmax. change (2 ^ 53) with 9007199254740992 in Hmax.
  split; intros Hrun.
  - apply increment_true in Hrun as (l & Hlock & Hlane & Hl & Hlt & ->).
    assert (Hl0 : 0 <= l).
    { rewrite Forall_lookup in Hall. specialize (Hall _ _ Hl). simpl in Hall. lia. }
    assert (Hp : plusPlus l = l + 1) by (apply safe_plusPlus, (Hsafe _ _ Hl)).
    assert (Hq : minusMinus (l + 1) = l).
    { replace l with (l + 1 - 1) at 2 by lia.
      apply safe_plusPlus, safeInteger_range. lia. }
    clear Hsafe. exists l. rewrite Hp, Hq. clear Hp Hq.
    pose proof (lookup_lt_Some _ _ _ Hl) as Hidx.
    match goal with |- exists w2, _ /\ _ /\ decrement lane ?x = _ /\ _ =>
      exists (snd (decrement lane x)); rewrite (decrement_run x), !(saved_state _)
    end.
    cbn [state with_state with_lastUpdated with_levels levels isLocked maxLevels].
    rewrite Hlock.
    replace (lane <? 0) with false by (symmetry; apply Z.ltb_ge; lia).
    replace (lane >=? CONFIG.LANES) with false
      by (symmetry; rewrite Z.geb_leb; apply Z.leb_gt; lia).
    cbn [orb]. rewrite list_lookup_insert_eq by exact Hidx. cbn [gt_number].
    replace (l + 1 >? 0) with true by (symmetry; apply Z.gtb_lt; lia).
    split; [exact Hl|]. split; [reflexivity|]. split; [reflexivity|].
    split; [reflexivity|]. cbn [snd]. rewrite saved_state.
    cbn [state with_state with_lastUpdated with_levels levels].
    unfold bump. rewrite list_lookup_insert_eq by exact Hidx.
    rewrite list_insert_insert_eq. replace (l + 1 + -1) with l by lia.
    apply list_insert_id, Hl.
  - apply decrement_true in Hrun as (l & Hlock & Hlane & Hl & Hgt & ->).
    assert (Hl1 : l <= maxLevels (state w)).
    { rewrite Forall_lookup in Hall. specialize (Hall _ _ Hl). simpl in Hall. lia. }
    assert (Hp : minusMinus l = l - 1) by (apply safe_plusPlus, (Hsafe _ _ Hl)).
    assert (Hq : plusPlus (l - 1) = l).
    { replace l with (l - 1 + 1) at 2 by lia.
      apply safe_plusPlus, safeInteger_range. lia. }
    clear Hsafe. exists l. rewrite Hp, Hq. clear Hp Hq.
    pose proof (lookup_lt_Some _ _ _ Hl) as Hidx.
    match goal with |- exists w2, _ /\ _ /\ increment lane ?x = _ /\ _ =>
      exists (snd (increment lane x)); rewrite (increment_run x), !(saved_state _)
    end.
    cbn [state with_state with_lastUpdated with_levels levels isLocked maxLevels].
    rewrite Hlock.
    replace (lane <? 0) with false by (symmetry; apply Z.ltb_ge; lia).
    replace (lane >=? CONFIG.LANES) with false
      by (symmetry; rewrite Z.geb_leb; apply Z.leb_gt; lia).
    cbn [orb]. rewrite list_lookup_insert_eq by exact Hidx. cbn [lt_number].
    replace (l - 1 <? maxLevels (state w)) with true
      by (symmetry; apply Z.ltb_lt; lia).
    split; [exact Hl|]. split; [reflexivity|]. split; [reflexivity|].
    split; [reflexivity|]. cbn [snd]. rewrite saved_state.
    cbn [state with_state with_lastUpdated with_levels levels].
    unfold bump. rewrite list_lookup_insert_eq by exact Hidx.
    rewrite list_insert_insert_eq. replace (l - 1 + 1) with l by lia.
    apply list_insert_id, Hl.
Qed.

(** X13. [increment(lane)] and [decrement(lane)] touch one lane only:
    the number of lanes stays, every other lane keeps its level, and a
    level that is a safe integer stays as it is or moves by exactly one,
    as [++] and [--] compute it. *)
Theorem score_change_is_local (w : World) (lane : Z) (k : nat) :
  List.length (levels (state (snd (increment lane w)))) = List.length (levels (state w)) /\
  List.length (levels (state (snd (decrement lane w)))) = List.length (levels (state w)) /\
  (k <> Z.to_nat lane ->
   levels (state (snd (increment lane w))) !! k = levels (state w) !! k /\
   levels (state (snd (decrement lane w))) !! k = levels (state w) !! k) /\
  (forall l, levels (state w) !! k = Some l -> safeInteger l ->
     plusPlus l = l + 1 /\ minusMinus l = l - 1 /\
     (levels (state (snd (increment lane w))) !! k = Some l \/
      levels (state (snd (increment lane w))) !! k = Some (plusPlus l)) /\
     (levels (state (snd (decrement lane w))) !! k = Some l \/
      levels (state (snd (decrement lane w))) !! k = Some (minusMinus l))).
Proof.
  assert (Hi : levels (state (snd (increment lane w))) = levels (state w) \/
               levels (state (snd (increment lane w))) = bump 1 lane (levels (state w))).
  { rewrite increment_run.
    destruct (isLocked (state w) || (lane <? 0) || (lane >=? CONFIG.LANES));
      [left; reflexivity|].
    destruct (lt_number _ _); [|left; reflexivity].
    right. simpl. rewrite saved_state. reflexivity. }
  assert (Hd : levels (state (snd (decrement lane w))) = levels (state w) \/
               levels (state (snd (decrement lane w))) = bump (-1) lane (levels (state w))).
  { rewrite decrement_run.
    destruct (isLocked (state w) || (lane <? 0) || (lane >=? CONFIG.LANES));
      [left; reflexivity|].
    destruct (gt_number _ _); [|left; reflexivity].
    right. simpl. rewrite saved_state. reflexivity. }
  assert (Hother : forall d, k <> Z.to_nat lane ->
               bump d lane (levels (state w)) !! k = levels (state w) !! k).
  { intros d Hne. unfold bump. destruct (levels (state w) !! Z.to_nat lane); [|reflexivity].
    apply list_lookup_insert_ne. congruence. }
  assert (Hat : forall d l, levels (state w) !! k = Some l ->
               bump d lane (levels (state w)) !! k = Some l \/
               bump d lane (levels (state w)) !! k = Some (l + d)).
  { intros d l Hl. destruct (decide (k = Z.to_nat lane)) as [->|Hne].
    - right. unfold bump. rewrite Hl.
      apply list_lookup_insert_eq. apply (lookup_lt_Some _ _ _ Hl).
    - left. rewrite Hother by exact Hne. exact Hl. }
  split_and!.
  - destruct Hi as [-> | ->]; [reflexivity|apply bump_length].
  - destruct Hd as [-> | ->]; [reflexivity|apply bump_length].
  - intros Hne. split.
    + destruct Hi as [-> | ->]; [reflexivity|apply Hother, Hne].
    + destruct Hd as [-> | ->]; [reflexivity|apply Hother, Hne].
  - intros l Hl Hsafe. destruct (safe_plusPlus l Hsafe) as [Hp Hm]. clear Hsafe.
    rewrite Hp, Hm. clear Hp Hm. split; [reflexivity|]. split; [reflexivity|]. split.
    + destruct Hi as [-> | ->]; [left; exact Hl|apply Hat, Hl].
    + destruct Hd as [-> | ->]; [left; exact Hl|].
      destruct (Hat (-1) l Hl) as [Ha|Ha]; [left; exact Ha|right].
      rewrite Ha. f_equal.
Qed.

Lemma increment_keeps_lock (w : World) (lane : Z) :
  isLocked (state (snd (increment lane w))) = isLocked (state w).
Proof.
  rewrite increment_run.
  destruct (isLocked (state w) || (lane <? 0) || (lane >=? CONFIG.LANES)); [reflexivity|].
  destruct (lt_number _ _); [|reflexivity]. simpl. rewrite saved_state. reflexivity.
Qed.

Lemma increment_keeps_bound (w : World) (lane : Z) :
  maxLevels (state (snd (increment lane w))) = maxLevels (state w).
Proof.
  rewrite increment_run.
  destruct (isLocked (state w) || (lane <? 0) || (lane >=? CONFIG.LANES)); [reflexivity|].
  destruct (lt_number _ _); [|reflexivity]. simpl. rewrite saved_state. reflexivity.
Qed.

Lemma incrementTimes_step (n : nat) (lane : Z) (w : World) :
  Examples.incrementTimes (S n) lane w =
  (match fst (increment lane w) with
   | Normal b => b :: fst (Examples.incrementTimes n lane (snd (increment lane w)))
   | Abrupt _ => []
   end,
   match fst (increment lane w) with
   | Normal _ => snd (Examples.incrementTimes n lane (snd (increment lane w)))
   | Abrupt _ => snd (increment lane w)
   end).
Proof.
  simpl. destruct (increment lane w) as [[b|e] w']; [|reflexivity]. simpl.
  destruct (Examples.incrementTimes n lane w'); reflexivity.
Qed.

(** X14. Repeated [increment] saturates: on an unlocked board that
    satisfies the invariant, with a bound that is a safe integer, [n]
    calls on an open lane at level [l] leave it at
    [min (l + n) maxLevels]; the first [min n (maxLevels - l)] calls
    return [true] and all later ones [false]; and every level is still a
    safe integer, so each [++] on the way was exact. *)
Theorem repeated_increment_saturates (n : nat) (w : World) (lane l : Z) :
  Inv (state w) ->
  maxLevels (state w) <= MAX_SAFE_INTEGER ->
  isLocked (state w) = false ->
  0 <= lane < CONFIG.LANES ->
  levels (state w) !! Z.to_nat lane = Some l ->
  levels (state (snd (Examples.incrementTimes n lane w))) !! Z.to_nat lane
    = Some (Z.min (l + Z.of_nat n) (maxLevels (state w))) /\
  fst (Examples.incrementTimes n lane w)
    = (replicate (Z.to_nat (Z.min (Z.of_nat n) (maxLevels (state w) - l))) true ++
       replicate (n - Z.to_nat (Z.min (Z.of_nat n) (maxLevels (state w) - l))) false)%list /\
  Forall safeInteger (levels (state (snd (Examples.incrementTimes n lane w)))).
Proof.
  revert w l. induction n as [|n IH]; intros w l HI Hsafe Hlock Hlane Hl.
  - simpl. rewrite Hl. split_and!; [f_equal| |apply Inv_safe; assumption].
    + assert (Hle : l <= maxLevels (state w)).
      { destruct HI as [_ Hall]. rewrite Forall_lookup in Hall.
        specialize (Hall _ _ Hl). simpl in Hall. lia. }
      lia.
    + replace (Z.to_nat (Z.min (Z.of_nat 0) (maxLevels (state w) - l))) with 0%nat by lia.
      reflexivity.
  - assert (Hle : l <= maxLevels (state w)).
    { destruct HI as [_ Hall]. rewrite Forall_lookup in Hall.
      specialize (Hall _ _ Hl). simpl in Hall. lia. }
    pose proof (Inv_increment w lane HI) as HI'.
    pose proof (increment_keeps_lock w lane) as Hlock'.
    pose proof (increment_keeps_bound w lane) as Hmax.
    assert (Hsafe' : maxLevels (state (snd (increment lane w))) <= MAX_SAFE_INTEGER)
      by (rewrite Hmax; exact Hsafe).
    rewrite Hlock in Hlock'.
    rewrite incrementTimes_step.
    rewrite increment_run in *. rewrite Hlock, Hl in *.
    replace (lane <? 0) with false in * by (symmetry; apply Z.ltb_ge; lia).
    replace (lane >=? CONFIG.LANES) with false in *
      by (symmetry; rewrite Z.geb_leb; apply Z.leb_gt; lia).
    cbn [orb lt_number] in *.
    destruct (l <? maxLevels (state w)) eqn:Elt; cbn [fst snd] in *.
    + apply Z.ltb_lt in Elt.
      match goal with
      | |- context [Examples.incrementTimes n lane ?x] => set (w1 := x) in *
      end.
      assert (Hl1 : levels (state w1) !! Z.to_nat lane = Some (l + 1)).
      { unfold w1. rewrite saved_state. simpl. rewrite (bump_insert _ _ _ _ Hl).
        apply list_lookup_insert_eq, (lookup_lt_Some _ _ _ Hl). }
      destruct (IH w1 (l + 1) HI' Hsafe' Hlock' Hlane Hl1) as (IHl & IHr & IHs).
      rewrite IHl, IHr, Hmax. split_and!; [f_equal; lia| |exact IHs].
      replace (Z.to_nat (Z.min (Z.of_nat (S n)) (maxLevels (state w) - l)))
        with (S (Z.to_nat (Z.min (Z.of_nat n) (maxLevels (state w) - (l + 1)))))
        by lia.
      reflexivity.
    + apply Z.ltb_ge in Elt.
      destruct (IH w l HI Hsafe Hlock Hlane Hl) as (IHl & IHr & IHs).
      rewrite IHl, IHr. split_and!; [f_equal; lia| |exact IHs].
      replace (Z.to_nat (Z.min (Z.of_nat (S n)) (maxLevels (state w) - l)))
        with 0%nat by lia.
      replace (Z.to_nat (Z.min (Z.of_nat n) (maxLevels (state w) - l)))
        with 0%nat by lia.
      simpl. rewrite Nat.sub_0_r. reflexivity.
Qed.

(** *** Day reconciliation and reload *)

(** X15. Where [todayKey()] returns [today] (the zone of the state is one
    the platform knows), the callback of the visibility timer returns and
    leaves the day key at [today]: when the key already is today's it
    changes nothing at all, otherwise it is one [resetForNewDay], which
    clears the levels and keeps the lock. *)
Theorem visibility_check_reconciles (w : World) (today : string) :
  todayKey w = (Normal today, w) ->
  exists w',
    visibilityCallback w = (Normal tt, w') /\
    dateKey (state w') = today /\
    isLocked (state w') = isLocked (state w) /\
    (dateKey (state w) = today -> w' = w) /\
    (dateKey (state w) <> today ->
     resetForNewDay w = (Normal tt, w') /\ levels (state w') = zeroLevels /\
     lastUpdated (state w') = clock w).
Proof.
  rewrite todayKey_run. intros [= <-].
  exists (snd (visibilityCallback w)). rewrite visibilityCallback_run.
  destruct (bool_decide (dateKey (state w) <> keyOf (timezone (state w)) (clock w)))
    eqn:Eb.
  - apply bool_decide_eq_true in Eb. rewrite resetForNewDay_run. simpl.
    rewrite saved_state. simpl. split_and!; try reflexivity; tauto.
  - apply bool_decide_eq_false in Eb.
    assert (Heq : dateKey (state w) = keyOf (timezone (state w)) (clock w)).
    { destruct (decide (dateKey (state w) = keyOf (timezone (state w)) (clock w)));
        [assumption|contradiction]. }
    simpl. split_and!; try reflexivity; try assumption; tauto.
Qed.

(** X16. A reload on the same day restores the board from what [save]
    wrote: a fresh state object that loads on a day whose key is the
    saved day key adopts the saved levels, bound, zone and day key. The
    lock is not stored, so the reloaded board is unlocked; and its
    [lastUpdated] is the time of the save, not the stamp the state held. *)
Theorem reload_restores_board (w w1 : World) (now' : Z) (isHidden : bool) :
  reachable w ->
  mode (localStorage w) = Available ->
  JSON_stringify (snapshot (state w) (clock w)) <> "" ->
  JSON_parse (JSON_stringify (snapshot (state w) (clock w)))
    = Some (snapshot (state w) (clock w)) ->
  save w = (Normal tt, w1) ->
  todayKey (boot (localStorage w1) now' isHidden)
    = (Normal (dateKey (state w)), boot (localStorage w1) now' isHidden) ->
  exists w2,
    loadOrInit (boot (localStorage w1) now' isHidden) = (Normal true, w2) /\
    levels (state w2) = levels (state w) /\
    maxLevels (state w2) = maxLevels (state w) /\
    timezone (state w2) = timezone (state w) /\
    dateKey (state w2) = dateKey (state w) /\
    isLocked (state w2) = false /\
    lastUpdated (state w2) = clock w.
Proof.
  intros Hreach Hm Hne Hparse Hsave Htoday.
  destruct (reachable_truthy w Hreach) as [Hmax Htz].
  rewrite save_run in Hsave. injection Hsave as <-.
  rewrite todayKey_run in Htoday. injection Htoday as Hkey.
  set (w0 := boot (localStorage (saved w)) now' isHidden) in *.
  assert (Hitem : item (localStorage w0)
                  = Some (JSON_stringify (snapshot (state w) (clock w)))).
  { unfold w0, saved. rewrite Hm. reflexivity. }
  assert (Hmode : mode (localStorage w0) <> Denied).
  { unfold w0. simpl. rewrite saved_mode, Hm. discriminate. }
  eexists. split.
  - apply (loadOrInit_adopts w0 _ _ Hmode Hitem Hne Hparse).
    + simpl. simpl in Hkey. rewrite Hkey. reflexivity.
    + reflexivity.
  - simpl. split_and!; try reflexivity.
    + apply or_default_Z_id, Hmax.
    + apply or_default_string_id, Htz.
    + exact Hkey.
Qed.

(** *** Arming and cancelling *)

(** X17. [cleanup] cancels the two timers whose handles the state holds
    and nothing else: the state and the store stay as they are, and
    every other pending timer stays pending. Where the midnight timers
    are tracked, only visibility timers can be left. *)
Theorem cleanup_cancels_held_timers (w : World) :
  exists w',
    cleanup w = (Normal tt, w') /\
    state w' = state w /\ localStorage w' = localStorage w /\
    (forall h, midnightTimer (state w) = Some h -> timers w' !! h = None) /\
    (forall h, visibilityTimer (state w) = Some h -> timers w' !! h = None) /\
    (forall h, midnightTimer (state w) <> Some h ->
               visibilityTimer (state w) <> Some h ->
               timers w' !! h = timers w !! h) /\
    (midnightTracked w ->
     forall h t, timers w' !! h = Some t -> callback t = VisibilityCheck).
Proof.
  eexists. rewrite cleanup_run. split; [reflexivity|]. simpl.
  assert (Hlook : forall h,
            (match visibilityTimer (state w) with
             | Some v =>
                 delete v (match midnightTimer (state w) with
                           | Some h0 => delete h0 (timers w)
                           | None => timers w
                           end)
             | None =>
                 match midnightTimer (state w) with
                 | Some h0 => delete h0 (timers w)
                 | None => timers w
                 end
             end) !! h
            = if bool_decide (midnightTimer (state w) = Some h
                              \/ visibilityTimer (state w) = Some h)
              then None else timers w !! h).
  { intros h.
    destruct (visibilityTimer (state w)) as [v|], (midnightTimer (state w)) as [m|];
      rewrite ?lookup_delete; repeat case_decide; subst;
      try reflexivity; try (case_bool_decide; naive_solver). }
  split_and!; try reflexivity.
  - intros h Hh. rewrite Hlook, bool_decide_eq_true_2 by tauto. reflexivity.
  - intros h Hh. rewrite Hlook, bool_decide_eq_true_2 by tauto. reflexivity.
  - intros h Hm Hv. rewrite Hlook, bool_decide_eq_false_2 by tauto. reflexivity.
  - intros [Htrack _] h t Hl. rewrite Hlook in Hl. case_bool_decide; [discriminate|].
    destruct (callback t) eqn:Ec; [|reflexivity].
    specialize (Htrack h t Hl Ec). tauto.
Qed.

(** X18. [scheduleMidnightReset] arms a timer with the delay
    [msUntilNextMidnight()] computes, keeps its handle in the state and
    cancels the timer of the handle it held. Where the midnight timers are
    tracked they still are afterwards and the new timer is the only
    pending midnight timer, however often the method is called. *)
Theorem scheduleMidnightReset_rearms (w : World) :
  exists ms w',
    msUntilNextMidnight w = (Normal ms, w) /\
    scheduleMidnightReset w = (Normal tt, w') /\
    midnightTimer (state w') = Some (nextTimer w) /\
    timers w' !! nextTimer w = Some {| callback := MidnightReset; delay := ms |} /\
    (forall h, midnightTimer (state w) = Some h -> h <> nextTimer w ->
               timers w' !! h = None) /\
    (midnightTracked w ->
     midnightTracked w' /\
     forall h t, timers w' !! h = Some t -> callback t = MidnightReset ->
                 h = nextTimer w).
Proof.
  eexists _, (snd (scheduleMidnightReset w)).
  split; [apply msUntilNextMidnight_run|].
  split; [rewrite scheduleMidnightReset_run; reflexivity|].
  split_and!.
  - rewrite scheduleMidnightReset_run. reflexivity.
  - rewrite scheduleMidnightReset_run. simpl. apply lookup_insert_eq.
  - intros h Hh Hne. rewrite scheduleMidnightReset_run. simpl.
    rewrite lookup_insert_ne by congruence. rewrite Hh. apply lookup_delete_eq.
  - intros Ht. apply scheduleMidnightReset_single, Ht.
Qed.

(** *** throttle *)

Lemma throttle_pending_old {F : Type} (key : string) (r : Throttle F)
      (h : positive) (x : F * Z * string) :
  match throttleTimers r !! key with
  | Some h0 => delete h0 (scheduled r)
  | None => scheduled r
  end !! h = Some x ->
  scheduled r !! h = Some x /\ throttleTimers r !! key <> Some h.
Proof.
  destruct (throttleTimers r !! key) as [h0|].
  - intros Hl. apply lookup_delete_Some in Hl as [Hne Hl]. split; [exact Hl|congruence].
  - intros Hl. split; [exact Hl|discriminate].
Qed.

Lemma throttle_tracked {F : Type} (func : F) (delay : Z) (key : string) (r : Throttle F) :
  throttleTracked r -> throttleTracked (throttle func delay key r).
Proof.
  intros [Htrack Hmap]. split; simpl.
  - intros h f d k Hl. destruct (decide (nextHandle r = h)) as [<-|Hne].
    + rewrite lookup_insert_eq in Hl. injection Hl as <- <- <-.
      apply lookup_insert_eq.
    + rewrite lookup_insert_ne in Hl by exact Hne.
      apply throttle_pending_old in Hl as [Hold Hnot].
      pose proof (Htrack _ _ _ _ Hold) as Hk.
      destruct (decide (key = k)) as [->|Hk'].
      * congruence.
      * rewrite lookup_insert_ne by exact Hk'. exact Hk.
  - intros k h Hl. destruct (decide (key = k)) as [->|Hk'].
    + rewrite lookup_insert_eq in Hl. injection Hl as <-. split; [lia|].
      intros f d k' Hs. rewrite lookup_insert_eq in Hs. congruence.
    + rewrite lookup_insert_ne in Hl by exact Hk'.
      destruct (Hmap _ _ Hl) as [Hlt Hown]. split; [lia|].
      intros f d k' Hs. rewrite lookup_insert_ne in Hs by lia.
      apply throttle_pending_old in Hs as [Hs _]. apply (Hown _ _ _ Hs).
Qed.

Lemma fireThrottle_tracked {F : Type} (h : positive) (r : Throttle F) :
  throttleTracked r -> throttleTracked (fireThrottle h r).
Proof.
  intros [Htrack Hmap]. unfold fireThrottle.
  destruct (scheduled r !! h) as [[[func delay] key]|] eqn:Eh; [|split; assumption].
  split; simpl.
  - intros h' f d k Hl. apply lookup_delete_Some in Hl as [Hne Hl].
    pose proof (Htrack _ _ _ _ Hl) as Hk. pose proof (Htrack _ _ _ _ Eh) as Hkey.
    destruct (decide (key = k)) as [->|Hk']; [congruence|].
    rewrite lookup_delete_ne by exact Hk'. exact Hk.
  - intros k h' Hl. apply lookup_delete_Some in Hl as [_ Hl].
    destruct (Hmap _ _ Hl) as [Hlt Hown]. split; [exact Hlt|].
    intros f d k' Hs. apply lookup_delete_Some in Hs as [_ Hs]. apply (Hown _ _ _ Hs).
Qed.

(** X19. [throttle] is cancel-and-replace per key: after a call the one
    pending timer of that key is the new one, with the function and delay
    just passed, and the pending timers of every other key are as they
    were. Tracking of the pending timers by the map survives [throttle]
    and the firing of a timer. *)
Theorem throttle_replaces_pending {F : Type} (func : F) (delay : Z) (key : string)
        (r : Throttle F) (h : positive) :
  throttleTracked r ->
  throttleTracked (throttle func delay key r) /\
  throttleTracked (fireThrottle h r) /\
  scheduled (throttle func delay key r) !! nextHandle r = Some (func, delay, key) /\
  (forall h' f d,
     scheduled (throttle func delay key r) !! h' = Some (f, d, key) ->
     h' = nextHandle r /\ f = func /\ d = delay) /\
  (forall h' f d k,
     k <> key ->
     (scheduled (throttle func delay key r) !! h' = Some (f, d, k) <->
      scheduled r !! h' = Some (f, d, k))) /\
  called (throttle func delay key r) = called r.
Proof.
  intros Ht. pose proof (throttle_tracked func delay key r Ht) as Ht'.
  split; [exact Ht'|]. split; [apply fireThrottle_tracked, Ht|].
  destruct Ht as [Htrack Hmap].
  split; [apply lookup_insert_eq|]. split_and!.
  - intros h' f d Hl. destruct Ht' as [Htrack' _].
    pose proof (Htrack' _ _ _ _ Hl) as Hk. simpl in Hk.
    rewrite lookup_insert_eq in Hk. injection Hk as <-.
    simpl in Hl. rewrite lookup_insert_eq in Hl. injection Hl as <- <-.
    split_and!; reflexivity.
  - intros h' f d k Hk. simpl. split.
    + intros Hl. destruct (decide (nextHandle r = h')) as [<-|Hne].
      * rewrite lookup_insert_eq in Hl. congruence.
      * rewrite lookup_insert_ne in Hl by exact Hne.
        apply throttle_pending_old in Hl as [Hl _]. exact Hl.
    + intros Hl. pose proof (Htrack _ _ _ _ Hl) as Hk'.
      destruct (Hmap _ _ Hk') as [Hlt _].
      rewrite lookup_insert_ne by lia.
      destruct (throttleTimers r !! key) as [h0|] eqn:Ek; [|exact Hl].
      apply lookup_delete_Some. split; [|exact Hl].
      intros ->. destruct (Hmap _ _ Ek) as [_ Hown].
      apply Hk. apply (Hown _ _ _ Hl).
  - reflexivity.
Qed.

(** X20. Of two [throttle] calls for one key with no firing in between,
    only the second function ever runs: the first timer is no longer
    pending, so its firing does nothing, and the second, when it fires,
    runs its function once and forgets the key. *)
Theorem throttle_burst_runs_last {F : Type} (f1 f2 : F) (d1 d2 : Z) (key : string)
        (r : Throttle F) :
  throttleTracked r ->
  fireThrottle (nextHandle r) (throttle f2 d2 key (throttle f1 d1 key r))
    = throttle f2 d2 key (throttle f1 d1 key r) /\
  called (fireThrottle (Pos.succ (nextHandle r))
            (throttle f2 d2 key (throttle f1 d1 key r)))
    = (called r ++ [f2])%list /\
  throttleTimers (fireThrottle (Pos.succ (nextHandle r))
                    (throttle f2 d2 key (throttle f1 d1 key r))) !! key = None /\
  forall h x,
    scheduled (fireThrottle (Pos.succ (nextHandle r))
                 (throttle f2 d2 key (throttle f1 d1 key r))) !! h = Some x ->
    snd x <> key.
Proof.
  intros Ht.
  pose proof (throttle_tracked f1 d1 key r Ht) as Ht1.
  pose proof (throttle_tracked f2 d2 key _ Ht1) as Ht2.
  assert (Hdead : scheduled (throttle f2 d2 key (throttle f1 d1 key r)) !! nextHandle r
                  = None).
  { simpl. rewrite lookup_insert_ne by lia. rewrite lookup_insert_eq.
    apply lookup_delete_eq. }
  assert (Hlive : scheduled (throttle f2 d2 key (throttle f1 d1 key r))
                    !! Pos.succ (nextHandle r) = Some (f2, d2, key)).
  { simpl. apply lookup_insert_eq. }
  split_and!.
  - unfold fireThrottle. rewrite Hdead. reflexivity.
  - unfold fireThrottle. rewrite Hlive. reflexivity.
  - unfold fireThrottle. rewrite Hlive. simpl. apply lookup_delete_eq.
  - intros h [[f d] k] Hl Hk. simpl in Hk. subst k.
    pose proof (fireThrottle_tracked (Pos.succ (nextHandle r)) _ Ht2) as [Htrack _].
    specialize (Htrack _ _ _ _ Hl).
    unfold fireThrottle in Htrack. rewrite Hlive in Htrack. simpl in Htrack.
    rewrite lookup_delete_eq in Htrack. discriminate.
Qed.

End Properties.

(** ** The reference platform at work *)

#[local] Existing Instance Reference.taipei.

Import Examples.

Lemma Inv_board_example : Inv (state (board [0; 0; 19; 0; 0; 0] false)).
Proof.
  split; [reflexivity|]. simpl. unfold CONFIG.MAX_LEVELS.
  repeat (constructor; [lia|]). constructor.
Qed.

Lemma Inv_board_full : Inv (state (board [0; 0; 20; 0; 0; 0] false)).
Proof.
  split; [reflexivity|]. simpl. unfold CONFIG.MAX_LEVELS.
  repeat (constructor; [lia|]). constructor.
Qed.

(** C1, the claim as stated fails: on 2 January the store holds today's
    record, version 1, with 99 points in lane 0 and the bound 20;
    [loadOrInit] adopts it, and the invariant is broken. *)
Lemma adopted_record_breaks_invariant :
  fst (loadOrInit (boot (storeOf oversized) jan2 false)) = Normal true /\
  levels (state (snd (loadOrInit (boot (storeOf oversized) jan2 false))))
    = [99; 0; 0; 0; 0; 0] /\
  maxLevels (state (snd (loadOrInit (boot (storeOf oversized) jan2 false)))) = 20 /\
  ~ Inv (state (snd (loadOrInit (boot (storeOf oversized) jan2 false)))).
Proof.
  assert (Hl : levels (state (snd (loadOrInit (boot (storeOf oversized) jan2 false))))
               = [99; 0; 0; 0; 0; 0]) by (vm_compute; reflexivity).
  assert (Hm : maxLevels (state (snd (loadOrInit (boot (storeOf oversized) jan2 false))))
               = 20) by (vm_compute; reflexivity).
  split_and!; try assumption.
  - vm_compute. reflexivity.
  - intros [_ Hall]. rewrite Hl, Hm in Hall. inversion Hall; subst. lia.
Qed.

(** The same with a record of two lanes: the state ends with two entries. *)
Lemma adopted_record_changes_lane_count :
  fst (loadOrInit (boot (storeOf twoLanes) jan2 false)) = Normal true /\
  levels (state (snd (loadOrInit (boot (storeOf twoLanes) jan2 false)))) = [1; 2].
Proof. split; vm_compute; reflexivity. Qed.

(** C1 (amended), at a board with 19 points in lane 2. *)
Lemma invariant_kept_witness :
  Inv (state (board [0; 0; 19; 0; 0; 0] false)) /\
  Inv (state (snd (increment 2 (board [0; 0; 19; 0; 0; 0] false)))) /\
  Inv (state (snd (resetForNewDay (board [0; 0; 19; 0; 0; 0] false)))).
Proof.
  pose proof (proj2 (invariant_kept 0 (board [0; 0; 19; 0; 0; 0] false) 2)
                Inv_board_example) as (Hi & _ & _ & Hr & _).
  split; [exact Inv_board_example|]. split; [exact Hi|exact Hr].
Defined.

(** C2, the claim as stated fails: a locked board with 3 points in lane
    0; [resetForNewDay] zeroes the levels and stamps [lastUpdated]. *)
Lemma locked_board_is_rolled_over :
  isLocked (state (board [3; 0; 0; 0; 0; 0] true)) = true /\
  fst (resetForNewDay (board [3; 0; 0; 0; 0; 0] true)) = Normal tt /\
  levels (state (snd (resetForNewDay (board [3; 0; 0; 0; 0; 0] true))))
    = [0; 0; 0; 0; 0; 0] /\
  levels (state (snd (resetForNewDay (board [3; 0; 0; 0; 0; 0] true))))
    <> levels (state (board [3; 0; 0; 0; 0; 0] true)) /\
  lastUpdated (state (snd (resetForNewDay (board [3; 0; 0; 0; 0; 0] true))))
    <> lastUpdated (state (board [3; 0; 0; 0; 0; 0] true)).
Proof. split_and!; vm_compute; congruence. Qed.

(** [resetToday] has no lock gate either (lines 131-135): on the same
    locked board it zeroes the levels. *)
Lemma locked_board_resetToday_example :
  resetToday (board [3; 0; 0; 0; 0; 0] true)
  = (Normal tt, snd (resetToday (board [3; 0; 0; 0; 0; 0] true))) /\
  levels (state (snd (resetToday (board [3; 0; 0; 0; 0; 0] true))))
    = [0; 0; 0; 0; 0; 0] /\
  isLocked (state (snd (resetToday (board [3; 0; 0; 0; 0; 0] true)))) = true.
Proof. split_and!; vm_compute; reflexivity. Qed.

(** C2 (amended), at that locked board: the arrows are refused, the
    rollover goes through and reaches the store. *)
Lemma locked_gate_witness :
  increment 0 (board [3; 0; 0; 0; 0; 0] true)
    = (Normal false, board [3; 0; 0; 0; 0; 0] true) /\
  decrement 0 (board [3; 0; 0; 0; 0; 0] true)
    = (Normal false, board [3; 0; 0; 0; 0; 0] true) /\
  exists k w',
    resetForNewDay (board [3; 0; 0; 0; 0; 0] true) = (Normal tt, w') /\
    levels (state w') = zeroLevels /\
    item (localStorage w')
      = Some (JSON_stringify
                {| data_version := Some 1;
                   data_tz := Some (timezone (state (board [3; 0; 0; 0; 0; 0] true)));
                   data_dateKey := Some k;
                   data_levels := zeroLevels;
                   data_maxLevels := Some (maxLevels (state (board [3; 0; 0; 0; 0; 0] true)));
                   data_lastUpdated := clock (board [3; 0; 0; 0; 0; 0] true) |}).
Proof.
  destruct (locked_gate (board [3; 0; 0; 0; 0; 0] true) 0 eq_refl)
    as (Hi & Hd & k & w' & _ & Hr & Hl & _ & _ & _ & _ & Hs).
  split; [exact Hi|]. split; [exact Hd|].
  exists k, w'. split; [exact Hr|]. split; [exact Hl|]. apply Hs. reflexivity.
Defined.

(** C3, the claim as stated fails: on the board [loadOrInit] adopted from
    today's record with 99 points in lane 0 and the bound 20,
    [increment(0)] returns [false] and changes nothing, although the
    board is unlocked, lane 0 is in range and its level is not equal to
    the bound. *)
Lemma increment_refused_above_bound :
  isLocked (state (snd (loadOrInit (boot (storeOf oversized) jan2 false)))) = false /\
  levels (state (snd (loadOrInit (boot (storeOf oversized) jan2 false)))) !! Z.to_nat 0
    = Some 99 /\
  maxLevels (state (snd (loadOrInit (boot (storeOf oversized) jan2 false)))) = 20 /\
  increment 0 (snd (loadOrInit (boot (storeOf oversized) jan2 false)))
    = (Normal false, snd (loadOrInit (boot (storeOf oversized) jan2 false))).
Proof. split_and!; vm_compute; reflexivity. Qed.

(** C3 (amended), at a board whose lane 2 is at the bound: [increment(2)]
    is refused, [decrement(2)] goes through and leaves 19 points. *)
Lemma increment_decrement_contract_witness :
  increment 2 (board [0; 0; 20; 0; 0; 0] false)
    = (Normal false, board [0; 0; 20; 0; 0; 0] false) /\
  exists w',
    decrement 2 (board [0; 0; 20; 0; 0; 0] false) = (Normal true, w') /\
    levels (state w') = [0; 0; 19; 0; 0; 0] /\
    minusMinus 20 = 19 /\
    lastUpdated (state w') = clock (board [0; 0; 20; 0; 0; 0] false) /\
    persisted w'.
Proof.
  destruct (increment_decrement_contract (board [0; 0; 20; 0; 0; 0] false) 2)
    as (Hrefuse & _ & _ & Hdec & _).
  split.
  - apply Hrefuse. right; right; right; right. exists 20. split; [reflexivity|].
    simpl. unfold CONFIG.MAX_LEVELS. lia.
  - destruct Hdec as (l & Hl & _ & Hdec).
    + intros [Hlock|[Hlt|[Hge|[Hnone|(l & Hl & Hle)]]]];
        [discriminate|lia|unfold CONFIG.LANES in Hge; lia|discriminate|].
      simpl in Hl. injection Hl as <-. lia.
    + simpl in Hl. injection Hl as <-.
      destruct Hdec as (w' & Hrun & _ & Hex & Hlev & Hstamp & Hpers).
      * apply safeInteger_range. lia.
      * exists w'. split_and!; [exact Hrun|exact Hlev|exact Hex|exact Hstamp|].
        apply Hpers. reflexivity.
Defined.

(** C10, at the same board: the refused [increment(2)]. *)
Lemma refused_call_changes_nothing_witness :
  snd (increment 2 (board [0; 0; 20; 0; 0; 0] false))
  = board [0; 0; 20; 0; 0; 0] false.
Proof.
  apply (refused_call_changes_nothing (board [0; 0; 20; 0; 0; 0] false) _ 2).
  left. vm_compute. reflexivity.
Defined.

(** C6, at the page that started on an empty store and scored once, read
    back by a state object that holds 4 points in every lane, is locked
    and has the bound 7: after [loadOrInit()] it holds the saved levels,
    bound and zone, and is still locked. *)
Lemma save_loadOrInit_roundtrip_witness :
  levels (state played) = [0; 0; 1; 0; 0; 0] /\
  exists w1 w2,
    save played = (Normal tt, w1) /\
    loadOrInit
      (with_state (with_maxLevels 7 (state (board [4; 4; 4; 4; 4; 4] true)))
         (with_localStorage (localStorage (snd (save played)))
            (board [4; 4; 4; 4; 4; 4] true)))
      = (Normal true, w2) /\
    levels (state w2) = levels (state played) /\
    maxLevels (state w2) = maxLevels (state played) /\
    timezone (state w2) = timezone (state played) /\
    isLocked (state w2) = true.
Proof.
  split; [vm_compute; reflexivity|].
  assert (Hreach : reachable played).
  { unfold played. apply reachable_step, reachable_step, reachable_boot. }
  destruct (save_loadOrInit_roundtrip played
              (with_state (with_maxLevels 7 (state (board [4; 4; 4; 4; 4; 4] true)))
                 (with_localStorage (localStorage (snd (save played)))
                    (board [4; 4; 4; 4; 4; 4] true)))
              Hreach)
    as (w1 & w2 & Hs & _ & Hl & Hlev & Hmax & Htz & _ & Hlock & _).
  - vm_compute. reflexivity.
  - vm_compute. discriminate.
  - vm_compute. reflexivity.
  - reflexivity.
  - vm_compute. reflexivity.
  - exists w1, w2. split_and!; assumption.
Defined.

(** C8, at a visible page with no timer yet: handles 1 and 2 are both
    pending after two visibility changes. *)
Lemma visibility_timers_pile_up_witness :
  exists w1 w2,
    onVisibilityChange (board [0; 0; 0; 0; 0; 0] false) = (Normal tt, w1) /\
    onVisibilityChange w1 = (Normal tt, w2) /\
    timers w2 !! 1%positive
      = Some {| callback := VisibilityCheck; delay := 1000 |} /\
    timers w2 !! 2%positive
      = Some {| callback := VisibilityCheck; delay := 1000 |}.
Proof.
  destruct (visibility_timers_pile_up (board [0; 0; 0; 0; 0; 0] false) eq_refl)
    as (w1 & w2 & H1 & H2 & H3 & H4 & _).
  exists w1, w2. split_and!; assumption.
Defined.

(** *** Scenarios of the specification *)

(** A record of 1 January is not adopted on 2 January. *)
Lemma stale_record_example :
  fst (loadOrInit (boot (storeOf stale) jan2 false)) = Normal false /\
  levels (state (snd (loadOrInit (boot (storeOf stale) jan2 false))))
    = [0; 0; 0; 0; 0; 0] /\
  dateKey (state (snd (loadOrInit (boot (storeOf stale) jan2 false))))
    = "2023-01-02".
Proof. split_and!; vm_compute; reflexivity. Qed.

(** A record of today under version 2 is not adopted. *)
Lemma unknown_version_example :
  fst (loadOrInit (boot (storeOf unknownVersion) jan2 false)) = Normal false /\
  levels (state (snd (loadOrInit (boot (storeOf unknownVersion) jan2 false))))
    = [0; 0; 0; 0; 0; 0].
Proof. split_and!; vm_compute; reflexivity. Qed.

(** Today's record under version 1 is adopted. *)
Lemma fresh_record_example :
  fst (loadOrInit (boot (storeOf fresh) jan2 false)) = Normal true /\
  levels (state (snd (loadOrInit (boot (storeOf fresh) jan2 false))))
    = [5; 0; 0; 0; 0; 0].
Proof. split_and!; vm_compute; reflexivity. Qed.

(** A store that refuses access, and a text that is no JSON: the error is
    caught and logged, and the day starts fresh. *)
Lemma unreadable_store_example :
  loadOrInit (boot {| item := None; mode := Denied |} jan2 false)
  = (Normal false,
     snd (resetForNewDay
            (with_console [Warn SecurityError]
               (boot {| item := None; mode := Denied |} jan2 false)))) /\
  fst (loadOrInit (boot {| item := Some "{oops"; mode := Available |} jan2 false))
  = Normal false /\
  console (snd (loadOrInit (boot {| item := Some "{oops"; mode := Available |} jan2 false)))
  = [Warn SyntaxError].
Proof. split_and!; vm_compute; reflexivity. Qed.

(** Six lanes, bound 20, all zero: five calls of [increment(2)] return
    [true] and leave [0,0,5,0,0,0]; of 21 calls the last returns [false]
    and lane 2 stays at 20. *)
Lemma increment_scenario :
  fst (incrementTimes 5 2 (board [0; 0; 0; 0; 0; 0] false)) = replicate 5 true /\
  levels (state (snd (incrementTimes 5 2 (board [0; 0; 0; 0; 0; 0] false))))
    = [0; 0; 5; 0; 0; 0] /\
  fst (incrementTimes 21 2 (board [0; 0; 0; 0; 0; 0] false))
    = (replicate 20 true ++ [false])%list /\
  levels (state (snd (incrementTimes 21 2 (board [0; 0; 0; 0; 0; 0] false))))
    = [0; 0; 20; 0; 0; 0].
Proof. split_and!; vm_compute; reflexivity. Qed.

(** One millisecond before midnight in Taipei, [init] arms one timer with
    a delay of 1 ms. When it fires at midnight the rollover to 3 January
    happens, the closure throws, and no timer is pending afterwards. *)
Lemma midnight_scenario :
  timers started = {[ 1%positive := {| callback := MidnightReset; delay := 1 |} ]} /\
  fst (fire 1 (outside (localStorage started) (beforeMidnight + 1) false started))
    = Abrupt TypeError /\
  dateKey (state (snd (fire 1 (outside (localStorage started) (beforeMidnight + 1)
                                 false started))))
    = "2023-01-03" /\
  timers (snd (fire 1 (outside (localStorage started) (beforeMidnight + 1)
                         false started)))
    = ∅.
Proof. split_and!; vm_compute; reflexivity. Qed.

(** On a machine set to UTC the day string of Taipei is read back as a
    UTC midnight: at 2023-01-01T20:00Z (04:00 on 2 January in Taipei) the
    delay is 28 hours, while the day changes in Taipei 20 hours later. *)
Lemma delay_on_utc_machine_example :
  fst (@msUntilNextMidnight (Reference.platform 0)
         (boot emptyStore 1672603200000 false))
    = Normal (28 * 3600000) /\
  fst (msUntilNextMidnight (boot emptyStore 1672603200000 false))
    = Normal (20 * 3600000) /\
  Reference.format "Asia/Taipei" (1672603200000 + 20 * 3600000 - 1) = "2023-01-02" /\
  Reference.format "Asia/Taipei" (1672603200000 + 20 * 3600000) = "2023-01-03".
Proof. split_and!; vm_compute; reflexivity. Qed.

(** After two visibility changes, [cleanup] cancels the newer timer only;
    and the older one, fired on the next day, still performs a rollover. *)
Lemma visibility_scenario :
  timers (snd (cleanup (snd (onVisibilityChange
                               (snd (onVisibilityChange
                                       (board [4; 0; 0; 0; 0; 0] false)))))))
    = {[ 1%positive := {| callback := VisibilityCheck; delay := 1000 |} ]} /\
  levels (state (snd (fire 1
            (outside emptyStore (jan2 + 86400000) false
               (snd (onVisibilityChange
                       (snd (onVisibilityChange
                               (board [4; 0; 0; 0; 0; 0] false)))))))))
    = [0; 0; 0; 0; 0; 0].
Proof. split_and!; vm_compute; reflexivity. Qed.

(** *** Further examples *)

Import PageExamples.

(** X4, at a board whose lane 2 is at the bound: the up arrow is drawn
    disabled and [increment(2)] returns [false]. *)
Lemma arrows_tell_refusal_witness :
  upBtn (render (state (board [0; 0; 20; 0; 0; 0] false)) classroom) !! 2%nat
    = Some true /\
  fst (increment (Z.of_nat 2) (board [0; 0; 20; 0; 0; 0] false)) = Normal (negb true).
Proof.
  assert (Hup : upBtn (render (state (board [0; 0; 20; 0; 0; 0] false)) classroom)
                  !! 2%nat = Some true) by (vm_compute; reflexivity).
  split; [exact Hup|].
  apply (proj1 (arrows_tell_refusal (board [0; 0; 20; 0; 0; 0] false) classroom
                  2%nat 20 ltac:(vm_compute; reflexivity) eq_refl) true Hup).
Defined.

(** X5, at a freshly drawn board: a click on the up arrow of lane 2. *)
Lemma handlers_keep_screen_current_witness :
  current (Page.arrowClick true 2
             {| world := board [0; 0; 19; 0; 0; 0] false;
                document := render (state (board [0; 0; 19; 0; 0; 0] false)) classroom |}).
Proof.
  exact (proj1 (handlers_keep_screen_current
                  {| world := board [0; 0; 19; 0; 0; 0] false;
                     document := render (state (board [0; 0; 19; 0; 0; 0] false))
                                   classroom |}
                  2 true "DIV" "ArrowUp" None (shows_render _ _))).
Defined.

(** X6, at a start-up on an empty store one millisecond before midnight
    in Taipei: the board is fresh with the key of 2 January, and the
    midnight timer is due in one millisecond. *)
Lemma init_postcondition_witness :
  state (world (Page.init {| world := boot emptyStore beforeMidnight false;
                             document := classroom |}))
    = {| levels := [0; 0; 0; 0; 0; 0]; maxLevels := 20; timezone := "Asia/Taipei";
         dateKey := "2023-01-02"; lastUpdated := beforeMidnight; isLocked := false;
         midnightTimer := Some 1%positive; visibilityTimer := None |} /\
  timers (world (Page.init {| world := boot emptyStore beforeMidnight false;
                              document := classroom |}))
    = {[ 1%positive := {| callback := MidnightReset; delay := 1 |} ]} /\
  current (Page.init {| world := boot emptyStore beforeMidnight false;
                        document := classroom |}).
Proof.
  destruct (init_postcondition emptyStore beforeMidnight false classroom "2023-01-02")
    as (w1 & ms & _ & _ & Hms & Hst & Htm & _ & _ & Hcur).
  - vm_compute. reflexivity.
  - right; left. reflexivity.
  - assert (Hone : ms = 1) by (rewrite Hms; vm_compute; reflexivity).
    rewrite Hone in Htm. split; [exact Hst|]. split; [exact Htm|exact Hcur].
Defined.

(** X7, at a page that armed the midnight timer, saw a visibility change
    and armed the midnight timer again: handle 1 is cancelled, the
    visibility timer 2 and the midnight timer 3 are pending, and 3 is the
    only pending midnight timer. *)
Lemma at_most_one_midnight_timer_witness :
  timers rearmed !! 1%positive = None /\
  timers rearmed !! 2%positive
    = Some {| callback := VisibilityCheck; delay := 1000 |} /\
  timers rearmed !! 3%positive
    = Some {| callback := MidnightReset; delay := 1 |} /\
  midnightTimer (state rearmed) = Some 3%positive /\
  forall h t, timers rearmed !! h = Some t -> callback t = MidnightReset ->
              h = 3%positive.
Proof.
  assert (Hreach : reachable rearmed).
  { unfold rearmed.
    apply reachable_step, reachable_step, reachable_step, reachable_step,
      reachable_boot. }
  destruct (at_most_one_midnight_timer rearmed Hreach) as [_ Huniq].
  assert (H3 : timers rearmed !! 3%positive
               = Some {| callback := MidnightReset; delay := 1 |})
    by (vm_compute; reflexivity).
  split_and!; try (vm_compute; reflexivity).
  intros h t Hl Hc. exact (Huniq h 3%positive t _ Hl Hc H3 eq_refl).
Defined.

(** X10, at a start-up over today's well-formed record. *)
Lemma invariant_kept_by_events_witness :
  Inv (state (react Call_loadOrInit (boot (storeOf fresh) jan2 false))).
Proof.
  apply (invariant_kept_by_events Call_loadOrInit (boot (storeOf fresh) jan2 false)).
  - apply Inv_constructor.
  - intros _ text data Hitem Hparse. simpl in Hitem. injection Hitem as <-.
    vm_compute in Hparse. injection Hparse as <-.
    split; [reflexivity|]. simpl. unfold CONFIG.MAX_LEVELS.
    repeat (constructor; [lia|]). constructor.
Defined.

(** X11, at a board with a full store. *)
Lemma failed_write_keeps_mutation_witness :
  exists w2 e,
    increment 2 (fullStore [0; 0; 19; 0; 0; 0]) = (Normal true, w2) /\
    levels (state w2) = <[Z.to_nat 2 := plusPlus 19]> [0; 0; 19; 0; 0; 0] /\
    plusPlus 19 = 19 + 1 /\
    localStorage w2 = localStorage (fullStore [0; 0; 19; 0; 0; 0]) /\
    console w2 = (console (fullStore [0; 0; 19; 0; 0; 0]) ++ [Err e])%list.
Proof.
  refine (proj2 (failed_write_keeps_mutation (fullStore [0; 0; 19; 0; 0; 0]) 2 19
                   ltac:(discriminate)) eq_refl _ eq_refl _ _).
  - unfold CONFIG.LANES. lia.
  - simpl. unfold CONFIG.MAX_LEVELS. lia.
  - apply safeInteger_range. lia.
Defined.

(** X12, at a board with 19 points in lane 2. *)
Lemma increment_decrement_inverse_witness :
  exists l w2,
    levels (state (board [0; 0; 19; 0; 0; 0] false)) !! Z.to_nat 2 = Some l /\
    levels (state (snd (increment 2 (board [0; 0; 19; 0; 0; 0] false)))) !! Z.to_nat 2
      = Some (plusPlus l) /\
    decrement 2 (snd (increment 2 (board [0; 0; 19; 0; 0; 0] false))) = (Normal true, w2) /\
    minusMinus (plusPlus l) = l /\
    levels (state w2) = levels (state (board [0; 0; 19; 0; 0; 0] false)).
Proof.
  refine (proj1 (increment_decrement_inverse (board [0; 0; 19; 0; 0; 0] false) _ 2
                   Inv_board_example _) _).
  - vm_compute. discriminate.
  - vm_compute. reflexivity.
Defined.

(** X14, at 25 calls on lane 2 from 19 points. *)
Lemma repeated_increment_saturates_witness :
  levels (state (snd (incrementTimes 25 2 (board [0; 0; 19; 0; 0; 0] false))))
    !! Z.to_nat 2
  = Some (Z.min (19 + Z.of_nat 25) (maxLevels (state (board [0; 0; 19; 0; 0; 0] false)))).
Proof.
  refine (proj1 (repeated_increment_saturates 25 (board [0; 0; 19; 0; 0; 0] false) 2 19
                   Inv_board_example _ eq_refl _ eq_refl)).
  - vm_compute. discriminate.
  - unfold CONFIG.LANES. lia.
Defined.

(** X15, at a board with 3 points that still carries the key of
    1 January on 2 January: the check clears it and sets today's key. *)
Lemma visibility_check_reconciles_witness :
  exists w',
    visibilityCallback
      (with_state (with_dateKey "2023-01-01" (state (board [3; 0; 0; 0; 0; 0] true)))
         (board [3; 0; 0; 0; 0; 0] true))
      = (Normal tt, w') /\
    dateKey (state w') = "2023-01-02" /\
    isLocked (state w') = true /\
    levels (state w') = [0; 0; 0; 0; 0; 0].
Proof.
  destruct (visibility_check_reconciles
              (with_state (with_dateKey "2023-01-01" (state (board [3; 0; 0; 0; 0; 0] true)))
                 (board [3; 0; 0; 0; 0; 0] true))
              "2023-01-02")
    as (w' & Hrun & Hkey & Hlock & _ & Hreset).
  - vm_compute. reflexivity.
  - exists w'. split; [exact Hrun|]. split; [exact Hkey|]. split; [exact Hlock|].
    apply Hreset. simpl. discriminate.
Defined.

(** X16, at the page that started and scored once, reloaded an hour
    later. *)
Lemma reload_restores_board_witness :
  exists w2,
    loadOrInit (boot (localStorage (snd (save played))) (jan2 + 3600000) false)
      = (Normal true, w2) /\
    levels (state w2) = levels (state played) /\
    maxLevels (state w2) = maxLevels (state played) /\
    timezone (state w2) = timezone (state played) /\
    dateKey (state w2) = dateKey (state played) /\
    isLocked (state w2) = false /\
    lastUpdated (state w2) = clock played.
Proof.
  apply (reload_restores_board played (snd (save played)) (jan2 + 3600000) false).
  - unfold played. apply reachable_step, reachable_step, reachable_boot.
  - vm_compute. reflexivity.
  - vm_compute. discriminate.
  - vm_compute. reflexivity.
  - vm_compute. reflexivity.
  - vm_compute. reflexivity.
Defined.

Lemma idle_tracked : throttleTracked idle.
Proof.
  split.
  - intros h f d k Hl. simpl in Hl. rewrite lookup_empty in Hl. discriminate.
  - intros k h Hl. simpl in Hl. rewrite lookup_empty in Hl. discriminate.
Qed.

(** X19, at a renderer with nothing pending. *)
Lemma throttle_replaces_pending_witness :
  scheduled (throttle 7%nat 50 "lane-2" idle) !! 1%positive = Some (7%nat, 50, "lane-2").
Proof.
  exact (proj1 (proj2 (proj2
           (throttle_replaces_pending 7%nat 50 "lane-2" idle 1%positive idle_tracked)))).
Defined.

(** X20, at the same renderer: of the functions 7 and 8, only 8 runs. *)
Lemma throttle_burst_runs_last_witness :
  called (fireThrottle 2%positive
            (throttle 8%nat 50 "lane-2" (throttle 7%nat 50 "lane-2" idle)))
  = [8%nat].
Proof.
  exact (proj1 (proj2
           (throttle_burst_runs_last 7%nat 8%nat 50 50 "lane-2" idle idle_tracked))).
Defined.
